(** * VK2: the engine of [core::Engine] (Engine.h, Engine.cpp)

    A shallow embedding of the engine's life cycle: initialisation, the
    event/draw loop, the per-frame draw cycle, teardown and the shader
    cache.  The engine object is a record, its member functions are
    computations in a state-and-exception monad, and everything the
    engine talks to (SDL, the Vulkan driver, vk-bootstrap, shaderc, the
    file system's permissions and clock) answers through an oracle that
    sees the whole history of calls made so far.  Every call is appended
    to a log, so that the order of the calls can be stated and proved. *)

From stdpp Require Import base option list gmap strings.
From Stdlib Require Import ZArith Lia.

Open Scope string_scope.
Open Scope list_scope.
Open Scope Z_scope.

(** ** Floating point

    [Draw] computes [abs(sin(FrameNumber / 120.0f))].  The arithmetic of
    the machine's floats is not modelled; it is an interface, and every
    statement below holds for each of its implementations. *)

Class FloatOps := {
  float : Type;
  float_0 : float;                         (* 0.f *)
  float_1 : float;                         (* 1.f *)
  float_120 : float;                       (* 120.0f *)
  float_of_uint64 : Z -> float;            (* the conversion uint64_t -> float *)
  float_div : float -> float -> float;     (* operator/ *)
  float_sin : float -> float;              (* sin *)
  float_abs : float -> float               (* abs *)
}.

(** A free implementation: a float is the expression that computes it. *)
Inductive fexpr : Type :=
  | FLit (n : Z)
  | FOfUint64 (n : Z)
  | FDiv (a b : fexpr)
  | FSin (a : fexpr)
  | FAbs (a : fexpr).

#[export] Instance fexpr_ops : FloatOps := {|
  float := fexpr;
  float_0 := FLit 0;
  float_1 := FLit 1;
  float_120 := FLit 120;
  float_of_uint64 := FOfUint64;
  float_div := FDiv;
  float_sin := FSin;
  float_abs := FAbs
|}.

(** ** Handles, results, events *)

(** An opaque handle; [0] is [VK_NULL_HANDLE] / [nullptr]. *)
Definition Handle := nat.

Inductive VkResult : Type :=
  | VK_SUCCESS
  | VK_NOT_READY
  | VK_TIMEOUT
  | VK_SUBOPTIMAL_KHR
  | VK_ERROR_OUT_OF_HOST_MEMORY
  | VK_ERROR_OUT_OF_DEVICE_MEMORY
  | VK_ERROR_DEVICE_LOST
  | VK_ERROR_SURFACE_LOST_KHR
  | VK_ERROR_OUT_OF_DATE_KHR.

(** [if (vkCreateX(...))]: a [VkResult] converted to [bool] is true for
    every value but [VK_SUCCESS] (which is 0). *)
Definition vk_nonzero (r : VkResult) : bool :=
  match r with VK_SUCCESS => false | _ => true end.

(** The Vulkan entry points whose result the driver decides. *)
Inductive VkEntry : Type :=
  | E_vkCreateCommandPool
  | E_vkAllocateCommandBuffers
  | E_vkCreateRenderPass
  | E_vkCreateFramebuffer
  | E_vkCreateFence
  | E_vkCreateSemaphore
  | E_vkCreateShaderModule
  | E_vkWaitForFences
  | E_vkAcquireNextImageKHR
  | E_vkQueueSubmit
  | E_vkQueuePresentKHR.

(** The results of vk-bootstrap that [Engine.cpp] takes [.value()] of:
    each holds a value or an error. *)
Inductive VkbResult : Type :=
  | R_InstanceBuilder_build
  | R_PhysicalDeviceSelector_select
  | R_DeviceBuilder_build
  | R_get_queue
  | R_get_queue_index
  | R_SwapchainBuilder_build
  | R_get_images
  | R_get_image_views.

Inductive SDL_EventType : Type :=
  | SDL_QUIT
  | SDL_OTHER (type : Z).

Inductive Exn : Type :=
  | runtime_error (what : string)
  | filesystem_error (op path : string).

(** The kinds of objects the engine owns. *)
Inductive Kind : Type :=
  | KWindow | KInstance | KDebugMessenger | KSurface | KDevice
  | KSwapchain | KImageView | KCommandPool | KCommandBuffer
  | KRenderPass | KFramebuffer | KFence | KSemaphore | KShaderModule.

#[export] Instance Kind_eq_dec : EqDecision Kind.
Proof. solve_decision. Defined.

#[export] Instance VkResult_eq_dec : EqDecision VkResult.
Proof. solve_decision. Defined.

#[export] Instance SDL_EventType_eq_dec : EqDecision SDL_EventType.
Proof. solve_decision. Defined.

Record VkExtent2D := { width : Z; height : Z }.

(** What shaderc hands back: the number of errors, the diagnostic text,
    and the bytes of the SPIR-V words between [cbegin()] and [cend()]. *)
Record CompilationResult := {
  GetNumErrors : nat;
  GetErrorMessage : string;
  spirv : list Byte.byte
}.

(** ** The engine object (Engine.h) *)

Record Engine := {
  Window : Handle;
  WindowExtents : VkExtent2D;
  IsInitialized : bool;
  AppName : string;
  FrameNumber : Z;                        (* uint64_t *)
  Instance : Handle;
  DebugMessenger : Handle;
  ChosenGPU : Handle;
  Device : Handle;
  Surface : Handle;
  Swapchain : Handle;
  SwapchainFormat : Z;
  SwapchainImages : list Handle;
  SwapchainImageViews : list Handle;
  GraphicsQueue : Handle;
  GraphicsQueueFamily : Z;
  CommandPool : Handle;
  MainCommandBuffer : Handle;
  RenderPass : Handle;
  Framebuffers : list Handle;
  PresentSemaphore : Handle;
  RenderSemaphore : Handle;
  RenderFence : Handle
}.

(** [Engine::Engine(appName)] on the memory [storage].  The header
    gives [Window], [WindowExtents], [IsInitialized] and [FrameNumber] a
    default initialiser, the constructor sets [AppName], and the vectors
    are constructed empty.  The other members have no initialiser and
    the constructor does not touch them: they hold whatever [storage]
    holds (zero when the object has static storage, anything
    otherwise).  One of them can be read before it is written:
    [Surface], by [InitVulkan], [InitSwapchain] and [Cleanup], when
    [SDL_Vulkan_CreateSurface] has failed. *)
Definition Engine_new (storage : Engine) (appName : string) : Engine := {|
  Window := 0%nat;
  WindowExtents := {| width := 1280; height := 700 |};
  IsInitialized := false;
  AppName := appName;
  FrameNumber := 0;
  Instance := Instance storage; DebugMessenger := DebugMessenger storage;
  ChosenGPU := ChosenGPU storage;
  Device := Device storage; Surface := Surface storage;
  Swapchain := Swapchain storage; SwapchainFormat := SwapchainFormat storage;
  SwapchainImages := []; SwapchainImageViews := [];
  GraphicsQueue := GraphicsQueue storage;
  GraphicsQueueFamily := GraphicsQueueFamily storage;
  CommandPool := CommandPool storage;
  MainCommandBuffer := MainCommandBuffer storage;
  RenderPass := RenderPass storage; Framebuffers := [];
  PresentSemaphore := PresentSemaphore storage;
  RenderSemaphore := RenderSemaphore storage;
  RenderFence := RenderFence storage
|}.

(** A file: its last write time and its bytes. *)
Record File := { mtime : Z; bytes : list Byte.byte }.

(** Assignment to one member. *)
Definition set_Window (v : Handle) (e : Engine) : Engine :=
  {| Window := v; WindowExtents := WindowExtents e;
     IsInitialized := IsInitialized e; AppName := AppName e;
     FrameNumber := FrameNumber e; Instance := Instance e;
     DebugMessenger := DebugMessenger e; ChosenGPU := ChosenGPU e;
     Device := Device e; Surface := Surface e; Swapchain := Swapchain e;
     SwapchainFormat := SwapchainFormat e;
     SwapchainImages := SwapchainImages e;
     SwapchainImageViews := SwapchainImageViews e;
     GraphicsQueue := GraphicsQueue e;
     GraphicsQueueFamily := GraphicsQueueFamily e;
     CommandPool := CommandPool e; MainCommandBuffer := MainCommandBuffer e;
     RenderPass := RenderPass e; Framebuffers := Framebuffers e;
     PresentSemaphore := PresentSemaphore e;
     RenderSemaphore := RenderSemaphore e; RenderFence := RenderFence e |}.
Definition set_IsInitialized (v : bool) (e : Engine) : Engine :=
  {| Window := Window e; WindowExtents := WindowExtents e;
     IsInitialized := v; AppName := AppName e; FrameNumber := FrameNumber e;
     Instance := Instance e; DebugMessenger := DebugMessenger e;
     ChosenGPU := ChosenGPU e; Device := Device e; Surface := Surface e;
     Swapchain := Swapchain e; SwapchainFormat := SwapchainFormat e;
     SwapchainImages := SwapchainImages e;
     SwapchainImageViews := SwapchainImageViews e;
     GraphicsQueue := GraphicsQueue e;
     GraphicsQueueFamily := GraphicsQueueFamily e;
     CommandPool := CommandPool e; MainCommandBuffer := MainCommandBuffer e;
     RenderPass := RenderPass e; Framebuffers := Framebuffers e;
     PresentSemaphore := PresentSemaphore e;
     RenderSemaphore := RenderSemaphore e; RenderFence := RenderFence e |}.
Definition set_FrameNumber (v : Z) (e : Engine) : Engine :=
  {| Window := Window e; WindowExtents := WindowExtents e;
     IsInitialized := IsInitialized e; AppName := AppName e;
     FrameNumber := v; Instance := Instance e;
     DebugMessenger := DebugMessenger e; ChosenGPU := ChosenGPU e;
     Device := Device e; Surface := Surface e; Swapchain := Swapchain e;
     SwapchainFormat := SwapchainFormat e;
     SwapchainImages := SwapchainImages e;
     SwapchainImageViews := SwapchainImageViews e;
     GraphicsQueue := GraphicsQueue e;
     GraphicsQueueFamily := GraphicsQueueFamily e;
     CommandPool := CommandPool e; MainCommandBuffer := MainCommandBuffer e;
     RenderPass := RenderPass e; Framebuffers := Framebuffers e;
     PresentSemaphore := PresentSemaphore e;
     RenderSemaphore := RenderSemaphore e; RenderFence := RenderFence e |}.
Definition set_Instance (v : Handle) (e : Engine) : Engine :=
  {| Window := Window e; WindowExtents := WindowExtents e;
     IsInitialized := IsInitialized e; AppName := AppName e;
     FrameNumber := FrameNumber e; Instance := v;
     DebugMessenger := DebugMessenger e; ChosenGPU := ChosenGPU e;
     Device := Device e; Surface := Surface e; Swapchain := Swapchain e;
     SwapchainFormat := SwapchainFormat e;
     SwapchainImages := SwapchainImages e;
     SwapchainImageViews := SwapchainImageViews e;
     GraphicsQueue := GraphicsQueue e;
     GraphicsQueueFamily := GraphicsQueueFamily e;
     CommandPool := CommandPool e; MainCommandBuffer := MainCommandBuffer e;
     RenderPass := RenderPass e; Framebuffers := Framebuffers e;
     PresentSemaphore := PresentSemaphore e;
     RenderSemaphore := RenderSemaphore e; RenderFence := RenderFence e |}.
Definition set_DebugMessenger (v : Handle) (e : Engine) : Engine :=
  {| Window := Window e; WindowExtents := WindowExtents e;
     IsInitialized := IsInitialized e; AppName := AppName e;
     FrameNumber := FrameNumber e; Instance := Instance e;
     DebugMessenger := v; ChosenGPU := ChosenGPU e; Device := Device e;
     Surface := Surface e; Swapchain := Swapchain e;
     SwapchainFormat := SwapchainFormat e;
     SwapchainImages := SwapchainImages e;
     SwapchainImageViews := SwapchainImageViews e;
     GraphicsQueue := GraphicsQueue e;
     GraphicsQueueFamily := GraphicsQueueFamily e;
     CommandPool := CommandPool e; MainCommandBuffer := MainCommandBuffer e;
     RenderPass := RenderPass e; Framebuffers := Framebuffers e;
     PresentSemaphore := PresentSemaphore e;
     RenderSemaphore := RenderSemaphore e; RenderFence := RenderFence e |}.
Definition set_ChosenGPU (v : Handle) (e : Engine) : Engine :=
  {| Window := Window e; WindowExtents := WindowExtents e;
     IsInitialized := IsInitialized e; AppName := AppName e;
     FrameNumber := FrameNumber e; Instance := Instance e;
     DebugMessenger := DebugMessenger e; ChosenGPU := v; Device := Device e;
     Surface := Surface e; Swapchain := Swapchain e;
     SwapchainFormat := SwapchainFormat e;
     SwapchainImages := SwapchainImages e;
     SwapchainImageViews := SwapchainImageViews e;
     GraphicsQueue := GraphicsQueue e;
     GraphicsQueueFamily := GraphicsQueueFamily e;
     CommandPool := CommandPool e; MainCommandBuffer := MainCommandBuffer e;
     RenderPass := RenderPass e; Framebuffers := Framebuffers e;
     PresentSemaphore := PresentSemaphore e;
     RenderSemaphore := RenderSemaphore e; RenderFence := RenderFence e |}.
Definition set_Device (v : Handle) (e : Engine) : Engine :=
  {| Window := Window e; WindowExtents := WindowExtents e;
     IsInitialized := IsInitialized e; AppName := AppName e;
     FrameNumber := FrameNumber e; Instance := Instance e;
     DebugMessenger := DebugMessenger e; ChosenGPU := ChosenGPU e;
     Device := v; Surface := Surface e; Swapchain := Swapchain e;
     SwapchainFormat := SwapchainFormat e;
     SwapchainImages := SwapchainImages e;
     SwapchainImageViews := SwapchainImageViews e;
     GraphicsQueue := GraphicsQueue e;
     GraphicsQueueFamily := GraphicsQueueFamily e;
     CommandPool := CommandPool e; MainCommandBuffer := MainCommandBuffer e;
     RenderPass := RenderPass e; Framebuffers := Framebuffers e;
     PresentSemaphore := PresentSemaphore e;
     RenderSemaphore := RenderSemaphore e; RenderFence := RenderFence e |}.
Definition set_Surface (v : Handle) (e : Engine) : Engine :=
  {| Window := Window e; WindowExtents := WindowExtents e;
     IsInitialized := IsInitialized e; AppName := AppName e;
     FrameNumber := FrameNumber e; Instance := Instance e;
     DebugMessenger := DebugMessenger e; ChosenGPU := ChosenGPU e;
     Device := Device e; Surface := v; Swapchain := Swapchain e;
     SwapchainFormat := SwapchainFormat e;
     SwapchainImages := SwapchainImages e;
     SwapchainImageViews := SwapchainImageViews e;
     GraphicsQueue := GraphicsQueue e;
     GraphicsQueueFamily := GraphicsQueueFamily e;
     CommandPool := CommandPool e; MainCommandBuffer := MainCommandBuffer e;
     RenderPass := RenderPass e; Framebuffers := Framebuffers e;
     PresentSemaphore := PresentSemaphore e;
     RenderSemaphore := RenderSemaphore e; RenderFence := RenderFence e |}.
Definition set_Swapchain (v : Handle) (e : Engine) : Engine :=
  {| Window := Window e; WindowExtents := WindowExtents e;
     IsInitialized := IsInitialized e; AppName := AppName e;
     FrameNumber := FrameNumber e; Instance := Instance e;
     DebugMessenger := DebugMessenger e; ChosenGPU := ChosenGPU e;
     Device := Device e; Surface := Surface e; Swapchain := v;
     SwapchainFormat := SwapchainFormat e;
     SwapchainImages := SwapchainImages e;
     SwapchainImageViews := SwapchainImageViews e;
     GraphicsQueue := GraphicsQueue e;
     GraphicsQueueFamily := GraphicsQueueFamily e;
     CommandPool := CommandPool e; MainCommandBuffer := MainCommandBuffer e;
     RenderPass := RenderPass e; Framebuffers := Framebuffers e;
     PresentSemaphore := PresentSemaphore e;
     RenderSemaphore := RenderSemaphore e; RenderFence := RenderFence e |}.
Definition set_SwapchainFormat (v : Z) (e : Engine) : Engine :=
  {| Window := Window e; WindowExtents := WindowExtents e;
     IsInitialized := IsInitialized e; AppName := AppName e;
     FrameNumber := FrameNumber e; Instance := Instance e;
     DebugMessenger := DebugMessenger e; ChosenGPU := ChosenGPU e;
     Device := Device e; Surface := Surface e; Swapchain := Swapchain e;
     SwapchainFormat := v; SwapchainImages := SwapchainImages e;
     SwapchainImageViews := SwapchainImageViews e;
     GraphicsQueue := GraphicsQueue e;
     GraphicsQueueFamily := GraphicsQueueFamily e;
     CommandPool := CommandPool e; MainCommandBuffer := MainCommandBuffer e;
     RenderPass := RenderPass e; Framebuffers := Framebuffers e;
     PresentSemaphore := PresentSemaphore e;
     RenderSemaphore := RenderSemaphore e; RenderFence := RenderFence e |}.
Definition set_SwapchainImages (v : list Handle) (e : Engine) : Engine :=
  {| Window := Window e; WindowExtents := WindowExtents e;
     IsInitialized := IsInitialized e; AppName := AppName e;
     FrameNumber := FrameNumber e; Instance := Instance e;
     DebugMessenger := DebugMessenger e; ChosenGPU := ChosenGPU e;
     Device := Device e; Surface := Surface e; Swapchain := Swapchain e;
     SwapchainFormat := SwapchainFormat e; SwapchainImages := v;
     SwapchainImageViews := SwapchainImageViews e;
     GraphicsQueue := GraphicsQueue e;
     GraphicsQueueFamily := GraphicsQueueFamily e;
     CommandPool := CommandPool e; MainCommandBuffer := MainCommandBuffer e;
     RenderPass := RenderPass e; Framebuffers := Framebuffers e;
     PresentSemaphore := PresentSemaphore e;
     RenderSemaphore := RenderSemaphore e; RenderFence := RenderFence e |}.
Definition set_SwapchainImageViews (v : list Handle) (e : Engine) : Engine :=
  {| Window := Window e; WindowExtents := WindowExtents e;
     IsInitialized := IsInitialized e; AppName := AppName e;
     FrameNumber := FrameNumber e; Instance := Instance e;
     DebugMessenger := DebugMessenger e; ChosenGPU := ChosenGPU e;
     Device := Device e; Surface := Surface e; Swapchain := Swapchain e;
     SwapchainFormat := SwapchainFormat e;
     SwapchainImages := SwapchainImages e; SwapchainImageViews := v;
     GraphicsQueue := GraphicsQueue e;
     GraphicsQueueFamily := GraphicsQueueFamily e;
     CommandPool := CommandPool e; MainCommandBuffer := MainCommandBuffer e;
     RenderPass := RenderPass e; Framebuffers := Framebuffers e;
     PresentSemaphore := PresentSemaphore e;
     RenderSemaphore := RenderSemaphore e; RenderFence := RenderFence e |}.
Definition set_GraphicsQueue (v : Handle) (e : Engine) : Engine :=
  {| Window := Window e; WindowExtents := WindowExtents e;
     IsInitialized := IsInitialized e; AppName := AppName e;
     FrameNumber := FrameNumber e; Instance := Instance e;
     DebugMessenger := DebugMessenger e; ChosenGPU := ChosenGPU e;
     Device := Device e; Surface := Surface e; Swapchain := Swapchain e;
     SwapchainFormat := SwapchainFormat e;
     SwapchainImages := SwapchainImages e;
     SwapchainImageViews := SwapchainImageViews e; GraphicsQueue := v;
     GraphicsQueueFamily := GraphicsQueueFamily e;
     CommandPool := CommandPool e; MainCommandBuffer := MainCommandBuffer e;
     RenderPass := RenderPass e; Framebuffers := Framebuffers e;
     PresentSemaphore := PresentSemaphore e;
     RenderSemaphore := RenderSemaphore e; RenderFence := RenderFence e |}.
Definition set_GraphicsQueueFamily (v : Z) (e : Engine) : Engine :=
  {| Window := Window e; WindowExtents := WindowExtents e;
     IsInitialized := IsInitialized e; AppName := AppName e;
     FrameNumber := FrameNumber e; Instance := Instance e;
     DebugMessenger := DebugMessenger e; ChosenGPU := ChosenGPU e;
     Device := Device e; Surface := Surface e; Swapchain := Swapchain e;
     SwapchainFormat := SwapchainFormat e;
     SwapchainImages := SwapchainImages e;
     SwapchainImageViews := SwapchainImageViews e;
     GraphicsQueue := GraphicsQueue e; GraphicsQueueFamily := v;
     CommandPool := CommandPool e; MainCommandBuffer := MainCommandBuffer e;
     RenderPass := RenderPass e; Framebuffers := Framebuffers e;
     PresentSemaphore := PresentSemaphore e;
     RenderSemaphore := RenderSemaphore e; RenderFence := RenderFence e |}.
Definition set_CommandPool (v : Handle) (e : Engine) : Engine :=
  {| Window := Window e; WindowExtents := WindowExtents e;
     IsInitialized := IsInitialized e; AppName := AppName e;
     FrameNumber := FrameNumber e; Instance := Instance e;
     DebugMessenger := DebugMessenger e; ChosenGPU := ChosenGPU e;
     Device := Device e; Surface := Surface e; Swapchain := Swapchain e;
     SwapchainFormat := SwapchainFormat e;
     SwapchainImages := SwapchainImages e;
     SwapchainImageViews := SwapchainImageViews e;
     GraphicsQueue := GraphicsQueue e;
     GraphicsQueueFamily := GraphicsQueueFamily e; CommandPool := v;
     MainCommandBuffer := MainCommandBuffer e; RenderPass := RenderPass e;
     Framebuffers := Framebuffers e; PresentSemaphore := PresentSemaphore e;
     RenderSemaphore := RenderSemaphore e; RenderFence := RenderFence e |}.
Definition set_MainCommandBuffer (v : Handle) (e : Engine) : Engine :=
  {| Window := Window e; WindowExtents := WindowExtents e;
     IsInitialized := IsInitialized e; AppName := AppName e;
     FrameNumber := FrameNumber e; Instance := Instance e;
     DebugMessenger := DebugMessenger e; ChosenGPU := ChosenGPU e;
     Device := Device e; Surface := Surface e; Swapchain := Swapchain e;
     SwapchainFormat := SwapchainFormat e;
     SwapchainImages := SwapchainImages e;
     SwapchainImageViews := SwapchainImageViews e;
     GraphicsQueue := GraphicsQueue e;
     GraphicsQueueFamily := GraphicsQueueFamily e;
     CommandPool := CommandPool e; MainCommandBuffer := v;
     RenderPass := RenderPass e; Framebuffers := Framebuffers e;
     PresentSemaphore := PresentSemaphore e;
     RenderSemaphore := RenderSemaphore e; RenderFence := RenderFence e |}.
Definition set_RenderPass (v : Handle) (e : Engine) : Engine :=
  {| Window := Window e; WindowExtents := WindowExtents e;
     IsInitialized := IsInitialized e; AppName := AppName e;
     FrameNumber := FrameNumber e; Instance := Instance e;
     DebugMessenger := DebugMessenger e; ChosenGPU := ChosenGPU e;
     Device := Device e; Surface := Surface e; Swapchain := Swapchain e;
     SwapchainFormat := SwapchainFormat e;
     SwapchainImages := SwapchainImages e;
     SwapchainImageViews := SwapchainImageViews e;
     GraphicsQueue := GraphicsQueue e;
     GraphicsQueueFamily := GraphicsQueueFamily e;
     CommandPool := CommandPool e; MainCommandBuffer := MainCommandBuffer e;
     RenderPass := v; Framebuffers := Framebuffers e;
     PresentSemaphore := PresentSemaphore e;
     RenderSemaphore := RenderSemaphore e; RenderFence := RenderFence e |}.
Definition set_Framebuffers (v : list Handle) (e : Engine) : Engine :=
  {| Window := Window e; WindowExtents := WindowExtents e;
     IsInitialized := IsInitialized e; AppName := AppName e;
     FrameNumber := FrameNumber e; Instance := Instance e;
     DebugMessenger := DebugMessenger e; ChosenGPU := ChosenGPU e;
     Device := Device e; Surface := Surface e; Swapchain := Swapchain e;
     SwapchainFormat := SwapchainFormat e;
     SwapchainImages := SwapchainImages e;
     SwapchainImageViews := SwapchainImageViews e;
     GraphicsQueue := GraphicsQueue e;
     GraphicsQueueFamily := GraphicsQueueFamily e;
     CommandPool := CommandPool e; MainCommandBuffer := MainCommandBuffer e;
     RenderPass := RenderPass e; Framebuffers := v;
     PresentSemaphore := PresentSemaphore e;
     RenderSemaphore := RenderSemaphore e; RenderFence := RenderFence e |}.
Definition set_PresentSemaphore (v : Handle) (e : Engine) : Engine :=
  {| Window := Window e; WindowExtents := WindowExtents e;
     IsInitialized := IsInitialized e; AppName := AppName e;
     FrameNumber := FrameNumber e; Instance := Instance e;
     DebugMessenger := DebugMessenger e; ChosenGPU := ChosenGPU e;
     Device := Device e; Surface := Surface e; Swapchain := Swapchain e;
     SwapchainFormat := SwapchainFormat e;
     SwapchainImages := SwapchainImages e;
     SwapchainImageViews := SwapchainImageViews e;
     GraphicsQueue := GraphicsQueue e;
     GraphicsQueueFamily := GraphicsQueueFamily e;
     CommandPool := CommandPool e; MainCommandBuffer := MainCommandBuffer e;
     RenderPass := RenderPass e; Framebuffers := Framebuffers e;
     PresentSemaphore := v; RenderSemaphore := RenderSemaphore e;
     RenderFence := RenderFence e |}.
Definition set_RenderSemaphore (v : Handle) (e : Engine) : Engine :=
  {| Window := Window e; WindowExtents := WindowExtents e;
     IsInitialized := IsInitialized e; AppName := AppName e;
     FrameNumber := FrameNumber e; Instance := Instance e;
     DebugMessenger := DebugMessenger e; ChosenGPU := ChosenGPU e;
     Device := Device e; Surface := Surface e; Swapchain := Swapchain e;
     SwapchainFormat := SwapchainFormat e;
     SwapchainImages := SwapchainImages e;
     SwapchainImageViews := SwapchainImageViews e;
     GraphicsQueue := GraphicsQueue e;
     GraphicsQueueFamily := GraphicsQueueFamily e;
     CommandPool := CommandPool e; MainCommandBuffer := MainCommandBuffer e;
     RenderPass := RenderPass e; Framebuffers := Framebuffers e;
     PresentSemaphore := PresentSemaphore e; RenderSemaphore := v;
     RenderFence := RenderFence e |}.
Definition set_RenderFence (v : Handle) (e : Engine) : Engine :=
  {| Window := Window e; WindowExtents := WindowExtents e;
     IsInitialized := IsInitialized e; AppName := AppName e;
     FrameNumber := FrameNumber e; Instance := Instance e;
     DebugMessenger := DebugMessenger e; ChosenGPU := ChosenGPU e;
     Device := Device e; Surface := Surface e; Swapchain := Swapchain e;
     SwapchainFormat := SwapchainFormat e;
     SwapchainImages := SwapchainImages e;
     SwapchainImageViews := SwapchainImageViews e;
     GraphicsQueue := GraphicsQueue e;
     GraphicsQueueFamily := GraphicsQueueFamily e;
     CommandPool := CommandPool e; MainCommandBuffer := MainCommandBuffer e;
     RenderPass := RenderPass e; Framebuffers := Framebuffers e;
     PresentSemaphore := PresentSemaphore e;
     RenderSemaphore := RenderSemaphore e; RenderFence := v |}.

(** How a computation ends: with a value, with a C++ exception, in
    undefined behaviour, or cut off because the fuel ran out. *)
Inductive Res (A : Type) : Type :=
  | Ret (a : A)
  | Throw (e : Exn)
  | Undefined
  | OutOfFuel.
Arguments Ret {A} a.
Arguments Throw {A} e.
Arguments Undefined {A}.
Arguments OutOfFuel {A}.

Section Model.
Context `{FloatOps}.

Record VkClearColorValue := { cc_r : float; cc_g : float; cc_b : float; cc_a : float }.

(** One entry of the log: a call the engine made, with the answer it got. *)
Inductive Call : Type :=
  | c_SDL_Init (ret : Z)
  | c_SDL_CreateWindow (title : string) (extent : VkExtent2D) (ret : Handle)
  | c_SDL_PollEvent (pending : list SDL_EventType)
  | c_vkb_InstanceBuilder_build (app : string) (instance messenger : Handle)
  | c_SDL_Vulkan_CreateSurface (window instance : Handle) (ok : bool) (surface : Handle)
  | c_vkb_PhysicalDeviceSelector_select (surface gpu : Handle)
  | c_vkb_DeviceBuilder_build (gpu device : Handle)
  | c_vkb_get_queue (device queue : Handle) (family : Z)
  | c_vkb_SwapchainBuilder_build (device surface : Handle) (extent : VkExtent2D)
      (swapchain : Handle) (format : Z) (images views : list Handle)
  | c_vkCreateCommandPool (device : Handle) (family : Z) (r : VkResult) (pool : Handle)
  | c_vkAllocateCommandBuffers (device pool : Handle) (r : VkResult) (buffer : Handle)
  | c_vkCreateRenderPass (device : Handle) (format : Z) (r : VkResult) (pass : Handle)
  | c_vkCreateFramebuffer (device pass view : Handle) (extent : VkExtent2D)
      (r : VkResult) (framebuffer : Handle)
  | c_vkCreateFence (device : Handle) (r : VkResult) (fence : Handle)
  | c_vkCreateSemaphore (device : Handle) (r : VkResult) (semaphore : Handle)
  | c_vkCreateShaderModule (device : Handle) (code : list Byte.byte)
      (r : VkResult) (module : Handle)
  (* vkDestroyX, vkb::destroy_debug_utils_messenger, SDL_DestroyWindow *)
  | c_destroy (k : Kind) (h : Handle)
  | c_vkWaitForFences (device fence : Handle) (timeout : Z) (r : VkResult)
  | c_vkResetFences (device fence : Handle)
  | c_vkAcquireNextImageKHR (device swapchain : Handle) (timeout : Z)
      (semaphore : Handle) (r : VkResult) (written : option nat)
  | c_vkResetCommandBuffer (buffer : Handle)
  | c_vkBeginCommandBuffer (buffer : Handle)
  | c_vkCmdBeginRenderPass (buffer pass framebuffer : Handle)
      (extent : VkExtent2D) (clear : VkClearColorValue)
  | c_vkCmdEndRenderPass (buffer : Handle)
  | c_vkEndCommandBuffer (buffer : Handle)
  | c_vkQueueSubmit (queue wait signal buffer fence : Handle) (r : VkResult)
  | c_vkQueuePresentKHR (queue swapchain wait : Handle) (image : nat) (r : VkResult)
  | c_shaderc_CompileGlslToSpv (source : list Byte.byte) (name : string)
      (result : CompilationResult)
  | c_OutputDebugString (text : string)
  | c_cout (e : Exn).

Definition History := list Call.

(** ** The environment

    Each answer may depend on everything that happened before. *)
Record Env := {
  answer_SDL_Init : History -> Z;
  answer_SDL_CreateWindow : History -> bool;
  answer_SDL_Vulkan_CreateSurface : History -> bool;
  answer_SDL_PollEvent : History -> list SDL_EventType;
  answer_queue_family : History -> Z;
  answer_image_format : History -> Z;
  answer_image_count : History -> nat;
  answer_vk : History -> VkEntry -> VkResult;
  (* whether a result of vk-bootstrap holds a value *)
  answer_vkb_has_value : History -> VkbResult -> bool;
  (* the index vkAcquireNextImageKHR stores through its last argument,
     if it stores one *)
  answer_acquire_index : History -> option nat;
  (* the value found in a local that was never written *)
  answer_indeterminate : History -> nat;
  answer_shaderc : History -> list Byte.byte -> string -> CompilationResult;
  answer_open_read : History -> string -> bool;
  answer_open_write : History -> string -> bool;
  answer_clock : History -> Z
}.

(** The engine together with the part of the world it changes. *)
Record Sys := {
  eng : Engine;
  next_handle : Handle;
  fs : gmap string File;
  log : History
}.

(** The start of the program: the engine just constructed on [storage],
    nothing called yet. *)
Definition boot (storage : Engine) (appName : string) (files : gmap string File)
  : Sys :=
  {| eng := Engine_new storage appName; next_handle := 1%nat; fs := files;
     log := [] |}.

Definition with_eng (f : Engine -> Engine) (s : Sys) : Sys :=
  {| eng := f (eng s); next_handle := next_handle s; fs := fs s; log := log s |}.
Definition with_fs (f : gmap string File -> gmap string File) (s : Sys) : Sys :=
  {| eng := eng s; next_handle := next_handle s; fs := f (fs s); log := log s |}.
Definition with_log (f : History -> History) (s : Sys) : Sys :=
  {| eng := eng s; next_handle := next_handle s; fs := fs s; log := f (log s) |}.
Definition with_next (f : Handle -> Handle) (s : Sys) : Sys :=
  {| eng := eng s; next_handle := f (next_handle s); fs := fs s; log := log s |}.

(** ** The monad: state, C++ exceptions, undefined behaviour, fuel *)

Definition M (A : Type) : Type := Sys -> Res A * Sys.

Definition ret {A} (a : A) : M A := fun s => (Ret a, s).

Definition bind {A B} (m : M A) (k : A -> M B) : M B :=
  fun s =>
    match m s with
    | (Ret a, s') => k a s'
    | (Throw e, s') => (Throw e, s')
    | (Undefined, s') => (Undefined, s')
    | (OutOfFuel, s') => (OutOfFuel, s')
    end.

Definition throw {A} (e : Exn) : M A := fun s => (Throw e, s).
Definition undefined {A} : M A := fun s => (Undefined, s).
Definition out_of_fuel {A} : M A := fun s => (OutOfFuel, s).

(** [try { m } catch (const std::exception & e) { h e }] *)
Definition try_catch {A} (m : M A) (h : Exn -> M A) : M A :=
  fun s =>
    match m s with
    | (Throw e, s') => h e s'
    | other => other
    end.

Definition emit (c : Call) : M unit := fun s => (Ret tt, with_log (fun l => l ++ [c]) s).
Definition ask {A} (f : History -> A) : M A := fun s => (Ret (f (log s)), s).
Definition fresh : M Handle := fun s => (Ret (next_handle s), with_next S s).
Definition this : M Engine := fun s => (Ret (eng s), s).
Definition set (f : Engine -> Engine) : M unit := fun s => (Ret tt, with_eng f s).
Definition files : M (gmap string File) := fun s => (Ret (fs s), s).
Definition set_files (f : gmap string File -> gmap string File) : M unit :=
  fun s => (Ret tt, with_fs f s).

(** [v[i]] on a [std::vector]: no bounds check, undefined out of range. *)
Definition index {A} (v : list A) (i : nat) : M A :=
  match v !! i with
  | Some x => ret x
  | None => undefined
  end.

End Model.

Declare Scope engine_scope.
Delimit Scope engine_scope with M.
Notation "x <- m ;; k" := (bind m (fun x => k))
  (at level 100, m at next level, right associativity) : engine_scope.
Notation "m ;;; k" := (bind m (fun _ => k))
  (at level 100, right associativity) : engine_scope.

(** ** The member functions of [Engine] (Engine.cpp) *)

Section EngineCode.
Context `{FloatOps} (env : Env).
Local Open Scope engine_scope.

Definition fresh_n (n : nat) : M (list Handle) :=
  fun s => (Ret (seq (next_handle s) n), with_next (fun h => (h + n)%nat) s).

(** The result the driver gives to the call being made. *)
Definition vk (entry : VkEntry) : M VkResult :=
  ask (fun h => answer_vk env h entry).

(** A [vkCreateX] / [vkAllocateX] call: the driver decides the result;
    an object comes into being only with [VK_SUCCESS]. *)
Definition create (entry : VkEntry) (call : VkResult -> Handle -> Call)
  : M (VkResult * Handle) :=
  r <- vk entry ;;
  if vk_nonzero r
  then emit (call r 0%nat) ;;; ret (r, 0%nat)
  else h <- fresh ;; emit (call r h) ;;; ret (r, h).

(** [result.value()] on a result of vk-bootstrap.  The source never
    tests a result before it takes its value.  On a result that holds an
    error, [value()] is a failed assertion or the read of a value that
    is not there: no defined behaviour either way. *)
Definition value (result : VkbResult) : M unit :=
  has_value <- ask (fun h => answer_vkb_has_value env h result) ;;
  if has_value : bool then ret tt else undefined.

(** The builders of vk-bootstrap are not part of Engine.cpp; what they
    deliver is read from the oracle. *)
Definition InitVulkan : M unit :=
  e <- this ;;
  value R_InstanceBuilder_build ;;;
  instance <- fresh ;;
  messenger <- fresh ;;
  emit (c_vkb_InstanceBuilder_build (AppName e) instance messenger) ;;;
  set (set_Instance instance) ;;;
  set (set_DebugMessenger messenger) ;;;
  (* SDL_Vulkan_CreateSurface(Window, Instance, &Surface): result dropped *)
  ok <- ask (answer_SDL_Vulkan_CreateSurface env) ;;
  (if ok
   then surface <- fresh ;;
        emit (c_SDL_Vulkan_CreateSurface (Window e) instance true surface) ;;;
        set (set_Surface surface)
   else emit (c_SDL_Vulkan_CreateSurface (Window e) instance false (Surface e))) ;;;
  e <- this ;;
  value R_PhysicalDeviceSelector_select ;;;
  gpu <- fresh ;;
  emit (c_vkb_PhysicalDeviceSelector_select (Surface e) gpu) ;;;
  set (set_ChosenGPU gpu) ;;;
  value R_DeviceBuilder_build ;;;
  device <- fresh ;;
  emit (c_vkb_DeviceBuilder_build gpu device) ;;;
  set (set_Device device) ;;;
  value R_get_queue ;;;
  queue <- fresh ;;
  set (set_GraphicsQueue queue) ;;;
  value R_get_queue_index ;;;
  family <- ask (answer_queue_family env) ;;
  emit (c_vkb_get_queue device queue family) ;;;
  set (set_GraphicsQueueFamily family).

(** [get_image_views()] of vk-bootstrap makes one view for each image of
    [get_images()]: both vectors have the length the swapchain has
    images.  The log has one entry for the swapchain with its images and
    views, written once all three results have delivered. *)
Definition InitSwapchain : M unit :=
  e <- this ;;
  value R_SwapchainBuilder_build ;;;
  n <- ask (answer_image_count env) ;;
  format <- ask (answer_image_format env) ;;
  swapchain <- fresh ;;
  set (set_Swapchain swapchain) ;;;
  value R_get_images ;;;
  images <- fresh_n n ;;
  set (set_SwapchainImages images) ;;;
  value R_get_image_views ;;;
  views <- fresh_n n ;;
  emit (c_vkb_SwapchainBuilder_build (Device e) (Surface e) (WindowExtents e)
          swapchain format images views) ;;;
  set (set_SwapchainImageViews views) ;;;
  set (set_SwapchainFormat format).

Definition InitCommands : M unit :=
  e <- this ;;
  created <- create E_vkCreateCommandPool
               (c_vkCreateCommandPool (Device e) (GraphicsQueueFamily e)) ;;
  (if vk_nonzero created.1
   then throw (runtime_error "Failed to create command pool.")
   else set (set_CommandPool created.2)) ;;;
  e <- this ;;
  allocated <- create E_vkAllocateCommandBuffers
                 (c_vkAllocateCommandBuffers (Device e) (CommandPool e)) ;;
  if vk_nonzero allocated.1
  then throw (runtime_error "Failed to allocate a command buffer.")
  else set (set_MainCommandBuffer allocated.2).

Definition InitDefaultRenderpass : M unit :=
  e <- this ;;
  created <- create E_vkCreateRenderPass
               (c_vkCreateRenderPass (Device e) (SwapchainFormat e)) ;;
  if vk_nonzero created.1
  then throw (runtime_error "Failed to create render pass")
  else set (set_RenderPass created.2).

(** The body of the loop of [InitFramebuffers] at index [i]. *)
Definition InitFramebuffers_body (i : nat) : M unit :=
  e <- this ;;
  view <- index (SwapchainImageViews e) i ;;
  created <- create E_vkCreateFramebuffer
               (c_vkCreateFramebuffer (Device e) (RenderPass e) view (WindowExtents e)) ;;
  if vk_nonzero created.1
  then throw (runtime_error "Failed to create a framebuffer")
  else set (fun e => set_Framebuffers (<[i := created.2]> (Framebuffers e)) e).

(** [for (size_t i = ...; i < swapchainSize; i++)] with [todo] rounds left. *)
Fixpoint InitFramebuffers_loop (todo i : nat) : M unit :=
  match todo with
  | O => ret tt
  | S todo' => InitFramebuffers_body i ;;; InitFramebuffers_loop todo' (S i)
  end.

Definition InitFramebuffers : M unit :=
  e <- this ;;
  let swapchainSize := length (SwapchainImages e) in
  set (set_Framebuffers (resize swapchainSize 0%nat (Framebuffers e))) ;;;
  InitFramebuffers_loop swapchainSize 0.

Definition InitSyncStructures : M unit :=
  e <- this ;;
  fence <- create E_vkCreateFence (c_vkCreateFence (Device e)) ;;
  (if vk_nonzero fence.1
   then throw (runtime_error "Failed to create fence")
   else set (set_RenderFence fence.2)) ;;;
  present <- create E_vkCreateSemaphore (c_vkCreateSemaphore (Device e)) ;;
  (if vk_nonzero present.1
   then throw (runtime_error "Failed to create present semaphore")
   else set (set_PresentSemaphore present.2)) ;;;
  render <- create E_vkCreateSemaphore (c_vkCreateSemaphore (Device e)) ;;
  if vk_nonzero render.1
  then throw (runtime_error "Failed to create render semaphore")
  else set (set_RenderSemaphore render.2).

(** *** The shader cache *)

(** The C string held in a buffer: the bytes before the first NUL. *)
Fixpoint c_str (buffer : list Byte.byte) : list Byte.byte :=
  match buffer with
  | [] => []
  | b :: rest => if Byte.eqb b Byte.x00 then [] else b :: c_str rest
  end.

Definition newline : string := String (Ascii.ascii_of_nat 10) EmptyString.

(** [std::filesystem::last_write_time(p)]: throws when [p] does not exist. *)
Definition last_write_time (p : string) : M Z :=
  fsys <- files ;;
  match fsys !! p with
  | Some f => ret (mtime f)
  | None => throw (filesystem_error "last_write_time" p)
  end.

(** [std::ifstream file(p, ate | binary)] and [file.is_open()], then the
    whole content. [None] when the stream did not open. *)
Definition read_all (p : string) : M (option (list Byte.byte)) :=
  fsys <- files ;;
  match fsys !! p with
  | None => ret None
  | Some f =>
      opened <- ask (fun h => answer_open_read env h p) ;;
      if opened then ret (Some (bytes f)) else ret None
  end.

Definition CompileGlslToSpv (glslPath : string) (inOutSpvPath : option string)
  : M bool :=
  let inOutSpvPath := default (glslPath +:+ ".spv") inOutSpvPath in
  fsys <- files ;;
  if negb (bool_decide (is_Some (fsys !! glslPath))) then ret false else
  content <- read_all glslPath ;;
  match content with
  | None => ret false
  | Some buffer =>
      (* Ensure null terminated *)
      let buffer := buffer ++ [Byte.x00] in
      result <- ask (fun h => answer_shaderc env h (c_str buffer) glslPath) ;;
      emit (c_shaderc_CompileGlslToSpv (c_str buffer) glslPath result) ;;;
      if bool_decide (0 < GetNumErrors result)%nat
      then emit (c_OutputDebugString (GetErrorMessage result)) ;;;
           emit (c_OutputDebugString newline) ;;;
           ret false
      else
        opened <- ask (fun h => answer_open_write env h inOutSpvPath) ;;
        if negb opened then ret false else
        now <- ask (answer_clock env) ;;
        set_files (<[inOutSpvPath := {| mtime := now; bytes := spirv result |}]>) ;;;
        ret true
  end.

Definition LoadShaderModule (glslPath : string) : M Handle :=
  let spvPath := glslPath +:+ ".spv" in
  fsys <- files ;;
  stale <- (if negb (bool_decide (is_Some (fsys !! spvPath)))
            then ret true
            else source_time <- last_write_time glslPath ;;
                 cache_time <- last_write_time spvPath ;;
                 ret (bool_decide (cache_time < source_time))) ;;
  (if stale : bool
   then compiled <- CompileGlslToSpv glslPath (Some spvPath) ;;
        if compiled : bool then ret tt
        else throw (runtime_error ("Failed to compile " +:+ glslPath +:+ " to spv"))
   else ret tt) ;;;
  content <- read_all spvPath ;;
  match content with
  | None => throw (runtime_error "Failed to open shader file!")
  | Some buffer =>
      e <- this ;;
      created <- create E_vkCreateShaderModule
                   (c_vkCreateShaderModule (Device e) buffer) ;;
      if vk_nonzero created.1
      then throw (runtime_error ("Failed to create shader module from " +:+ spvPath))
      else ret created.2
  end.

Definition InitPipelines : M unit :=
  triangleVertShader <- LoadShaderModule "./Shaders/triangle.vert" ;;
  triangleFragShader <- LoadShaderModule "./Shaders/triangle.frag" ;;
  ret tt.

Definition Initialize : M unit :=
  r <- ask (answer_SDL_Init env) ;;
  emit (c_SDL_Init r) ;;;
  (if bool_decide (r ≠ 0) then throw (runtime_error "Could not initialize SDL.")
   else ret tt) ;;;
  e <- this ;;
  made <- ask (answer_SDL_CreateWindow env) ;;
  (if made : bool
   then window <- fresh ;;
        emit (c_SDL_CreateWindow (AppName e) (WindowExtents e) window) ;;;
        set (set_Window window)
   else emit (c_SDL_CreateWindow (AppName e) (WindowExtents e) 0%nat) ;;;
        set (set_Window 0%nat) ;;;
        throw (runtime_error "Failed to create SDL Window")) ;;;
  InitVulkan ;;;
  InitSwapchain ;;;
  InitCommands ;;;
  InitDefaultRenderpass ;;;
  InitFramebuffers ;;;
  InitSyncStructures ;;;
  InitPipelines ;;;
  set (set_IsInitialized true).

(** The body of the loop of [Cleanup] at index [i]. *)
Definition Cleanup_body (i : nat) : M unit :=
  e <- this ;;
  framebuffer <- index (Framebuffers e) i ;;
  emit (c_destroy KFramebuffer framebuffer) ;;;
  view <- index (SwapchainImageViews e) i ;;
  emit (c_destroy KImageView view).

Fixpoint Cleanup_loop (todo i : nat) : M unit :=
  match todo with
  | O => ret tt
  | S todo' => Cleanup_body i ;;; Cleanup_loop todo' (S i)
  end.

Definition Cleanup : M unit :=
  e <- this ;;
  if negb (IsInitialized e) then ret tt else
  emit (c_destroy KCommandPool (CommandPool e)) ;;;
  emit (c_destroy KSwapchain (Swapchain e)) ;;;
  emit (c_destroy KRenderPass (RenderPass e)) ;;;
  Cleanup_loop (length (SwapchainImageViews e)) 0 ;;;
  emit (c_destroy KDevice (Device e)) ;;;
  emit (c_destroy KSurface (Surface e)) ;;;
  emit (c_destroy KDebugMessenger (DebugMessenger e)) ;;;
  emit (c_destroy KInstance (Instance e)) ;;;
  emit (c_destroy KWindow (Window e)).

(** *** The draw cycle *)

(** [{ 0.f, 0.f, abs(sin(FrameNumber / 120.0f)), 1.f }] *)
Definition clear_color (frameNumber : Z) : VkClearColorValue :=
  let flash := float_abs (float_sin (float_div (float_of_uint64 frameNumber) float_120)) in
  {| cc_r := float_0; cc_g := float_0; cc_b := flash; cc_a := float_1 |}.

(** The local [swapchainImageIdx] has no initialiser.  When the
    acquisition stores no index, the source uses the local as it is: the
    language gives that read no meaning, and the model lets it yield
    the value the oracle names, which can be any, so that what is proved
    of such a cycle holds whatever the local was found with. *)
Definition Draw : M unit :=
  e <- this ;;
  (* results of the wait and of the reset are dropped *)
  waited <- vk E_vkWaitForFences ;;
  emit (c_vkWaitForFences (Device e) (RenderFence e) 1000000000 waited) ;;;
  emit (c_vkResetFences (Device e) (RenderFence e)) ;;;
  (* uint32_t swapchainImageIdx; *)
  indeterminate <- ask (answer_indeterminate env) ;;
  acquired <- vk E_vkAcquireNextImageKHR ;;
  written <- ask (answer_acquire_index env) ;;
  emit (c_vkAcquireNextImageKHR (Device e) (Swapchain e) 1000000000
          (PresentSemaphore e) acquired written) ;;;
  let swapchainImageIdx := default indeterminate written in
  emit (c_vkResetCommandBuffer (MainCommandBuffer e)) ;;;
  emit (c_vkBeginCommandBuffer (MainCommandBuffer e)) ;;;
  let clearValue := clear_color (FrameNumber e) in
  framebuffer <- index (Framebuffers e) swapchainImageIdx ;;
  emit (c_vkCmdBeginRenderPass (MainCommandBuffer e) (RenderPass e) framebuffer
          (WindowExtents e) clearValue) ;;;
  emit (c_vkCmdEndRenderPass (MainCommandBuffer e)) ;;;
  emit (c_vkEndCommandBuffer (MainCommandBuffer e)) ;;;
  submitted <- vk E_vkQueueSubmit ;;
  emit (c_vkQueueSubmit (GraphicsQueue e) (PresentSemaphore e) (RenderSemaphore e)
          (MainCommandBuffer e) (RenderFence e) submitted) ;;;
  presented <- vk E_vkQueuePresentKHR ;;
  emit (c_vkQueuePresentKHR (GraphicsQueue e) (Swapchain e) (RenderSemaphore e)
          swapchainImageIdx presented) ;;;
  (* FrameNumber++ on a uint64_t *)
  set (fun e => set_FrameNumber ((FrameNumber e + 1) mod 2 ^ 64) e).

(** *** The event loop *)

(** The inner [while (SDL_PollEvent(&e))]: every pending event is taken
    off the queue; [SDL_QUIT] clears [stillRunning]. *)
Definition drain (pending : list SDL_EventType) (stillRunning : bool) : bool :=
  foldl (fun running type =>
           match type with
           | SDL_QUIT => false
           | SDL_OTHER _ => running
           end) stillRunning pending.

(** [while (stillRunning) { ... }] entered with [stillRunning] true;
    [fuel] bounds the number of rounds. *)
Fixpoint Run_loop (fuel : nat) : M unit :=
  match fuel with
  | O => out_of_fuel
  | S fuel' =>
      pending <- ask (answer_SDL_PollEvent env) ;;
      emit (c_SDL_PollEvent pending) ;;;
      let stillRunning := drain pending true in
      Draw ;;;
      if stillRunning then Run_loop fuel' else ret tt
  end.

Definition Run (fuel : nat) : M unit := Run_loop fuel.

Definition Exec (fuel : nat) : M Z :=
  failed <- try_catch (Initialize ;;; ret None)
              (fun e => emit (c_cout e) ;;; ret (Some 1)) ;;
  match failed with
  | Some code => ret code
  | None =>
      Run fuel ;;;
      failed <- try_catch (Cleanup ;;; ret None)
                  (fun e => emit (c_cout e) ;;; ret (Some 1)) ;;
      match failed with
      | Some code => ret code
      | None => ret 0
      end
  end.

End EngineCode.

(** ** Reading the log *)

Section Observations.
Context `{FloatOps}.

(** The objects a call brings into being. *)
Definition created_by (c : Call) : list (Kind * Handle) :=
  match c with
  | c_SDL_CreateWindow _ _ window =>
      if bool_decide (window = 0%nat) then [] else [(KWindow, window)]
  | c_vkb_InstanceBuilder_build _ instance messenger =>
      [(KInstance, instance); (KDebugMessenger, messenger)]
  | c_SDL_Vulkan_CreateSurface _ _ ok surface =>
      if ok then [(KSurface, surface)] else []
  | c_vkb_DeviceBuilder_build _ device => [(KDevice, device)]
  | c_vkb_SwapchainBuilder_build _ _ _ swapchain _ _ views =>
      (KSwapchain, swapchain) :: map (pair KImageView) views
  | c_vkCreateCommandPool _ _ r h =>
      if vk_nonzero r then [] else [(KCommandPool, h)]
  | c_vkAllocateCommandBuffers _ _ r h =>
      if vk_nonzero r then [] else [(KCommandBuffer, h)]
  | c_vkCreateRenderPass _ _ r h =>
      if vk_nonzero r then [] else [(KRenderPass, h)]
  | c_vkCreateFramebuffer _ _ _ _ r h =>
      if vk_nonzero r then [] else [(KFramebuffer, h)]
  | c_vkCreateFence _ r h =>
      if vk_nonzero r then [] else [(KFence, h)]
  | c_vkCreateSemaphore _ r h =>
      if vk_nonzero r then [] else [(KSemaphore, h)]
  | c_vkCreateShaderModule _ _ r h =>
      if vk_nonzero r then [] else [(KShaderModule, h)]
  | _ => []
  end.

(** The objects a call asks to destroy. *)
Definition destroyed_by (c : Call) : list (Kind * Handle) :=
  match c with
  | c_destroy k h => [(k, h)]
  | _ => []
  end.

Definition created (h : History) : list (Kind * Handle) := flat_map created_by h.
Definition destroyed (h : History) : list (Kind * Handle) := flat_map destroyed_by h.

(** What teardown is in charge of, read off the members of the engine. *)
Definition owned (e : Engine) : list (Kind * Handle) :=
  [(KCommandPool, CommandPool e); (KSwapchain, Swapchain e);
   (KRenderPass, RenderPass e)]
  ++ map (pair KFramebuffer) (Framebuffers e)
  ++ map (pair KImageView) (SwapchainImageViews e)
  ++ [(KDevice, Device e); (KSurface, Surface e);
      (KDebugMessenger, DebugMessenger e); (KInstance, Instance e);
      (KWindow, Window e)].

Definition is_destroy (c : Call) : bool :=
  match c with c_destroy _ _ => true | _ => false end.

Definition not_destroy (c : Call) : Prop := is_destroy c = false.

Definition is_compile (c : Call) : bool :=
  match c with c_shaderc_CompileGlslToSpv _ _ _ => true | _ => false end.

Definition is_poll (c : Call) : bool :=
  match c with c_SDL_PollEvent _ => true | _ => false end.

Definition is_fence_wait (c : Call) : bool :=
  match c with c_vkWaitForFences _ _ _ _ => true | _ => false end.




(** The results the fence waits got, in order. *)
Definition fence_waits (h : History) : list VkResult :=
  flat_map (fun c => match c with c_vkWaitForFences _ _ _ r => [r] | _ => [] end) h.

(** The clear values of the render passes begun, in order. *)
Definition clear_values (h : History) : list VkClearColorValue :=
  flat_map (fun c => match c with
                     | c_vkCmdBeginRenderPass _ _ _ _ clear => [clear]
                     | _ => []
                     end) h.

(** The number of draw cycles begun: each begins with its fence wait. *)
Definition draws (h : History) : nat := length (List.filter is_fence_wait h).

(** The number of compiler invocations. *)
Definition compilations (h : History) : nat := length (List.filter is_compile h).

(** The part of the log a computation added. *)
Definition added (before after : Sys) : History :=
  drop (length (log before)) (log after).

(** The calls that create one framebuffer per view with success, the
    driver handing out the handles [first], [first + 1], ... *)
Fixpoint framebuffer_calls (e : Engine) (views : list Handle) (first : Handle)
  : list Call :=
  match views with
  | [] => []
  | view :: views' =>
      c_vkCreateFramebuffer (Device e) (RenderPass e) view (WindowExtents e)
        VK_SUCCESS first
      :: framebuffer_calls e views' (S first)
  end.

(** The number of polls of the event queue. *)
Definition polls (h : History) : nat := length (List.filter is_poll h).

(** The kinds of objects [Cleanup] has a destroy call for. *)
Definition torn_down (k : Kind) : bool :=
  match k with
  | KCommandPool | KSwapchain | KRenderPass | KFramebuffer | KImageView
  | KDevice | KSurface | KDebugMessenger | KInstance | KWindow => true
  | KCommandBuffer | KFence | KSemaphore | KShaderModule => false
  end.

(** The kinds of objects made from the device. *)
Definition device_child (k : Kind) : bool :=
  match k with
  | KCommandPool | KSwapchain | KRenderPass | KFramebuffer | KImageView => true
  | _ => false
  end.

(** A destroy call for an object of a kind that satisfies [p]. *)
Definition destroys (p : Kind -> bool) (c : Call) : Prop :=
  match c with
  | c_destroy k _ => p k = true
  | _ => False
  end.

(** [m] never ends with a C++ exception. *)
Definition never_throws {A} (m : M A) : Prop :=
  forall s e, (m s).1 <> Throw e.

(** A diagnostic written by [Exec]. *)
Definition is_report (c : Call) : bool :=
  match c with c_cout _ => true | _ => false end.

Definition not_report (c : Call) : Prop := is_report c = false.

(** The results the queue submissions got. *)
Definition submit_results (h : History) : list VkResult :=
  omap (fun c => match c with
                 | c_vkQueueSubmit _ _ _ _ _ r => Some r
                 | _ => None
                 end) h.

(** The objects of kind [k] among [objects]. *)
Definition of_kind (k : Kind) (objects : list (Kind * Handle)) : list (Kind * Handle) :=
  List.filter (fun o => bool_decide (o.1 = k)) objects.

(** The diagnostics in a log. *)
Definition reports (h : History) : list Call := List.filter is_report h.

(** [s'] has the log of [s] and, after it, calls that all satisfy [P]. *)
Definition extends (P : Call -> Prop) (s s' : Sys) : Prop :=
  exists ext, log s' = log s ++ ext /\ Forall P ext.

Definition same_engine (s s' : Sys) : Prop := eng s' = eng s.
Definition same_files (s s' : Sys) : Prop := fs s' = fs s.

Definition same_flag (s s' : Sys) : Prop :=
  IsInitialized (eng s') = IsInitialized (eng s).

(** The vectors [Draw] and [Cleanup] index stay as they are. *)
Definition same_vectors (s s' : Sys) : Prop :=
  Framebuffers (eng s') = Framebuffers (eng s) /\
  SwapchainImageViews (eng s') = SwapchainImageViews (eng s) /\
  SwapchainImages (eng s') = SwapchainImages (eng s).

(** However it ends, [m] takes a state to one related to it by [R]. *)
Definition keeps (R : Sys -> Sys -> Prop) {A} (m : M A) : Prop :=
  forall s, R s (m s).2.

Context (env : Env).

(** The image index a draw cycle works with: the one the acquisition
    stored, or else whatever the local held. *)
Definition image_index (h : History) : nat :=
  default (answer_indeterminate env h) (answer_acquire_index env h).

(** The calls of a draw cycle up to the framebuffer lookup. *)
Definition Draw_head (s : Sys) : list Call :=
  let e := eng s in
  let wait := c_vkWaitForFences (Device e) (RenderFence e) 1000000000
                (answer_vk env (log s) E_vkWaitForFences) in
  let reset := c_vkResetFences (Device e) (RenderFence e) in
  let h := log s ++ [wait; reset] in
  [wait; reset;
   c_vkAcquireNextImageKHR (Device e) (Swapchain e) 1000000000 (PresentSemaphore e)
     (answer_vk env h E_vkAcquireNextImageKHR) (answer_acquire_index env h);
   c_vkResetCommandBuffer (MainCommandBuffer e);
   c_vkBeginCommandBuffer (MainCommandBuffer e)].

Definition Draw_index (s : Sys) : nat :=
  image_index (log s ++ take 2 (Draw_head s)).

(** The calls of a draw cycle after the framebuffer lookup. *)
Definition Draw_tail (s : Sys) (framebuffer : Handle) : list Call :=
  let e := eng s in
  let recorded :=
    [c_vkCmdBeginRenderPass (MainCommandBuffer e) (RenderPass e) framebuffer
       (WindowExtents e) (clear_color (FrameNumber e));
     c_vkCmdEndRenderPass (MainCommandBuffer e);
     c_vkEndCommandBuffer (MainCommandBuffer e)] in
  let h := log s ++ Draw_head s ++ recorded in
  let submit := c_vkQueueSubmit (GraphicsQueue e) (PresentSemaphore e)
                  (RenderSemaphore e) (MainCommandBuffer e) (RenderFence e)
                  (answer_vk env h E_vkQueueSubmit) in
  recorded ++
  [submit;
   c_vkQueuePresentKHR (GraphicsQueue e) (Swapchain e) (RenderSemaphore e)
     (Draw_index s) (answer_vk env (h ++ [submit]) E_vkQueuePresentKHR)].

(** The call to the compiler and its answer, for a source read at [s]. *)
Definition compile_call (s : Sys) glslPath (src : File) : Call :=
  let text := c_str (bytes src ++ [Byte.x00]) in
  c_shaderc_CompileGlslToSpv text glslPath (answer_shaderc env (log s) text glslPath).

Definition compile_result (s : Sys) glslPath (src : File) : CompilationResult :=
  answer_shaderc env (log s) (c_str (bytes src ++ [Byte.x00])) glslPath.

(** Loading [glslPath] at [s] used the cached artifact [cache]: no
    compiler invocation, no file touched, and the module returned was
    made from the bytes of the artifact. *)
Definition cache_reused (s : Sys) (glslPath : string) (cache : File) : Prop :=
  let run := LoadShaderModule env glslPath s in
  compilations (added s run.2) = O /\
  fs run.2 = fs s /\
  run.1 = Ret (next_handle s) /\
  added s run.2 =
    [c_vkCreateShaderModule (Device (eng s)) (bytes cache) VK_SUCCESS (next_handle s)].

(** Loading [glslPath] at [s] went through the compiler, once.  Without
    errors the artifact now has the bytes the compiler produced and the
    module returned was made from them; with errors no file changed and
    the call threw. *)
Definition cache_rebuilt (s : Sys) (glslPath : string) (src : File) : Prop :=
  let run := LoadShaderModule env glslPath s in
  let result := compile_result s glslPath src in
  compilations (added s run.2) = 1%nat /\
  match GetNumErrors result with
  | O =>
      fs run.2 =
        <[glslPath +:+ ".spv" :=
            {| mtime := answer_clock env (log s ++ [compile_call s glslPath src]);
               bytes := spirv result |}]> (fs s) /\
      run.1 = Ret (next_handle s) /\
      last (log run.2) =
        Some (c_vkCreateShaderModule (Device (eng s)) (spirv result)
                VK_SUCCESS (next_handle s))
  | S _ =>
      fs run.2 = fs s /\
      run.1 = Throw (runtime_error ("Failed to compile " +:+ glslPath +:+ " to spv"))
  end.

(** The state once the pending events have been polled. *)
Definition polled (s : Sys) : Sys :=
  with_log (fun l => l ++ [c_SDL_PollEvent (answer_SDL_PollEvent env (log s))]) s.

(** Unless [m] returns, it leaves [IsInitialized] as it was. *)
Definition flag_only_on_return {A} (m : M A) : Prop :=
  forall s, (forall a, (m s).1 <> Ret a) -> same_flag s (m s).2.

(** [n] draw cycles in a row. *)
Fixpoint Draw_n (n : nat) : M unit :=
  match n with
  | O => ret tt
  | S n' => bind (Draw env) (fun _ => Draw_n n')
  end.

(** The destroy calls of the loop of [Cleanup]. *)
Fixpoint Cleanup_pairs (framebuffers views : list Handle) : list Call :=
  match framebuffers, views with
  | framebuffer :: framebuffers', view :: views' =>
      c_destroy KFramebuffer framebuffer :: c_destroy KImageView view
      :: Cleanup_pairs framebuffers' views'
  | _, _ => []
  end.

(** The destroy calls of [Cleanup] on an initialised engine, in order. *)
Definition Cleanup_calls (e : Engine) : list Call :=
  [c_destroy KCommandPool (CommandPool e);
   c_destroy KSwapchain (Swapchain e);
   c_destroy KRenderPass (RenderPass e)]
  ++ Cleanup_pairs (take (length (SwapchainImageViews e)) (Framebuffers e))
       (SwapchainImageViews e)
  ++ [c_destroy KDevice (Device e);
      c_destroy KSurface (Surface e);
      c_destroy KDebugMessenger (DebugMessenger e);
      c_destroy KInstance (Instance e);
      c_destroy KWindow (Window e)].

End Observations.

(** ** Sample worlds

    In a sample world SDL and
    vk-bootstrap deliver, the swapchain has two images, files open, and
    the clock reads 100; the results of the Vulkan calls, the pending
    events, the index the acquisition stores and the compiler vary. *)

Section Samples.
Context `{FloatOps}.

Definition world
    (results : History -> VkEntry -> VkResult)
    (events : History -> list SDL_EventType)
    (stored : History -> option nat)
    (compiler : list Byte.byte -> CompilationResult) : Env :=
  {| answer_SDL_Init := fun _ => 0;
     answer_SDL_CreateWindow := fun _ => true;
     answer_SDL_Vulkan_CreateSurface := fun _ => true;
     answer_SDL_PollEvent := events;
     answer_queue_family := fun _ => 0;
     answer_image_format := fun _ => 44;
     answer_image_count := fun _ => 2%nat;
     answer_vk := results;
     answer_vkb_has_value := fun _ _ => true;
     answer_acquire_index := stored;
     answer_indeterminate := fun _ => 7%nat;
     answer_shaderc := fun _ source _ => compiler source;
     answer_open_read := fun _ _ => true;
     answer_open_write := fun _ _ => true;
     answer_clock := fun _ => 100 |}.

(** [env] on another platform: whether SDL can create the surface, and
    which results of vk-bootstrap hold a value. *)
Definition on_platform (surface : bool) (vkb : VkbResult -> bool) (env : Env) : Env :=
  {| answer_SDL_Init := answer_SDL_Init env;
     answer_SDL_CreateWindow := answer_SDL_CreateWindow env;
     answer_SDL_Vulkan_CreateSurface := fun _ => surface;
     answer_SDL_PollEvent := answer_SDL_PollEvent env;
     answer_queue_family := answer_queue_family env;
     answer_image_format := answer_image_format env;
     answer_image_count := answer_image_count env;
     answer_vk := answer_vk env;
     answer_vkb_has_value := fun _ => vkb;
     answer_acquire_index := answer_acquire_index env;
     answer_indeterminate := answer_indeterminate env;
     answer_shaderc := answer_shaderc env;
     answer_open_read := answer_open_read env;
     answer_open_write := answer_open_write env;
     answer_clock := answer_clock env |}.

(** Storage filled with zeros, and storage that was used before. *)
Definition filled (h : Handle) (n : Z) : Engine :=
  {| Window := h; WindowExtents := {| width := n; height := n |};
     IsInitialized := false; AppName := ""; FrameNumber := n;
     Instance := h; DebugMessenger := h; ChosenGPU := h; Device := h;
     Surface := h; Swapchain := h; SwapchainFormat := n;
     SwapchainImages := []; SwapchainImageViews := [];
     GraphicsQueue := h; GraphicsQueueFamily := n;
     CommandPool := h; MainCommandBuffer := h; RenderPass := h;
     Framebuffers := [];
     PresentSemaphore := h; RenderSemaphore := h; RenderFence := h |}.

Definition zeroed : Engine := filled 0%nat 0.
Definition used : Engine := filled 99%nat 99.

Definition all_succeed : History -> VkEntry -> VkResult := fun _ _ => VK_SUCCESS.

(** The fence is never seen signaled and every submission loses the
    device; every other call succeeds. *)
Definition frames_fail : History -> VkEntry -> VkResult :=
  fun _ entry =>
    match entry with
    | E_vkWaitForFences => VK_TIMEOUT
    | E_vkQueueSubmit => VK_ERROR_DEVICE_LOST
    | _ => VK_SUCCESS
    end.

(** [entry] gets [r], every other call succeeds. *)
Definition only (entry : VkEntry) (r : VkResult) : History -> VkEntry -> VkResult :=
  fun _ entry' =>
    match entry, entry' with
    | E_vkCreateCommandPool, E_vkCreateCommandPool
    | E_vkAllocateCommandBuffers, E_vkAllocateCommandBuffers
    | E_vkCreateRenderPass, E_vkCreateRenderPass
    | E_vkCreateFramebuffer, E_vkCreateFramebuffer
    | E_vkCreateFence, E_vkCreateFence
    | E_vkCreateSemaphore, E_vkCreateSemaphore
    | E_vkCreateShaderModule, E_vkCreateShaderModule
    | E_vkWaitForFences, E_vkWaitForFences
    | E_vkAcquireNextImageKHR, E_vkAcquireNextImageKHR
    | E_vkQueueSubmit, E_vkQueueSubmit
    | E_vkQueuePresentKHR, E_vkQueuePresentKHR => r
    | _, _ => VK_SUCCESS
    end.


(** The quit event is pending at poll number [k] (the first poll is
    number 0); no event is pending at the other polls. *)
Definition quit_at (k : nat) : History -> list SDL_EventType :=
  fun h => if bool_decide (length (List.filter is_poll h) = k)
           then [SDL_QUIT] else [].

Definition first_image : History -> option nat := fun _ => Some 0%nat.
Definition nothing_stored : History -> option nat := fun _ => None.

Definition compiles (source : list Byte.byte) : CompilationResult :=
  {| GetNumErrors := 0; GetErrorMessage := "";
     spirv := [Byte.x03; Byte.x02; Byte.x23; Byte.x07] |}.

Definition rejects (source : list Byte.byte) : CompilationResult :=
  {| GetNumErrors := 1; GetErrorMessage := "syntax error"; spirv := [] |}.

Definition vert : string := "./Shaders/triangle.vert".
Definition frag : string := "./Shaders/triangle.frag".

(** Both sources, no cached artifact. *)
Definition sources_only : gmap string File :=
  {[ vert := {| mtime := 10; bytes := [Byte.x76] |};
     frag := {| mtime := 10; bytes := [Byte.x66] |} ]}.

(** Both sources, each with a cached artifact written after it. *)
Definition sources_cached : gmap string File :=
  {[ vert := {| mtime := 10; bytes := [Byte.x76] |};
     vert +:+ ".spv" := {| mtime := 20; bytes := [Byte.x01; Byte.x02] |};
     frag := {| mtime := 10; bytes := [Byte.x66] |};
     frag +:+ ".spv" := {| mtime := 20; bytes := [Byte.x03; Byte.x04] |} ]}.

(** The vertex shader was edited after its artifact was written. *)
Definition vert_edited : gmap string File :=
  {[ vert := {| mtime := 30; bytes := [Byte.x76] |};
     vert +:+ ".spv" := {| mtime := 20; bytes := [Byte.x01; Byte.x02] |} ]}.

(** An artifact whose source is gone. *)
Definition vert_deleted : gmap string File :=
  {[ vert +:+ ".spv" := {| mtime := 20; bytes := [Byte.x01; Byte.x02] |} ]}.

(** The engine of a sample world when [InitFramebuffers] is about to run. *)
Definition before_framebuffers (env : Env) : Sys :=
  (bind (InitVulkan env) (fun _ =>
   bind (InitSwapchain env) (fun _ =>
   bind (InitCommands env) (fun _ => InitDefaultRenderpass env)))
     (boot zeroed "VK2" sources_cached)).2.

(** The engine of a sample world once [Initialize] has run. *)
Definition ready (env : Env) : Sys :=
  (Initialize env (boot zeroed "VK2" sources_cached)).2.

(** Every call succeeds; the quit event is pending at the first poll. *)
Definition calm : Env := world all_succeed (quit_at 0) first_image compiles.

(** The fence is never seen signaled within the timeout; the quit event
    is pending at the second poll. *)
Definition fence_never_signals : Env :=
  world (only E_vkWaitForFences VK_TIMEOUT) (quit_at 1) first_image compiles.

(** Presenting fails. *)
Definition present_fails : Env :=
  world (only E_vkQueuePresentKHR VK_ERROR_OUT_OF_DATE_KHR) (quit_at 0)
    first_image compiles.

(** The acquisition times out and stores no index. *)
Definition acquire_times_out : Env :=
  world (only E_vkAcquireNextImageKHR VK_TIMEOUT) (quit_at 0)
    nothing_stored compiles.

(** The render pass cannot be created. *)
Definition no_render_pass : Env :=
  world (only E_vkCreateRenderPass VK_ERROR_OUT_OF_HOST_MEMORY) (quit_at 0)
    first_image compiles.


(** The compiler finds an error in every source. *)
Definition bad_shaders : Env := world all_succeed (quit_at 0) first_image rejects.

(** Every frame meets a fence that times out and a lost device; the quit
    event is pending at the second poll. *)
Definition broken_frames : Env := world frames_fail (quit_at 1) first_image compiles.

(** SDL cannot create the surface. *)
Definition headless : Env := on_platform false (fun _ => true) calm.

(** No physical device is suitable: the selection holds an error. *)
Definition no_gpu : Env :=
  on_platform true
    (fun r => match r with R_PhysicalDeviceSelector_select => false | _ => true end)
    calm.

End Samples.

(** * Facts *)

(** ** The monad *)

Section MonadFacts.
Context `{FloatOps}.

Lemma bind_Ret {A B} (m : M A) (k : A -> M B) s a s' :
  m s = (Ret a, s') -> bind m k s = k a s'.
Proof. unfold bind. by intros ->. Qed.

Lemma bind_Throw {A B} (m : M A) (k : A -> M B) s e s' :
  m s = (Throw e, s') -> bind m k s = (Throw e, s').
Proof. unfold bind. by intros ->. Qed.

(** A sequence that returns: its first part returned. *)
Lemma bind_Ret_inv {A B} (m : M A) (k : A -> M B) s b s' :
  bind m k s = (Ret b, s') ->
  exists a s1, m s = (Ret a, s1) /\ k a s1 = (Ret b, s').
Proof.
  unfold bind. destruct (m s) as [[a| | |] s1]; try discriminate. eauto.
Qed.


Lemma added_app (s s' : Sys) (ext : History) :
  log s' = log s ++ ext -> added s s' = ext.
Proof. unfold added. intros ->. by rewrite drop_app_length. Qed.

End MonadFacts.

(** ** The draw cycle *)

Section DrawFacts.
Context `{FloatOps} (env : Env).

(** A draw cycle in one piece: it stops at the framebuffer lookup when
    the index is out of range, and otherwise runs to its end. *)
Lemma Draw_run (s : Sys) :
  Draw env s =
  match Framebuffers (eng s) !! Draw_index env s with
  | Some framebuffer =>
      (Ret tt,
       with_eng (set_FrameNumber ((FrameNumber (eng s) + 1) mod 2 ^ 64))
         (with_log (fun l => l ++ Draw_head env s ++ Draw_tail env s framebuffer) s))
  | None => (Undefined, with_log (fun l => l ++ Draw_head env s) s)
  end.
Proof.
  destruct s as [e n f l].
  unfold Draw, Draw_index, Draw_tail, Draw_head, image_index, index, bind, this,
    vk, ask, emit, set, with_log, with_eng; cbn.
  rewrite <- !app_assoc; cbn.
  destruct (Framebuffers e !! _) as [framebuffer|]; cbn; [|reflexivity].
  rewrite <- !app_assoc. reflexivity.
Qed.

Lemma Draw_in_range (s : Sys) :
  (Draw_index env s < length (Framebuffers (eng s)))%nat ->
  exists framebuffer,
    Framebuffers (eng s) !! Draw_index env s = Some framebuffer /\
    Draw env s =
      (Ret tt,
       with_eng (set_FrameNumber ((FrameNumber (eng s) + 1) mod 2 ^ 64))
         (with_log (fun l => l ++ Draw_head env s ++ Draw_tail env s framebuffer) s)).
Proof.
  intros Hlt. destruct (lookup_lt_is_Some_2 _ _ Hlt) as [framebuffer E].
  exists framebuffer. split; [done|]. by rewrite Draw_run, E.
Qed.

Lemma Draw_out_of_range (s : Sys) :
  (length (Framebuffers (eng s)) <= Draw_index env s)%nat ->
  Draw env s = (Undefined, with_log (fun l => l ++ Draw_head env s) s).
Proof. intros Hge. by rewrite Draw_run, (lookup_ge_None_2 _ _ Hge). Qed.

Lemma Draw_n_run (n : nat) : forall s : Sys,
  (forall h, (image_index env h < length (Framebuffers (eng s)))%nat) ->
  0 <= FrameNumber (eng s) < 2 ^ 64 ->
  exists s',
    Draw_n env n s = (Ret tt, s') /\
    Framebuffers (eng s') = Framebuffers (eng s) /\
    FrameNumber (eng s') = (FrameNumber (eng s) + Z.of_nat n) mod 2 ^ 64.
Proof.
  induction n as [|n IH]; intros s Hin Hrange.
  - exists s. repeat split. rewrite Z.add_0_r, Z.mod_small; done.
  - destruct (Draw_in_range s (Hin _)) as (framebuffer & _ & Hdraw).
    set (s1 := with_eng _ _) in Hdraw.
    destruct (IH s1) as (s' & Hrun & Hfb & Hnum).
    { intros h. apply Hin. }
    { cbn. apply Z.mod_pos_bound. lia. }
    exists s'. cbn. rewrite (bind_Ret _ _ _ _ _ Hdraw). split; [done|].
    split; [by rewrite Hfb|]. rewrite Hnum. cbn.
    rewrite Zplus_mod_idemp_l. f_equal. lia.
Qed.

End DrawFacts.

(** ** The claims about the draw cycle *)



(** C2 (as amended).  [FrameNumber] goes up by one (modulo 2^64) in
    every draw cycle that runs to its end, whatever submit and present
    returned: [n] cycles take it from [k] to [(k + n) mod 2^64], so from
    0 on a fresh engine to [n]. *)
Theorem FrameNumber_counts_draws `{FloatOps} (env : Env) (s : Sys) (n : nat) :
  (forall h, (image_index env h < length (Framebuffers (eng s)))%nat) ->
  0 <= FrameNumber (eng s) < 2 ^ 64 ->
  exists s',
    Draw_n env n s = (Ret tt, s') /\
    FrameNumber (eng s') = (FrameNumber (eng s) + Z.of_nat n) mod 2 ^ 64.
Proof.
  intros Hin Hrange.
  destruct (Draw_n_run env n s Hin Hrange) as (s' & Hrun & _ & Hnum). eauto.
Qed.

Lemma FrameNumber_counts_draws_witness :
  exists s', Draw_n present_fails 3 (ready present_fails) = (Ret tt, s') /\
             FrameNumber (eng s') = (0 + Z.of_nat 3) mod 2 ^ 64.
Proof.
  apply (FrameNumber_counts_draws present_fails (ready present_fails) 3).
  - intros h. vm_compute. lia.
  - vm_compute. split; [discriminate | reflexivity].
Defined.

(** C2, refuted as stated.  The present step of the cycle fails, and
    [FrameNumber] is incremented all the same. *)
Lemma FrameNumber_incremented_when_present_fails :
  let s := ready present_fails in
  let s' := (Draw present_fails s).2 in
  last (log s') = Some (c_vkQueuePresentKHR (GraphicsQueue (eng s)) (Swapchain (eng s))
                          (RenderSemaphore (eng s)) 0 VK_ERROR_OUT_OF_DATE_KHR) /\
  FrameNumber (eng s) = 0 /\
  FrameNumber (eng s') = 1.
Proof. vm_compute. repeat split. Qed.

(** C7.  The clear value a draw cycle records is
    [{0, 0, |sin(FrameNumber / 120)|, 1}]: it is computed from
    [FrameNumber] alone, so two cycles entered with the same [FrameNumber],
    in any two worlds and engine states, record the same clear value. *)
Theorem clear_color_of_FrameNumber_alone `{FloatOps}
    (env1 env2 : Env) (s1 s2 : Sys) :
  (Draw_index env1 s1 < length (Framebuffers (eng s1)))%nat ->
  (Draw_index env2 s2 < length (Framebuffers (eng s2)))%nat ->
  FrameNumber (eng s1) = FrameNumber (eng s2) ->
  let n := FrameNumber (eng s1) in
  let flash := float_abs (float_sin (float_div (float_of_uint64 n) float_120)) in
  let color := {| cc_r := float_0; cc_g := float_0; cc_b := flash; cc_a := float_1 |} in
  clear_values (added s1 (Draw env1 s1).2) = [color] /\
  clear_values (added s2 (Draw env2 s2).2) = [color].
Proof.
  intros Hin1 Hin2 Hnum n flash color.
  destruct (Draw_in_range env1 s1 Hin1) as (f1 & _ & ->).
  destruct (Draw_in_range env2 s2 Hin2) as (f2 & _ & ->).
  split.
  - erewrite added_app by reflexivity. reflexivity.
  - erewrite added_app by reflexivity. cbn. unfold clear_color.
    by rewrite <- Hnum.
Qed.

Lemma clear_color_of_FrameNumber_alone_witness :
  let n := FrameNumber (eng (ready calm)) in
  let flash := float_abs (float_sin (float_div (float_of_uint64 n) float_120)) in
  let color := {| cc_r := float_0; cc_g := float_0; cc_b := flash; cc_a := float_1 |} in
  clear_values (added (ready calm) (Draw calm (ready calm)).2) = [color] /\
  clear_values (added (ready present_fails)
                  (Draw present_fails (ready present_fails)).2) = [color].
Proof.
  apply (clear_color_of_FrameNumber_alone calm present_fails
           (ready calm) (ready present_fails)).
  - vm_compute. lia.
  - vm_compute. lia.
  - vm_compute. reflexivity.
Defined.

(** ** What a computation leaves alone *)

Section Frames.
Context `{FloatOps}.

#[export] Instance extends_preorder (P : Call -> Prop) : PreOrder (extends P).
Proof.
  split.
  - intros s. exists []. by rewrite app_nil_r.
  - intros s1 s2 s3 (e1 & E1 & F1) (e2 & E2 & F2). exists (e1 ++ e2).
    split; [by rewrite E2, E1, app_assoc | by apply Forall_app].
Qed.

#[export] Instance same_engine_preorder : PreOrder same_engine.
Proof. split; unfold same_engine; [done | intros ???; congruence]. Qed.

#[export] Instance same_files_preorder : PreOrder same_files.
Proof. split; unfold same_files; [done | intros ???; congruence]. Qed.

Section Keeps.
Context (R : Sys -> Sys -> Prop) `{!PreOrder R}.

Lemma keeps_ret {A} (a : A) : keeps R (ret a).
Proof. intros s. reflexivity. Qed.
Lemma keeps_throw {A} e : keeps R (@throw _ A e).
Proof. intros s. reflexivity. Qed.
Lemma keeps_undefined {A} : keeps R (@undefined _ A).
Proof. intros s. reflexivity. Qed.
Lemma keeps_out_of_fuel {A} : keeps R (@out_of_fuel _ A).
Proof. intros s. reflexivity. Qed.
Lemma keeps_ask {A} (f : History -> A) : keeps R (ask f).
Proof. intros s. reflexivity. Qed.
Lemma keeps_this : keeps R this.
Proof. intros s. reflexivity. Qed.
Lemma keeps_files : keeps R files.
Proof. intros s. reflexivity. Qed.
Lemma keeps_index {A} (v : list A) i : keeps R (index v i).
Proof. unfold index. destruct (v !! i); intros s; reflexivity. Qed.

Lemma keeps_bind {A B} (m : M A) (k : A -> M B) :
  keeps R m -> (forall a, keeps R (k a)) -> keeps R (bind m k).
Proof.
  intros Hm Hk s. unfold bind. specialize (Hm s).
  destruct (m s) as [[a| | |] s1]; cbn in *; try done.
  etransitivity; [exact Hm | apply Hk].
Qed.

Lemma keeps_try_catch {A} (m : M A) (h : Exn -> M A) :
  keeps R m -> (forall e, keeps R (h e)) -> keeps R (try_catch m h).
Proof.
  intros Hm Hh s. unfold try_catch. specialize (Hm s).
  destruct (m s) as [[a| | |] s1]; cbn in *; try done.
  etransitivity; [exact Hm | apply Hh].
Qed.

End Keeps.

(** The log. *)
Lemma extends_same_log P s s' : log s' = log s -> extends P s s'.
Proof. intros E. exists []. by rewrite app_nil_r. Qed.

Lemma extends_emit P c : P c -> keeps (extends P) (emit c).
Proof. intros Hc s. exists [c]. split; [done | by constructor]. Qed.
Lemma extends_fresh P : keeps (extends P) fresh.
Proof. intros s. by apply extends_same_log. Qed.
Lemma extends_fresh_n P n : keeps (extends P) (fresh_n n).
Proof. intros s. by apply extends_same_log. Qed.
Lemma extends_set P f : keeps (extends P) (set f).
Proof. intros s. by apply extends_same_log. Qed.
Lemma extends_set_files P f : keeps (extends P) (set_files f).
Proof. intros s. by apply extends_same_log. Qed.

(** The engine object. *)
Lemma same_engine_emit c : keeps same_engine (emit c).
Proof. intros s. reflexivity. Qed.
Lemma same_engine_fresh : keeps same_engine fresh.
Proof. intros s. reflexivity. Qed.
Lemma same_engine_set_files f : keeps same_engine (set_files f).
Proof. intros s. reflexivity. Qed.

(** The files. *)
Lemma same_files_emit c : keeps same_files (emit c).
Proof. intros s. reflexivity. Qed.
Lemma same_files_fresh : keeps same_files fresh.
Proof. intros s. reflexivity. Qed.
Lemma same_files_fresh_n n : keeps same_files (fresh_n n).
Proof. intros s. reflexivity. Qed.
Lemma same_files_set f : keeps same_files (set f).
Proof. intros s. reflexivity. Qed.

Lemma extends_weaken (P Q : Call -> Prop) s s' :
  (forall c, P c -> Q c) -> extends P s s' -> extends Q s s'.
Proof.
  intros HPQ (ext & E & F). exists ext. split; [done|].
  eapply Forall_impl; eauto.
Qed.

Lemma extends_added P s s' : extends P s s' -> Forall P (added s s').
Proof. intros (ext & E & F). by rewrite (added_app _ _ _ E). Qed.

Lemma extends_log P s s' : extends P s s' -> log s' = log s ++ added s s'.
Proof. intros (ext & E & F). by rewrite (added_app _ _ _ E). Qed.

End Frames.

(** Walks through a computation, one bind at a time. *)
Ltac keeps_step :=
  match goal with
  | |- keeps _ (bind _ _) => apply keeps_bind; [try tc_solve | | intros ?]
  | |- keeps _ (try_catch _ _) => apply keeps_try_catch; [try tc_solve | | intros ?]
  | |- keeps _ (ret _) => apply keeps_ret; tc_solve
  | |- keeps _ (throw _) => apply keeps_throw; tc_solve
  | |- keeps _ undefined => apply keeps_undefined; tc_solve
  | |- keeps _ out_of_fuel => apply keeps_out_of_fuel; tc_solve
  | |- keeps _ (ask _) => apply keeps_ask; tc_solve
  | |- keeps _ (vk _ _) => apply keeps_ask; tc_solve
  | |- keeps _ (value _ _) => unfold value
  | |- keeps _ this => apply keeps_this; tc_solve
  | |- keeps _ files => apply keeps_files; tc_solve
  | |- keeps _ (index _ _) => apply keeps_index; tc_solve
  | |- keeps (extends _) (emit _) => apply extends_emit; try done
  | |- keeps (extends _) fresh => apply extends_fresh
  | |- keeps (extends _) (fresh_n _) => apply extends_fresh_n
  | |- keeps (extends _) (set _) => apply extends_set
  | |- keeps (extends _) (set_files _) => apply extends_set_files
  | |- keeps same_engine (emit _) => apply same_engine_emit
  | |- keeps same_engine fresh => apply same_engine_fresh
  | |- keeps same_engine (set_files _) => apply same_engine_set_files
  | |- keeps same_files (emit _) => apply same_files_emit
  | |- keeps same_files fresh => apply same_files_fresh
  | |- keeps same_files (fresh_n _) => apply same_files_fresh_n
  | |- keeps same_files (set _) => apply same_files_set
  | |- keeps _ (if ?b then _ else _) => destruct b
  | |- keeps _ (match ?x with _ => _ end) => destruct x
  | |- keeps _ (let _ := _ in _) => cbv zeta
  end.

Section InitFrames.
Context `{FloatOps} (env : Env).

Lemma create_extends (P : Call -> Prop) entry call :
  (forall r h, P (call r h)) -> keeps (extends P) (create env entry call).
Proof. intros HP. unfold create. repeat keeps_step; apply HP. Qed.

Lemma create_same_engine entry call : keeps same_engine (create env entry call).
Proof. unfold create. repeat keeps_step. Qed.

Lemma create_same_files entry call : keeps same_files (create env entry call).
Proof. unfold create. repeat keeps_step. Qed.

End InitFrames.

(** ** The shader cache *)

Section ShaderFacts.
Context `{FloatOps} (env : Env).

Lemma CompileGlslToSpv_same_engine glslPath out :
  keeps same_engine (CompileGlslToSpv env glslPath out).
Proof. unfold CompileGlslToSpv, read_all. repeat keeps_step. Qed.

Lemma LoadShaderModule_same_engine glslPath :
  keeps same_engine (LoadShaderModule env glslPath).
Proof.
  unfold LoadShaderModule, last_write_time, read_all.
  repeat first [apply CompileGlslToSpv_same_engine
               | apply create_same_engine | keeps_step].
Qed.

Lemma CompileGlslToSpv_extends (P : Call -> Prop) glslPath out :
  (forall c, is_destroy c = false -> P c) ->
  keeps (extends P) (CompileGlslToSpv env glslPath out).
Proof.
  intros HP. unfold CompileGlslToSpv, read_all. repeat keeps_step; by apply HP.
Qed.

Lemma LoadShaderModule_extends (P : Call -> Prop) glslPath :
  (forall c, is_destroy c = false -> P c) ->
  keeps (extends P) (LoadShaderModule env glslPath).
Proof.
  intros HP. unfold LoadShaderModule, last_write_time, read_all.
  repeat first [apply CompileGlslToSpv_extends; [done]
               | apply create_extends; [intros; by apply HP]
               | keeps_step].
Qed.

(** Without the source nothing happens but the failure. *)
Lemma LoadShaderModule_no_source (s : Sys) glslPath :
  fs s !! glslPath = None ->
  LoadShaderModule env glslPath s =
    (Throw (match fs s !! (glslPath +:+ ".spv") with
            | Some _ => filesystem_error "last_write_time" glslPath
            | None => runtime_error ("Failed to compile " +:+ glslPath +:+ " to spv")
            end),
     s).
Proof.
  intros Hsrc.
  unfold LoadShaderModule, CompileGlslToSpv, last_write_time, bind, files; cbn.
  destruct (fs s !! (glslPath +:+ ".spv")) as [cache|] eqn:Hspv; cbn.
  - rewrite Hsrc. reflexivity.
  - rewrite Hsrc. reflexivity.
Qed.


(** The artifact is at least as recent as the source: no compilation. *)
Lemma LoadShaderModule_fresh (s : Sys) glslPath src cache :
  fs s !! glslPath = Some src ->
  fs s !! (glslPath +:+ ".spv") = Some cache ->
  mtime src <= mtime cache ->
  (forall h p, answer_open_read env h p = true) ->
  (forall h, answer_vk env h E_vkCreateShaderModule = VK_SUCCESS) ->
  LoadShaderModule env glslPath s =
    (Ret (next_handle s),
     with_next S
       (with_log (fun l => l ++ [c_vkCreateShaderModule (Device (eng s)) (bytes cache)
                                   VK_SUCCESS (next_handle s)]) s)).
Proof.
  intros Hsrc Hspv Hle Hread Hvk.
  destruct s as [e n f l]; simpl in *.
  unfold LoadShaderModule, last_write_time, read_all, create, vk, bind, files,
    ask, this, ret, emit, with_log, with_fs, with_next, fresh; simpl.
  repeat (progress (rewrite ?Hsrc, ?Hspv, ?Hread, ?Hvk;
                    try rewrite bool_decide_false by lia; simpl)).
  reflexivity.
Qed.

(** No artifact, or one older than the source, and the compiler accepts
    the source: one compilation, the artifact rewritten and loaded. *)
Lemma LoadShaderModule_stale_ok (s : Sys) glslPath src :
  fs s !! glslPath = Some src ->
  match fs s !! (glslPath +:+ ".spv") with
  | Some cache => mtime cache < mtime src
  | None => True
  end ->
  GetNumErrors (compile_result env s glslPath src) = O ->
  (forall h p, answer_open_read env h p = true) ->
  (forall h p, answer_open_write env h p = true) ->
  (forall h, answer_vk env h E_vkCreateShaderModule = VK_SUCCESS) ->
  let compiled := compile_call env s glslPath src in
  let artifact := {| mtime := answer_clock env (log s ++ [compiled]);
                     bytes := spirv (compile_result env s glslPath src) |} in
  LoadShaderModule env glslPath s =
    (Ret (next_handle s),
     with_next S
       (with_fs (insert (glslPath +:+ ".spv") artifact)
         (with_log (fun l => l ++ [compiled;
                                   c_vkCreateShaderModule (Device (eng s))
                                     (spirv (compile_result env s glslPath src))
                                     VK_SUCCESS (next_handle s)]) s))).
Proof.
  intros Hsrc Hstale Herr Hread Hwrite Hvk compiled artifact.
  subst compiled artifact. unfold compile_call, compile_result in *.
  destruct s as [e n f l]; simpl in *.
  unfold LoadShaderModule, CompileGlslToSpv, last_write_time, read_all, create, vk,
    bind, files, set_files, emit, ask, this, ret, with_log, with_fs, with_next, fresh;
    simpl.
  destruct (f !! (glslPath +:+ ".spv")) as [cache|] eqn:Hspv; simpl;
    repeat (progress (rewrite ?Hsrc, ?Hspv, ?Hread, ?Hwrite, ?Hvk, ?Herr,
                        ?lookup_insert_eq;
                      try rewrite bool_decide_true by lia; simpl));
    rewrite <- ?app_assoc; reflexivity.
Qed.

(** The same, and the compiler reports an error: one compilation, the
    diagnostic on the debugger's stream, no file written, an exception. *)
Lemma LoadShaderModule_stale_error (s : Sys) glslPath src :
  fs s !! glslPath = Some src ->
  match fs s !! (glslPath +:+ ".spv") with
  | Some cache => mtime cache < mtime src
  | None => True
  end ->
  GetNumErrors (compile_result env s glslPath src) <> O ->
  (forall h p, answer_open_read env h p = true) ->
  LoadShaderModule env glslPath s =
    (Throw (runtime_error ("Failed to compile " +:+ glslPath +:+ " to spv")),
     with_log (fun l => l ++ [compile_call env s glslPath src;
                              c_OutputDebugString
                                (GetErrorMessage (compile_result env s glslPath src));
                              c_OutputDebugString newline]) s).
Proof.
  intros Hsrc Hstale Herr Hread.
  unfold compile_call, compile_result in *.
  destruct s as [e n f l]; simpl in *.
  unfold LoadShaderModule, CompileGlslToSpv, last_write_time, read_all, create, vk,
    bind, files, set_files, emit, ask, this, ret, with_log, with_fs, with_next, fresh;
    simpl.
  destruct (f !! (glslPath +:+ ".spv")) as [cache|] eqn:Hspv; simpl;
    repeat (progress (rewrite ?Hsrc, ?Hspv, ?Hread;
                      try rewrite bool_decide_true by lia; simpl));
    rewrite <- ?app_assoc; reflexivity.
Qed.

End ShaderFacts.

(** ** The claims about the shader cache *)

(** C4 (as amended).  For a source file that exists, with files that
    open and a driver that accepts the module: when the cached artifact
    at [glslPath + ".spv"] is not older than the source,
    [LoadShaderModule] invokes the compiler zero times, changes no file
    and returns a module made from exactly the bytes of the artifact;
    when there is no artifact, or the source is strictly newer, it
    invokes the compiler exactly once, and the artifact is overwritten
    with the compilation result if the compiler reported no error, while
    with an error the artifact stays as it was and the call throws. *)
Theorem shader_cache `{FloatOps} (env : Env) (s : Sys) (glslPath : string) (src : File) :
  fs s !! glslPath = Some src ->
  (forall h p, answer_open_read env h p = true) ->
  (forall h p, answer_open_write env h p = true) ->
  (forall h, answer_vk env h E_vkCreateShaderModule = VK_SUCCESS) ->
  match fs s !! (glslPath +:+ ".spv") with
  | Some cache =>
      if bool_decide (mtime src <= mtime cache)
      then cache_reused env s glslPath cache
      else cache_rebuilt env s glslPath src
  | None => cache_rebuilt env s glslPath src
  end.
Proof.
  intros Hsrc Hread Hwrite Hvk.
  assert (Hmiss : match fs s !! (glslPath +:+ ".spv") with
                  | Some cache => mtime cache < mtime src
                  | None => True
                  end -> cache_rebuilt env s glslPath src).
  { intros Hstale. unfold cache_rebuilt.
    destruct (GetNumErrors (compile_result env s glslPath src)) as [|k] eqn:Herr.
    - rewrite (LoadShaderModule_stale_ok env s glslPath src) by done.
      cbn. erewrite added_app by reflexivity. repeat split.
      rewrite last_app. reflexivity.
    - rewrite (LoadShaderModule_stale_error env s glslPath src)
        by (done || congruence).
      cbn. erewrite added_app by reflexivity. repeat split. }
  destruct (fs s !! (glslPath +:+ ".spv")) as [cache|] eqn:Hspv.
  - case_bool_decide as Hle.
    + unfold cache_reused.
      rewrite (LoadShaderModule_fresh env s glslPath src cache) by done.
      cbn. erewrite added_app by reflexivity. repeat split.
    + apply Hmiss. lia.
  - by apply Hmiss.
Qed.

Lemma shader_cache_witness :
  cache_reused calm (boot zeroed "VK2" sources_cached) vert
    {| mtime := 20; bytes := [Byte.x01; Byte.x02] |} /\
  cache_rebuilt calm (boot zeroed "VK2" vert_edited) vert
    {| mtime := 30; bytes := [Byte.x76] |}.
Proof.
  split.
  - refine (shader_cache calm (boot zeroed "VK2" sources_cached) vert
              {| mtime := 10; bytes := [Byte.x76] |} _ _ _ _).
    + vm_compute. reflexivity.
    + intros h p. reflexivity.
    + intros h p. reflexivity.
    + intros h. reflexivity.
  - refine (shader_cache calm (boot zeroed "VK2" vert_edited) vert
              {| mtime := 30; bytes := [Byte.x76] |} _ _ _ _).
    + vm_compute. reflexivity.
    + intros h p. reflexivity.
    + intros h p. reflexivity.
    + intros h. reflexivity.
Defined.

(** C4, refuted as stated.  The source is strictly newer than the
    artifact and the compiler is invoked once, but it reports an error:
    the artifact is not overwritten and the call throws. *)
Lemma stale_artifact_survives_failed_compilation :
  let s := boot zeroed "VK2" vert_edited in
  let run := LoadShaderModule bad_shaders vert s in
  mtime <$> fs s !! vert = Some 30 /\
  mtime <$> fs s !! (vert +:+ ".spv") = Some 20 /\
  compilations (log run.2) = 1%nat /\
  fs run.2 !! (vert +:+ ".spv") = Some {| mtime := 20; bytes := [Byte.x01; Byte.x02] |} /\
  run.1 = Throw (runtime_error "Failed to compile ./Shaders/triangle.vert to spv").
Proof. vm_compute. repeat split. Qed.

(** C8 (as amended).  When the source file is missing,
    [LoadShaderModule] throws before anything else happens: no compiler
    invocation, no file written, the state as it was.  The code has no
    error of its own for a missing source.  With an artifact in the
    cache the exception is the one [std::filesystem::last_write_time]
    throws for the source path; without one it is the
    [runtime_error("Failed to compile ... to spv")] that a compilation
    error gives too. *)
Theorem missing_source_fails_before_compiling `{FloatOps}
    (env : Env) (s : Sys) (glslPath : string) :
  fs s !! glslPath = None ->
  let run := LoadShaderModule env glslPath s in
  run.1 = Throw (match fs s !! (glslPath +:+ ".spv") with
                 | Some _ => filesystem_error "last_write_time" glslPath
                 | None => runtime_error ("Failed to compile " +:+ glslPath +:+ " to spv")
                 end) /\
  run.2 = s /\
  compilations (added s run.2) = O.
Proof.
  intros Hsrc run. subst run.
  rewrite (LoadShaderModule_no_source env s glslPath Hsrc). cbn [fst snd].
  split_and!; [done..|]. unfold added. by rewrite drop_all.
Qed.

Lemma missing_source_fails_before_compiling_witness :
  let s := boot zeroed "VK2" vert_deleted in
  let run := LoadShaderModule calm vert s in
  run.1 = Throw (match fs s !! (vert +:+ ".spv") with
                 | Some _ => filesystem_error "last_write_time" vert
                 | None => runtime_error ("Failed to compile " +:+ vert +:+ " to spv")
                 end) /\
  run.2 = s /\
  compilations (added s run.2) = O.
Proof.
  intros s. apply (missing_source_fails_before_compiling calm s vert).
  vm_compute. reflexivity.
Defined.

(** C8, refuted as stated.  The vertex shader's source is missing.
    With no artifact in the cache the call throws the very exception it
    throws for a source that is there and does not compile; with an
    artifact in the cache it throws another one, from the file system.
    Neither is an error that tells a missing source, and which one it
    is depends on the cache. *)
Lemma missing_source_has_no_error_of_its_own :
  let missing := LoadShaderModule bad_shaders vert (boot zeroed "VK2" ∅) in
  let rejected := LoadShaderModule bad_shaders vert (boot zeroed "VK2" sources_only) in
  let cached := LoadShaderModule bad_shaders vert (boot zeroed "VK2" vert_deleted) in
  missing.1 = Throw (runtime_error "Failed to compile ./Shaders/triangle.vert to spv") /\
  rejected.1 = missing.1 /\
  compilations (log missing.2) = 0%nat /\
  compilations (log rejected.2) = 1%nat /\
  cached.1 = Throw (filesystem_error "last_write_time" "./Shaders/triangle.vert") /\
  cached.1 <> missing.1.
Proof. vm_compute. repeat split. discriminate. Qed.

(** ** Initialisation *)

Section InitFacts.
Context `{FloatOps} (env : Env).

Lemma vk_nonzero_false r : vk_nonzero r = false -> r = VK_SUCCESS.
Proof. by destruct r. Qed.

Lemma created_app (h1 h2 : History) : created (h1 ++ h2) = created h1 ++ created h2.
Proof. apply flat_map_app. Qed.

Lemma destroyed_app (h1 h2 : History) :
  destroyed (h1 ++ h2) = destroyed h1 ++ destroyed h2.
Proof. apply flat_map_app. Qed.

Lemma destroyed_none (h : History) :
  Forall (fun c => is_destroy c = false) h -> destroyed h = [].
Proof.
  induction 1 as [|c h Hc _ IH]; [done|]. unfold destroyed in *. cbn.
  rewrite IH. by destruct c.
Qed.

(** One call per view, with the handles in a row. *)
Lemma framebuffer_calls_zip (e : Engine) (views : list Handle) (first : Handle) :
  framebuffer_calls e views first =
  zip_with (fun view framebuffer =>
              c_vkCreateFramebuffer (Device e) (RenderPass e) view (WindowExtents e)
                VK_SUCCESS framebuffer)
    views (seq first (length views)).
Proof.
  revert first. induction views as [|view views IH]; intros first; [done|].
  cbn. by rewrite IH.
Qed.

Lemma framebuffer_calls_created e views first :
  created (framebuffer_calls e views first)
  = map (pair KFramebuffer) (seq first (length views)).
Proof.
  revert first. induction views as [|view views IH]; intros first; [done|].
  unfold created in *. cbn. f_equal. apply IH.
Qed.


Lemma framebuffer_calls_set_Framebuffers fbs e views first :
  framebuffer_calls (set_Framebuffers fbs e) views first
  = framebuffer_calls e views first.
Proof.
  revert first. induction views as [|view views IH]; intros first; [done|].
  cbn. f_equal. apply IH.
Qed.

(** One round of the loop of [InitFramebuffers]. *)
Lemma InitFramebuffers_body_run (i : nat) (s : Sys) :
  InitFramebuffers_body env i s =
  match SwapchainImageViews (eng s) !! i with
  | None => (Undefined, s)
  | Some view =>
      let e := eng s in
      let r := answer_vk env (log s) E_vkCreateFramebuffer in
      let call := c_vkCreateFramebuffer (Device e) (RenderPass e) view (WindowExtents e) in
      if vk_nonzero r
      then (Throw (runtime_error "Failed to create a framebuffer"),
            with_log (fun l => l ++ [call r 0%nat]) s)
      else (Ret tt,
            with_eng (set_Framebuffers (<[i := next_handle s]> (Framebuffers e)))
              (with_log (fun l => l ++ [call VK_SUCCESS (next_handle s)])
                 (with_next S s)))
  end.
Proof.
  destruct s as [e n f l].
  unfold InitFramebuffers_body, index, create, vk, bind, this, ask, emit, fresh,
    set, throw, ret, with_eng, with_log, with_next; simpl.
  destruct (SwapchainImageViews e !! i) as [view|]; simpl; [|reflexivity].
  destruct (answer_vk env l E_vkCreateFramebuffer) eqn:E; simpl; reflexivity.
Qed.

(** The loop ran to its end: every round created a framebuffer. *)
Lemma InitFramebuffers_loop_Ret (todo : nat) : forall (i : nat) (s s' : Sys),
  InitFramebuffers_loop env todo i s = (Ret tt, s') ->
  let views := take todo (drop i (SwapchainImageViews (eng s))) in
  length views = todo /\
  s' = {| eng := set_Framebuffers
                   (list_inserts i (seq (next_handle s) todo) (Framebuffers (eng s)))
                   (eng s);
          next_handle := (next_handle s + todo)%nat;
          fs := fs s;
          log := log s ++ framebuffer_calls (eng s) views (next_handle s) |}.
Proof.
  induction todo as [|todo IH]; intros i s s' Hrun.
  - cbn in Hrun. injection Hrun as <-. cbn. split; [done|].
    rewrite Nat.add_0_r, app_nil_r. by destruct s as [[] ? ? ?].
  - cbn in Hrun. apply bind_Ret_inv in Hrun as ([] & s1 & Hbody & Hrest).
    rewrite InitFramebuffers_body_run in Hbody.
    destruct (SwapchainImageViews (eng s) !! i) as [view|] eqn:Hview;
      [|discriminate].
    cbn zeta in Hbody.
    destruct (vk_nonzero _) eqn:Hr; [discriminate|]. injection Hbody as <-.
    apply IH in Hrest as [Hlen ->]. cbn in Hlen |- *.
    rewrite (drop_S _ _ _ Hview). cbn. rewrite Hlen. split; [done|].
    f_equal.
    + rewrite list_insert_inserts_lt by lia. reflexivity.
    + lia.
    + rewrite <- app_assoc, framebuffer_calls_set_Framebuffers. reflexivity.
Qed.


(** [InitFramebuffers] returned: the engine has one fresh framebuffer
    per swapchain image, and nothing else changed. *)
Lemma InitFramebuffers_Ret (s s' : Sys) :
  InitFramebuffers env s = (Ret tt, s') ->
  let n := length (SwapchainImages (eng s)) in
  let views := take n (SwapchainImageViews (eng s)) in
  length views = n /\
  s' = {| eng := set_Framebuffers (seq (next_handle s) n) (eng s);
          next_handle := (next_handle s + n)%nat;
          fs := fs s;
          log := log s ++ framebuffer_calls (eng s) views (next_handle s) |}.
Proof.
  unfold InitFramebuffers, bind, this, set. cbn. intros Hrun.
  apply InitFramebuffers_loop_Ret in Hrun as [Hlen ->]. cbn in Hlen |- *.
  rewrite drop_0 in *. split; [done|].
  rewrite framebuffer_calls_set_Framebuffers.
  rewrite <- (app_nil_r (resize _ _ _)), list_inserts_0_r, app_nil_r
    by (by rewrite length_seq, length_resize).
  reflexivity.
Qed.


(** Splits on the result a creation call got; a failure ends the case. *)
Ltac case_result :=
  match goal with
  | |- context [vk_nonzero (answer_vk ?e ?h ?x)] =>
      destruct (answer_vk e h x) eqn:?; cbn -[create]; try discriminate
  end.

(** A creation call, in one piece. *)
Lemma create_run entry call (s : Sys) :
  create env entry call s =
  let r := answer_vk env (log s) entry in
  if vk_nonzero r
  then (Ret (r, 0%nat), with_log (fun l => l ++ [call r 0%nat]) s)
  else (Ret (r, next_handle s),
        with_log (fun l => l ++ [call r (next_handle s)]) (with_next S s)).
Proof.
  unfold create, vk, bind, ask, emit, fresh, ret. cbn.
  destruct (vk_nonzero _); reflexivity.
Qed.

(** The result of vk-bootstrap at hand holds a value. *)
Lemma value_run (result : VkbResult) (s : Sys) :
  value env result s =
  if answer_vkb_has_value env (log s) result then (Ret tt, s) else (Undefined, s).
Proof. unfold value, bind, ask. cbn. by destruct (answer_vkb_has_value _ _ _). Qed.

(** Splits on whether a result of vk-bootstrap holds a value; without
    one the case ends. *)
Ltac case_value :=
  match goal with
  | H : context [answer_vkb_has_value ?e ?h ?r] |- _ =>
      destruct (answer_vkb_has_value e h r); cbn -[create value] in H;
      try discriminate
  end.

(** [InitVulkan] when it returns. *)
Lemma InitVulkan_Ret (s s' : Sys) :
  InitVulkan env s = (Ret tt, s') ->
  exists (ok : bool) (family : Z),
    let e := eng s in
    let n := next_handle s in
    let surface := if ok then S (S n) else Surface e in
    let m := if ok then S (S (S n)) else S (S n) in
    s' = {| eng := set_GraphicsQueueFamily family
                     (set_GraphicsQueue (S (S m))
                        (set_Device (S m)
                           (set_ChosenGPU m
                              (set_Surface surface
                                 (set_DebugMessenger (S n)
                                    (set_Instance n e))))));
            next_handle := S (S (S m));
            fs := fs s;
            log := log s
                   ++ [c_vkb_InstanceBuilder_build (AppName e) n (S n);
                       c_SDL_Vulkan_CreateSurface (Window e) n ok surface;
                       c_vkb_PhysicalDeviceSelector_select surface m;
                       c_vkb_DeviceBuilder_build m (S m);
                       c_vkb_get_queue (S m) (S (S m)) family] |}.
Proof.
  destruct s as [e n f l]. intros Hrun.
  unfold InitVulkan, bind, this in Hrun. cbn -[value] in Hrun.
  rewrite value_run in Hrun. cbn -[value] in Hrun. case_value.
  unfold fresh, emit, set, ask, with_eng, with_log, with_next in Hrun.
  cbn -[value] in Hrun.
  destruct (answer_SDL_Vulkan_CreateSurface env _) eqn:Hok; cbn -[value] in Hrun;
    (rewrite value_run in Hrun; cbn -[value] in Hrun; case_value;
     rewrite value_run in Hrun; cbn -[value] in Hrun; case_value;
     rewrite value_run in Hrun; cbn -[value] in Hrun; case_value;
     rewrite value_run in Hrun; cbn -[value] in Hrun; case_value;
     injection Hrun as <-).
  - exists true. eexists. cbn. rewrite <- !app_assoc. reflexivity.
  - exists false. eexists. cbn. rewrite <- !app_assoc. cbn.
    destruct e; reflexivity.
Qed.

(** [InitSwapchain] when it returns. *)
Lemma InitSwapchain_Ret (s s' : Sys) :
  InitSwapchain env s = (Ret tt, s') ->
  exists (count : nat) (format : Z),
    let e := eng s in
    let n := next_handle s in
    let images := seq (S n) count in
    let views := seq (S n + count) count in
    s' = {| eng := set_SwapchainFormat format
                     (set_SwapchainImageViews views
                        (set_SwapchainImages images
                           (set_Swapchain n e)));
            next_handle := (S n + count + count)%nat;
            fs := fs s;
            log := log s
                   ++ [c_vkb_SwapchainBuilder_build (Device e) (Surface e)
                         (WindowExtents e) n format images views] |}.
Proof.
  destruct s as [e n f l]. intros Hrun.
  unfold InitSwapchain, bind, this in Hrun. cbn -[value] in Hrun.
  rewrite value_run in Hrun. cbn -[value] in Hrun. case_value.
  unfold fresh, fresh_n, emit, set, ask, with_eng, with_log, with_next in Hrun.
  cbn -[value] in Hrun.
  rewrite value_run in Hrun. cbn -[value] in Hrun. case_value.
  rewrite value_run in Hrun. cbn -[value] in Hrun. case_value.
  injection Hrun as <-. do 2 eexists. cbn. reflexivity.
Qed.


Lemma InitCommands_Ret (s s' : Sys) :
  InitCommands env s = (Ret tt, s') ->
  let e := eng s in
  let n := next_handle s in
  s' = {| eng := set_MainCommandBuffer (S n) (set_CommandPool n e);
          next_handle := S (S n);
          fs := fs s;
          log := log s
                 ++ [c_vkCreateCommandPool (Device e) (GraphicsQueueFamily e)
                       VK_SUCCESS n;
                     c_vkAllocateCommandBuffers (Device e) n VK_SUCCESS (S n)] |}.
Proof.
  destruct s as [e n f l].
  unfold InitCommands, bind, this, set, throw, ret. cbn -[create].
  do 2 (rewrite create_run; cbn -[create]; case_result).
  intros [= <-]. unfold with_eng, with_log, with_next; cbn.
  rewrite <- ?app_assoc. reflexivity.
Qed.

Lemma InitDefaultRenderpass_Ret (s s' : Sys) :
  InitDefaultRenderpass env s = (Ret tt, s') ->
  let e := eng s in
  let n := next_handle s in
  s' = {| eng := set_RenderPass n e;
          next_handle := S n;
          fs := fs s;
          log := log s
                 ++ [c_vkCreateRenderPass (Device e) (SwapchainFormat e)
                       VK_SUCCESS n] |}.
Proof.
  destruct s as [e n f l].
  unfold InitDefaultRenderpass, bind, this, set, throw, ret. cbn -[create].
  rewrite create_run; cbn -[create]; case_result.
  intros [= <-]. unfold with_eng, with_log, with_next; cbn.
  rewrite <- ?app_assoc. reflexivity.
Qed.

Lemma InitSyncStructures_Ret (s s' : Sys) :
  InitSyncStructures env s = (Ret tt, s') ->
  let e := eng s in
  let n := next_handle s in
  s' = {| eng := set_RenderSemaphore (S (S n))
                   (set_PresentSemaphore (S n) (set_RenderFence n e));
          next_handle := S (S (S n));
          fs := fs s;
          log := log s
                 ++ [c_vkCreateFence (Device e) VK_SUCCESS n;
                     c_vkCreateSemaphore (Device e) VK_SUCCESS (S n);
                     c_vkCreateSemaphore (Device e) VK_SUCCESS (S (S n))] |}.
Proof.
  destruct s as [e n f l].
  unfold InitSyncStructures, bind, this, set, throw, ret. cbn -[create].
  do 3 (rewrite create_run; cbn -[create]; case_result).
  intros [= <-]. unfold with_eng, with_log, with_next; cbn.
  rewrite <- ?app_assoc. reflexivity.
Qed.

(** Initialisation destroys nothing, however it ends. *)
Ltac init_steps :=
  repeat first
    [ apply create_extends; [intros; reflexivity]
    | apply LoadShaderModule_extends; [done]
    | keeps_step ].

Lemma InitVulkan_extends : keeps (extends not_destroy) (InitVulkan env).
Proof. unfold InitVulkan. init_steps. Qed.

Lemma InitSwapchain_extends : keeps (extends not_destroy) (InitSwapchain env).
Proof. unfold InitSwapchain. init_steps. Qed.

Lemma InitCommands_extends : keeps (extends not_destroy) (InitCommands env).
Proof. unfold InitCommands. init_steps. Qed.

Lemma InitDefaultRenderpass_extends :
  keeps (extends not_destroy) (InitDefaultRenderpass env).
Proof. unfold InitDefaultRenderpass. init_steps. Qed.

Lemma InitFramebuffers_loop_extends todo : forall i,
  keeps (extends not_destroy) (InitFramebuffers_loop env todo i).
Proof.
  induction todo as [|todo IH]; intros i; cbn; [init_steps|].
  apply keeps_bind; [tc_solve | | intros _; apply IH].
  unfold InitFramebuffers_body. init_steps.
Qed.

Lemma InitFramebuffers_extends : keeps (extends not_destroy) (InitFramebuffers env).
Proof.
  unfold InitFramebuffers.
  repeat first [apply InitFramebuffers_loop_extends | keeps_step].
Qed.

Lemma InitSyncStructures_extends :
  keeps (extends not_destroy) (InitSyncStructures env).
Proof. unfold InitSyncStructures. init_steps. Qed.

Lemma InitPipelines_extends : keeps (extends not_destroy) (InitPipelines env).
Proof. unfold InitPipelines. init_steps. Qed.

Lemma Initialize_extends : keeps (extends not_destroy) (Initialize env).
Proof.
  unfold Initialize.
  repeat first
    [ apply InitVulkan_extends | apply InitSwapchain_extends
    | apply InitCommands_extends | apply InitDefaultRenderpass_extends
    | apply InitFramebuffers_extends | apply InitSyncStructures_extends
    | apply InitPipelines_extends | keeps_step ].
Qed.

End InitFacts.

(** ** The claims about failures of initialisation *)





(** ** The shader cache: what a load that returned has done *)

Section ShaderFurther.
Context `{FloatOps} (env : Env).

(** [CompileGlslToSpv] in one piece. *)
Lemma CompileGlslToSpv_run (glslPath : string) (out : option string) (s : Sys) :
  CompileGlslToSpv env glslPath out s =
  match fs s !! glslPath with
  | None => (Ret false, s)
  | Some src =>
      if answer_open_read env (log s) glslPath then
        let call := compile_call env s glslPath src in
        let result := compile_result env s glslPath src in
        if bool_decide (0 < GetNumErrors result)%nat
        then (Ret false,
              with_log (fun l => l ++ [call; c_OutputDebugString (GetErrorMessage result);
                                       c_OutputDebugString newline]) s)
        else if answer_open_write env (log s ++ [call]) (default (glslPath +:+ ".spv") out)
        then (Ret true,
              with_fs (insert (default (glslPath +:+ ".spv") out)
                         {| mtime := answer_clock env (log s ++ [call]);
                            bytes := spirv result |})
                (with_log (fun l => l ++ [call]) s))
        else (Ret false, with_log (fun l => l ++ [call]) s)
      else (Ret false, s)
  end.
Proof.
  destruct s as [e n f l]. unfold compile_call, compile_result.
  unfold CompileGlslToSpv, read_all, bind, files, set_files, emit, ask, ret,
    with_log, with_fs. simpl.
  destruct (f !! glslPath) as [src|] eqn:Hsrc; simpl; [|reflexivity].
  rewrite Hsrc. simpl.
  destruct (answer_open_read env l glslPath); simpl; [|reflexivity].
  case_bool_decide; simpl; [by rewrite <- !app_assoc|].
  destruct (answer_open_write env _ _); simpl; reflexivity.
Qed.

Lemma string_length_app (a b : string) :
  String.length (a +:+ b) = (String.length a + String.length b)%nat.
Proof.
  induction a as [|c a IH]; [done|].
  change (S (String.length (a +:+ b)) = S (String.length a + String.length b)).
  by rewrite IH.
Qed.

(** The artifact is never the source itself. *)
Lemma spv_path_differs (glslPath : string) : glslPath +:+ ".spv" <> glslPath.
Proof.
  intros Heq. apply (f_equal String.length) in Heq.
  rewrite string_length_app in Heq. cbn in Heq. lia.
Qed.

(** How a load that returned went: either the cached artifact was used,
    or the source was compiled and the artifact rewritten. *)
Lemma LoadShaderModule_Ret (glslPath : string) (s s' : Sys) (h : Handle) :
  LoadShaderModule env glslPath s = (Ret h, s') ->
  exists src artifact,
    fs s !! glslPath = Some src /\
    fs s' !! (glslPath +:+ ".spv") = Some artifact /\
    h = next_handle s /\
    eng s' = eng s /\
    (fs s' = fs s /\ mtime src <= mtime artifact /\
     log s' = log s ++ [c_vkCreateShaderModule (Device (eng s)) (bytes artifact)
                          VK_SUCCESS h]
     \/
     fs s' = <[glslPath +:+ ".spv" := artifact]> (fs s) /\
     artifact = {| mtime := answer_clock env (log s ++ [compile_call env s glslPath src]);
                   bytes := spirv (compile_result env s glslPath src) |} /\
     log s' = log s ++ [compile_call env s glslPath src;
                        c_vkCreateShaderModule (Device (eng s)) (bytes artifact)
                          VK_SUCCESS h]).
Proof.
  intros Hrun. unfold LoadShaderModule in Hrun.
  apply bind_Ret_inv in Hrun as (fsys & s0 & [= <- <-] & Hrun).
  apply bind_Ret_inv in Hrun as (stale & s1 & Hstale & Hrun).
  apply bind_Ret_inv in Hrun as ([] & s2 & Hcompile & Hrun).
  apply bind_Ret_inv in Hrun as (content & s3 & Hread & Hrun).
  (* reading the artifact and creating the module, from [s2] *)
  assert (Htail : exists artifact,
            fs s2 !! (glslPath +:+ ".spv") = Some artifact /\
            h = next_handle s2 /\
            s' = with_log (fun l => l ++ [c_vkCreateShaderModule (Device (eng s2))
                                            (bytes artifact) VK_SUCCESS h])
                   (with_next S s2)).
  { unfold read_all, bind, files in Hread. cbn in Hread.
    destruct (fs s2 !! (glslPath +:+ ".spv")) as [artifact|]; cbn in Hread.
    - unfold ask in Hread. cbn in Hread.
      destruct (answer_open_read env (log s2) _); injection Hread as <- <-;
        [|discriminate].
      exists artifact. split; [done|].
      unfold bind, this in Hrun. cbn -[create] in Hrun. rewrite create_run in Hrun.
      cbn in Hrun. destruct (answer_vk env (log s2) E_vkCreateShaderModule);
        cbn in Hrun; try discriminate.
      injection Hrun as <- <-. done.
    - injection Hread as <- <-. discriminate. }
  destruct Htail as (artifact & Hartifact & -> & ->).
  (* was the artifact stale? *)
  destruct (fs s !! (glslPath +:+ ".spv")) as [cache|] eqn:Hspv; cbn in Hstale.
  - unfold last_write_time, bind, files in Hstale. cbn in Hstale.
    destruct (fs s !! glslPath) as [src|] eqn:Hsrc; cbn in Hstale; [|discriminate].
    rewrite Hspv in Hstale. cbn in Hstale. injection Hstale as <- <-.
    case_bool_decide as Hnewer.
    + (* compiled *)
      apply bind_Ret_inv in Hcompile as (compiled & s4 & Hc & Hthrow).
      rewrite CompileGlslToSpv_run, Hsrc in Hc.
      destruct compiled; [|discriminate].
      injection Hthrow as <-.
      destruct (answer_open_read env (log s) glslPath); [|discriminate].
      cbn zeta in Hc. case_bool_decide; [discriminate|].
      destruct (answer_open_write env _ _); [|discriminate].
      injection Hc as <-. cbn in Hartifact |- *.
      rewrite lookup_insert_eq in Hartifact. injection Hartifact as <-.
      exists src. eexists.
      split; [done|]. split; [apply lookup_insert_eq|]. do 2 (split; [done|]).
      right. repeat split. by rewrite <- app_assoc.
    + injection Hcompile as <-. exists src, artifact.
      rewrite Hspv in Hartifact. injection Hartifact as <-.
      do 4 (split; [done|]). left. split; [done|]. split; [lia | done].
  - injection Hstale as <- <-.
    apply bind_Ret_inv in Hcompile as (compiled & s4 & Hc & Hthrow).
    rewrite CompileGlslToSpv_run in Hc.
    destruct compiled; [|discriminate]. injection Hthrow as <-.
    destruct (fs s !! glslPath) as [src|] eqn:Hsrc; [|discriminate].
    destruct (answer_open_read env (log s) glslPath); [|discriminate].
    cbn zeta in Hc. case_bool_decide; [discriminate|].
    destruct (answer_open_write env _ _); [|discriminate].
    injection Hc as <-. cbn in Hartifact |- *.
    rewrite lookup_insert_eq in Hartifact. injection Hartifact as <-.
    exists src. eexists.
    split; [done|]. split; [apply lookup_insert_eq|]. do 2 (split; [done|]).
    right. repeat split. by rewrite <- app_assoc.
Qed.

Lemma LoadShaderModule_loads_artifact_created (glslPath : string) (s s' : Sys) h :
  LoadShaderModule env glslPath s = (Ret h, s') ->
  created (added s s') = [(KShaderModule, h)] /\ eng s' = eng s.
Proof.
  intros Hrun.
  destruct (LoadShaderModule_Ret glslPath s s' h Hrun)
    as (src & artifact & _ & _ & -> & Heng & [(_ & _ & Hlog) | (_ & _ & Hlog)]);
    by rewrite (added_app _ _ _ Hlog).
Qed.

Lemma InitPipelines_Ret (s s' : Sys) :
  InitPipelines env s = (Ret tt, s') ->
  eng s' = eng s /\
  exists (vertex fragment : Handle) (ext : list Call),
    log s' = log s ++ ext /\
    created ext = [(KShaderModule, vertex); (KShaderModule, fragment)] /\
    destroyed ext = [].
Proof.
  unfold InitPipelines. intros Hrun.
  apply bind_Ret_inv in Hrun as (vertex & s1 & Hvert & Hrun).
  apply bind_Ret_inv in Hrun as (fragment & s2 & Hfrag & [= <-]).
  pose proof (LoadShaderModule_extends env not_destroy
                "./Shaders/triangle.vert" (fun _ Hc => Hc) s) as Hx1.
  pose proof (LoadShaderModule_extends env not_destroy
                "./Shaders/triangle.frag" (fun _ Hc => Hc) s1) as Hx2.
  rewrite Hvert in Hx1. rewrite Hfrag in Hx2.
  destruct Hx1 as (ext1 & Hlog1 & Hnd1). destruct Hx2 as (ext2 & Hlog2 & Hnd2).
  cbn [snd] in *.
  destruct (LoadShaderModule_loads_artifact_created _ s s1 vertex Hvert) as [Hc1 He1].
  destruct (LoadShaderModule_loads_artifact_created _ s1 s2 fragment Hfrag) as [Hc2 He2].
  split; [congruence|]. exists vertex, fragment, (ext1 ++ ext2).
  rewrite (added_app _ _ _ Hlog1) in Hc1. rewrite (added_app _ _ _ Hlog2) in Hc2.
  rewrite created_app, destroyed_app, Hc1, Hc2, !destroyed_none by done.
  split; [|done]. by rewrite Hlog2, Hlog1, app_assoc.
Qed.

End ShaderFurther.

(** ** Teardown *)

Section CleanupFacts.
Context `{FloatOps}.

Lemma Cleanup_not_initialized (s : Sys) :
  IsInitialized (eng s) = false -> Cleanup s = (Ret tt, s).
Proof. intros Hflag. unfold Cleanup, bind, this. cbn. by rewrite Hflag. Qed.

Lemma Cleanup_body_run (i : nat) (s : Sys) framebuffer view :
  Framebuffers (eng s) !! i = Some framebuffer ->
  SwapchainImageViews (eng s) !! i = Some view ->
  Cleanup_body i s =
    (Ret tt, with_log (fun l => l ++ [c_destroy KFramebuffer framebuffer;
                                      c_destroy KImageView view]) s).
Proof.
  intros Hfb Hview. destruct s as [e n f l]. cbn in *.
  unfold Cleanup_body, bind, this, index, emit, ret, with_log. cbn.
  rewrite Hfb. cbn. rewrite Hview. cbn. by rewrite <- app_assoc.
Qed.

Lemma Cleanup_loop_run (todo : nat) : forall (i : nat) (s : Sys),
  (i + todo <= length (Framebuffers (eng s)))%nat ->
  (i + todo <= length (SwapchainImageViews (eng s)))%nat ->
  Cleanup_loop todo i s =
    (Ret tt,
     with_log (fun l => l ++ Cleanup_pairs
                              (take todo (drop i (Framebuffers (eng s))))
                              (take todo (drop i (SwapchainImageViews (eng s))))) s).
Proof.
  induction todo as [|todo IH]; intros i s Hfbs Hviews.
  - cbn. unfold ret, with_log. rewrite app_nil_r. by destruct s.
  - destruct (lookup_lt_is_Some_2 (Framebuffers (eng s)) i) as [fb Hfb]; [lia|].
    destruct (lookup_lt_is_Some_2 (SwapchainImageViews (eng s)) i) as [v Hv]; [lia|].
    cbn. rewrite (bind_Ret _ _ _ _ _ (Cleanup_body_run i s fb v Hfb Hv)).
    rewrite IH by (cbn; lia). cbn.
    rewrite (drop_S _ _ _ Hfb), (drop_S _ _ _ Hv). cbn.
    unfold with_log. cbn. by rewrite <- app_assoc.
Qed.

(** [Cleanup] on an initialised engine whose framebuffers are no fewer
    than its image views. *)
Lemma Cleanup_run (s : Sys) :
  IsInitialized (eng s) = true ->
  (length (SwapchainImageViews (eng s)) <= length (Framebuffers (eng s)))%nat ->
  Cleanup s = (Ret tt, with_log (fun l => l ++ Cleanup_calls (eng s)) s).
Proof.
  intros Hflag Hlen. destruct s as [e n f l]. cbn in *.
  unfold Cleanup, bind, this, emit. cbn -[Cleanup_loop]. rewrite Hflag.
  cbn -[Cleanup_loop]. rewrite Cleanup_loop_run by (cbn; lia).
  unfold with_log, Cleanup_calls. cbn.
  rewrite drop_0, (take_ge (SwapchainImageViews e)) by lia.
  rewrite <- !app_assoc. reflexivity.
Qed.

Lemma Cleanup_pairs_destroyed (fbs views : list Handle) :
  length fbs = length views ->
  destroyed (Cleanup_pairs fbs views)
  ≡ₚ map (pair KFramebuffer) fbs ++ map (pair KImageView) views.
Proof.
  revert views. induction fbs as [|fb fbs IH]; intros [|v views] Hlen;
    try discriminate; [done|].
  unfold destroyed in *. cbn. injection Hlen as Hlen. rewrite (IH _ Hlen).
  constructor. by rewrite <- Permutation_middle.
Qed.

End CleanupFacts.

(** ** The engine after a complete initialisation *)

(** Computes in a hypothesis, leaving the steps of [Initialize] folded. *)
Tactic Notation "norm" hyp(H) :=
  cbn -[InitVulkan InitSwapchain InitCommands InitDefaultRenderpass
        InitFramebuffers InitSyncStructures InitPipelines bind
        Nat.add seq length take] in H.

(** Finds the disjunct that holds by reflexivity or by assumption. *)
Ltac pick :=
  first [ reflexivity | assumption
        | left; (reflexivity || assumption)
        | right; pick ].

Section ReadyFacts.
Context `{FloatOps} (env : Env).

Lemma InitPipelines_same_engine : keeps same_engine (InitPipelines env).
Proof.
  unfold InitPipelines.
  repeat first [apply LoadShaderModule_same_engine | keeps_step].
Qed.

(** The calls of a complete initialisation on an engine just
    constructed, told by the members of the engine it leaves. *)
Lemma Initialize_log (storage : Engine) (app : string) (disk : gmap string File)
    (s1 : Sys) :
  Initialize env (boot storage app disk) = (Ret tt, s1) ->
  let e := eng s1 in
  exists (surface_made : bool) (shaders : list Call) (a b c n : nat),
    log s1 =
      [c_SDL_Init 0;
       c_SDL_CreateWindow app (WindowExtents e) (Window e);
       c_vkb_InstanceBuilder_build app (Instance e) (DebugMessenger e);
       c_SDL_Vulkan_CreateSurface (Window e) (Instance e) surface_made (Surface e);
       c_vkb_PhysicalDeviceSelector_select (Surface e) (ChosenGPU e);
       c_vkb_DeviceBuilder_build (ChosenGPU e) (Device e);
       c_vkb_get_queue (Device e) (GraphicsQueue e) (GraphicsQueueFamily e);
       c_vkb_SwapchainBuilder_build (Device e) (Surface e) (WindowExtents e)
         (Swapchain e) (SwapchainFormat e) (SwapchainImages e)
         (SwapchainImageViews e);
       c_vkCreateCommandPool (Device e) (GraphicsQueueFamily e) VK_SUCCESS
         (CommandPool e);
       c_vkAllocateCommandBuffers (Device e) (CommandPool e) VK_SUCCESS
         (MainCommandBuffer e);
       c_vkCreateRenderPass (Device e) (SwapchainFormat e) VK_SUCCESS (RenderPass e)]
      ++ zip_with (fun view framebuffer =>
                     c_vkCreateFramebuffer (Device e) (RenderPass e) view
                       (WindowExtents e) VK_SUCCESS framebuffer)
           (SwapchainImageViews e) (Framebuffers e)
      ++ [c_vkCreateFence (Device e) VK_SUCCESS (RenderFence e);
          c_vkCreateSemaphore (Device e) VK_SUCCESS (PresentSemaphore e);
          c_vkCreateSemaphore (Device e) VK_SUCCESS (RenderSemaphore e)]
      ++ shaders /\
    (exists vertex fragment : Handle,
       created shaders = [(KShaderModule, vertex); (KShaderModule, fragment)]) /\
    IsInitialized e = true /\
    FrameNumber e = 0 /\
    Framebuffers e = seq a n /\
    SwapchainImageViews e = seq b n /\
    SwapchainImages e = seq c n /\
    Window e <> 0%nat /\
    (surface_made = false -> Surface e = Surface storage).
Proof.
  intros Hrun. unfold Initialize in Hrun.
  (* SDL_Init *)
  apply bind_Ret_inv in Hrun as (r & s2 & H2 & Hrun). injection H2 as <- <-.
  apply bind_Ret_inv in Hrun as ([] & s2 & H2 & Hrun). injection H2 as <-.
  apply bind_Ret_inv in Hrun as ([] & s2 & H2 & Hrun).
  case_bool_decide as Hsdl; [discriminate|]. injection H2 as <-.
  (* SDL_CreateWindow *)
  apply bind_Ret_inv in Hrun as (e & s2 & H2 & Hrun). injection H2 as <- <-.
  apply bind_Ret_inv in Hrun as (made & s2 & H2 & Hrun). injection H2 as <- <-.
  apply bind_Ret_inv in Hrun as ([] & s2 & H2 & Hrun).
  destruct (answer_SDL_CreateWindow env _); [|discriminate].
  unfold bind, fresh, emit, set in H2. injection H2 as <-.
  rewrite Hsdl in Hrun.
  unfold with_eng, with_log, with_next, boot in Hrun. norm Hrun.
  (* InitVulkan, InitSwapchain *)
  apply bind_Ret_inv in Hrun as ([] & s2 & H2 & Hrun).
  apply InitVulkan_Ret in H2 as (ok & family & ->). norm Hrun.
  apply bind_Ret_inv in Hrun as ([] & s2 & H2 & Hrun).
  apply InitSwapchain_Ret in H2 as (n & format & ->). norm Hrun.
  (* InitCommands, InitDefaultRenderpass, InitFramebuffers, InitSyncStructures *)
  apply bind_Ret_inv in Hrun as ([] & s2 & H2 & Hrun).
  apply InitCommands_Ret in H2 as ->. norm Hrun.
  apply bind_Ret_inv in Hrun as ([] & s2 & H2 & Hrun).
  apply InitDefaultRenderpass_Ret in H2 as ->. norm Hrun.
  apply bind_Ret_inv in Hrun as ([] & s2 & H2 & Hrun).
  apply InitFramebuffers_Ret in H2 as [Hlen ->]. norm Hrun. norm Hlen.
  apply bind_Ret_inv in Hrun as ([] & s2 & H2 & Hrun).
  apply InitSyncStructures_Ret in H2 as ->. norm Hrun.
  (* InitPipelines *)
  apply bind_Ret_inv in Hrun as ([] & s2 & H2 & Hrun).
  apply InitPipelines_Ret in H2
    as (Heng & vertex & fragment & ext & Hlog & Hcreated & _).
  injection Hrun as <-. cbn [eng log with_eng] in *.
  exists ok, ext. rewrite Hlog, Heng. clear Hlog Heng.
  rewrite length_seq in *. rewrite take_ge by (rewrite length_seq; lia).
  rewrite framebuffer_calls_zip, length_seq.
  do 4 eexists. split_and!; [|by eauto|reflexivity..| |].
  - cbn. rewrite <- ?app_assoc. destruct ok; reflexivity.
  - cbn. lia.
  - intros ->. cbn. reflexivity.
Qed.

(** When [Initialize] returns on a fresh engine, the flag is set, no
    frame was drawn, and the three vectors have one entry per swapchain
    image, without repetition. *)
Lemma Initialize_ready (storage : Engine) (app : string) (disk : gmap string File)
    (s1 : Sys) :
  Initialize env (boot storage app disk) = (Ret tt, s1) ->
  IsInitialized (eng s1) = true /\
  FrameNumber (eng s1) = 0 /\
  (exists a b c n,
     Framebuffers (eng s1) = seq a n /\
     SwapchainImageViews (eng s1) = seq b n /\
     SwapchainImages (eng s1) = seq c n).
Proof.
  intros Hrun.
  destruct (Initialize_log storage app disk s1 Hrun)
    as (_ & _ & a & b & c & n & _ & _ & Hflag & Hframe & Hfbs & Hviews & Himages & _).
  eauto 10.
Qed.

End ReadyFacts.

(** ** The flag, the vectors and the event loop *)

#[export] Instance same_flag_preorder `{FloatOps} : PreOrder same_flag.
Proof. split; unfold same_flag; [done | intros ???; congruence]. Qed.

#[export] Instance same_vectors_preorder `{FloatOps} : PreOrder same_vectors.
Proof.
  split; unfold same_vectors; [done|].
  intros ??? (?&?&?) (?&?&?). repeat split; congruence.
Qed.

(** Walks through a computation that assigns members other than the
    one the relation watches. *)
Ltac member_steps :=
  repeat first [ keeps_step | (intros ?; reflexivity)
               | (intros ?; repeat split; reflexivity) ].

Section RunFacts.
Context `{FloatOps} (env : Env).

Lemma same_engine_same_flag {A} (m : M A) : keeps same_engine m -> keeps same_flag m.
Proof. intros Hm s. unfold same_flag. by rewrite (Hm s). Qed.

Lemma create_same_flag entry call : keeps same_flag (create env entry call).
Proof. apply same_engine_same_flag, create_same_engine. Qed.

Lemma InitFramebuffers_loop_same_flag todo : forall i,
  keeps same_flag (InitFramebuffers_loop env todo i).
Proof.
  induction todo as [|todo IH]; intros i; cbn; [member_steps|].
  apply keeps_bind; [tc_solve | | intros _; apply IH].
  unfold InitFramebuffers_body.
  repeat first [apply create_same_flag | keeps_step | (intros ?; reflexivity)].
Qed.

Lemma flag_only_on_return_keeps {A} (m : M A) :
  keeps same_flag m -> flag_only_on_return m.
Proof. intros Hm s _. apply Hm. Qed.

Lemma flag_only_on_return_bind {A B} (m : M A) (k : A -> M B) :
  keeps same_flag m -> (forall a, flag_only_on_return (k a)) ->
  flag_only_on_return (bind m k).
Proof.
  intros Hm Hk s Hret. unfold bind in *. specialize (Hm s).
  destruct (m s) as [[a| | |] s1]; cbn in *; try done.
  etransitivity; [exact Hm | by apply Hk].
Qed.

Lemma flag_only_on_return_set f : flag_only_on_return (set f).
Proof. intros s Hret. by destruct (Hret tt). Qed.

(** Only the last statement of [Initialize] sets the flag. *)
Lemma Initialize_flag : flag_only_on_return (Initialize env).
Proof.
  unfold Initialize.
  repeat (apply flag_only_on_return_bind; [|intros ?]);
    try apply flag_only_on_return_set.
  all: unfold InitVulkan, InitSwapchain, InitCommands, InitDefaultRenderpass,
         InitFramebuffers, InitSyncStructures, InitPipelines.
  all: repeat first
         [ apply create_same_flag
         | apply InitFramebuffers_loop_same_flag
         | apply same_engine_same_flag, LoadShaderModule_same_engine
         | keeps_step
         | (intros ?; reflexivity) ].
Qed.

(** A draw cycle changes no member but [FrameNumber]. *)
Lemma Draw_same_flag : keeps same_flag (Draw env).
Proof. intros s. rewrite Draw_run. by destruct (_ !! _). Qed.

Lemma Draw_same_vectors : keeps same_vectors (Draw env).
Proof. intros s. rewrite Draw_run. by destruct (_ !! _). Qed.

Lemma Draw_extends : keeps (extends not_destroy) (Draw env).
Proof.
  intros s. rewrite Draw_run. destruct (_ !! _); cbn;
    eexists; (split; [reflexivity|]); repeat constructor.
Qed.

Lemma Run_loop_same_flag fuel : keeps same_flag (Run_loop env fuel).
Proof.
  induction fuel as [|fuel IH]; cbn; [member_steps|].
  repeat first [apply Draw_same_flag | apply IH | keeps_step | (intros ?; reflexivity)].
Qed.

Lemma Run_loop_same_vectors fuel : keeps same_vectors (Run_loop env fuel).
Proof.
  induction fuel as [|fuel IH]; cbn; [member_steps|].
  repeat first [apply Draw_same_vectors | apply IH | keeps_step
               | (intros ?; repeat split; reflexivity)].
Qed.

Lemma Run_loop_extends fuel : keeps (extends not_destroy) (Run_loop env fuel).
Proof.
  induction fuel as [|fuel IH]; cbn; [member_steps|].
  repeat first [apply Draw_extends | apply IH | keeps_step].
Qed.

(** The quit event among the pending ones clears [stillRunning], and
    nothing else does. *)
Lemma drain_spec (pending : list SDL_EventType) : forall running : bool,
  drain pending running
  = if decide (SDL_QUIT ∈ pending) then false else running.
Proof.
  induction pending as [|type pending IH]; intros running.
  - by rewrite decide_False by apply not_elem_of_nil.
  - unfold drain in *. cbn. rewrite IH. destruct type as [|code].
    + rewrite (decide_True (P := SDL_QUIT ∈ SDL_QUIT :: _)) by apply list_elem_of_here.
      by destruct (decide _).
    + destruct (decide (SDL_QUIT ∈ pending)) as [Hin|Hout].
      * by rewrite decide_True by by apply list_elem_of_further.
      * rewrite decide_False; [done|]. by intros [?|?]%elem_of_cons.
Qed.

(** One round of the loop: poll, draw, then look at the flag. *)
Lemma Run_loop_round (fuel : nat) (s : Sys) :
  Run_loop env (S fuel) s =
  bind (Draw env)
    (fun _ => if decide (SDL_QUIT ∈ answer_SDL_PollEvent env (log s))
              then ret tt else Run_loop env fuel)
    (polled env s).
Proof.
  cbn [Run_loop]. unfold bind, ask, emit, polled. cbn -[Draw Run_loop].
  rewrite drain_spec. by destruct (decide _).
Qed.

(** With the quit event pending the round is the last one, and its draw
    cycle still runs. *)
Lemma Run_loop_quit (fuel : nat) (s : Sys) :
  SDL_QUIT ∈ answer_SDL_PollEvent env (log s) ->
  (Draw_index env (polled env s) < length (Framebuffers (eng s)))%nat ->
  Run_loop env (S fuel) s = (Ret tt, (Draw env (polled env s)).2) /\
  draws (added s (Draw env (polled env s)).2) = 1%nat.
Proof.
  intros Hquit Hin. rewrite Run_loop_round, decide_True by done.
  destruct (Draw_in_range env (polled env s) Hin) as (fb & _ & Hdraw).
  rewrite (bind_Ret _ _ _ _ _ Hdraw), Hdraw. split; [done|].
  erewrite added_app by (cbn; rewrite <- app_assoc; reflexivity).
  reflexivity.
Qed.

(** The loop returned: its last round polled the quit event and then
    ran one draw cycle. *)
Lemma Run_loop_Ret (fuel : nat) : forall (s s2 : Sys),
  Run_loop env fuel s = (Ret tt, s2) ->
  exists last : Sys,
    extends not_destroy s last /\
    same_flag s last /\ same_vectors s last /\
    SDL_QUIT ∈ answer_SDL_PollEvent env (log last) /\
    Draw env (polled env last) = (Ret tt, s2).
Proof.
  induction fuel as [|fuel IH]; intros s s2 Hrun; [discriminate|].
  rewrite Run_loop_round in Hrun.
  apply bind_Ret_inv in Hrun as ([] & s' & Hdraw & Hrest).
  destruct (decide _) as [Hquit|Hnone].
  - injection Hrest as <-. exists s.
    refine (conj _ (conj _ (conj _ (conj Hquit Hdraw)))); reflexivity.
  - apply IH in Hrest as (last & Hext & Hflag & Hvec & Hquit & Hlast).
    exists last. refine (conj _ (conj _ (conj _ (conj Hquit Hlast)))).
    + etransitivity; [|exact Hext].
      pose proof (Draw_extends (polled env s)) as Hd. rewrite Hdraw in Hd.
      etransitivity; [|exact Hd]. exists [c_SDL_PollEvent (answer_SDL_PollEvent env (log s))].
      split; [done|]. by repeat constructor.
    + etransitivity; [|exact Hflag].
      pose proof (Draw_same_flag (polled env s)) as Hd. by rewrite Hdraw in Hd.
    + etransitivity; [|exact Hvec].
      pose proof (Draw_same_vectors (polled env s)) as Hd. by rewrite Hdraw in Hd.
Qed.

End RunFacts.

(** ** Exceptions and diagnostics: where they can come from *)

Section NeverThrows.
Context `{FloatOps}.

Lemma never_throws_ret {A} (a : A) : never_throws (ret a).
Proof. intros s e. discriminate. Qed.
Lemma never_throws_undefined {A} : never_throws (@undefined _ A).
Proof. intros s e. discriminate. Qed.
Lemma never_throws_out_of_fuel {A} : never_throws (@out_of_fuel _ A).
Proof. intros s e. discriminate. Qed.
Lemma never_throws_ask {A} (f : History -> A) : never_throws (ask f).
Proof. intros s e. discriminate. Qed.
Lemma never_throws_this : never_throws this.
Proof. intros s e. discriminate. Qed.
Lemma never_throws_emit c : never_throws (emit c).
Proof. intros s e. discriminate. Qed.
Lemma never_throws_fresh : never_throws fresh.
Proof. intros s e. discriminate. Qed.
Lemma never_throws_fresh_n n : never_throws (fresh_n n).
Proof. intros s e. discriminate. Qed.
Lemma never_throws_set f : never_throws (set f).
Proof. intros s e. discriminate. Qed.
Lemma never_throws_index {A} (v : list A) i : never_throws (index v i).
Proof. intros s e. unfold index. by destruct (v !! i). Qed.

Lemma never_throws_bind {A B} (m : M A) (k : A -> M B) :
  never_throws m -> (forall a, never_throws (k a)) -> never_throws (bind m k).
Proof.
  intros Hm Hk s e. unfold bind. specialize (Hm s).
  destruct (m s) as [[a| | |] s1]; cbn in *; try done.
  - apply Hk.
  - by destruct (Hm e0).
Qed.

End NeverThrows.

Ltac never_throws_step :=
  match goal with
  | |- never_throws (bind _ _) => apply never_throws_bind; [|intros ?]
  | |- never_throws (ret _) => apply never_throws_ret
  | |- never_throws undefined => apply never_throws_undefined
  | |- never_throws out_of_fuel => apply never_throws_out_of_fuel
  | |- never_throws (ask _) => apply never_throws_ask
  | |- never_throws this => apply never_throws_this
  | |- never_throws (emit _) => apply never_throws_emit
  | |- never_throws (index _ _) => apply never_throws_index
  | |- never_throws fresh => apply never_throws_fresh
  | |- never_throws (fresh_n _) => apply never_throws_fresh_n
  | |- never_throws (set _) => apply never_throws_set
  | |- never_throws (value _ _) => unfold value
  | |- never_throws (if ?b then _ else _) => destruct b
  end.

Section ExecFacts.
Context `{FloatOps} (env : Env).

Lemma Draw_never_throws : never_throws (Draw env).
Proof. intros s e. rewrite Draw_run. by destruct (_ !! _). Qed.

Lemma Run_loop_never_throws fuel : never_throws (Run_loop env fuel).
Proof.
  induction fuel as [|fuel IH]; cbn; [apply never_throws_out_of_fuel|].
  repeat first [apply Draw_never_throws | apply IH | never_throws_step].
Qed.

Lemma Cleanup_loop_never_throws todo : forall i, never_throws (Cleanup_loop todo i).
Proof.
  induction todo as [|todo IH]; intros i; cbn; [apply never_throws_ret|].
  apply never_throws_bind; [|intros _; apply IH].
  unfold Cleanup_body. repeat never_throws_step.
Qed.

Lemma Cleanup_never_throws : never_throws Cleanup.
Proof.
  unfold Cleanup.
  repeat first [apply Cleanup_loop_never_throws | never_throws_step].
Qed.

End ExecFacts.

(** Nothing but [Exec] writes a diagnostic. *)
Section Quiet.
Context `{FloatOps} (env : Env).

(** [Exec] in one piece. *)
Lemma Exec_run (fuel : nat) (s : Sys) :
  Exec env fuel s =
  match Initialize env s with
  | (Ret _, s1) =>
      match Run_loop env fuel s1 with
      | (Ret _, s2) =>
          match Cleanup s2 with
          | (Ret _, s3) => (Ret 0, s3)
          | (Throw e, s3) => (Ret 1, with_log (fun l => l ++ [c_cout e]) s3)
          | (Undefined, s3) => (Undefined, s3)
          | (OutOfFuel, s3) => (OutOfFuel, s3)
          end
      | (Throw e, s2) => (Throw e, s2)
      | (Undefined, s2) => (Undefined, s2)
      | (OutOfFuel, s2) => (OutOfFuel, s2)
      end
  | (Throw e, s1) => (Ret 1, with_log (fun l => l ++ [c_cout e]) s1)
  | (Undefined, s1) => (Undefined, s1)
  | (OutOfFuel, s1) => (OutOfFuel, s1)
  end.
Proof.
  unfold Exec, try_catch, Run, bind, emit, ret.
  destruct (Initialize env s) as [[[]|e| |] s1]; [|reflexivity..].
  destruct (Run_loop env fuel s1) as [[[]|e| |] s2]; [|reflexivity..].
  destruct (Cleanup s2) as [[[]|e| |] s3]; reflexivity.
Qed.

Lemma reports_none (h : History) : Forall not_report h -> reports h = [].
Proof.
  unfold reports. induction 1 as [|c h Hc _ IH]; [done|]. cbn. by rewrite Hc.
Qed.

Ltac quiet_steps :=
  repeat first [ apply create_extends; [intros; reflexivity] | keeps_step ].

Lemma CompileGlslToSpv_quiet glslPath out :
  keeps (extends not_report) (CompileGlslToSpv env glslPath out).
Proof. unfold CompileGlslToSpv, read_all. quiet_steps. Qed.

Lemma LoadShaderModule_quiet glslPath :
  keeps (extends not_report) (LoadShaderModule env glslPath).
Proof.
  unfold LoadShaderModule, last_write_time, read_all.
  repeat first [ apply CompileGlslToSpv_quiet
               | apply create_extends; [intros; reflexivity]
               | keeps_step ].
Qed.

Lemma InitFramebuffers_loop_quiet todo : forall i,
  keeps (extends not_report) (InitFramebuffers_loop env todo i).
Proof.
  induction todo as [|todo IH]; intros i; cbn; [quiet_steps|].
  apply keeps_bind; [tc_solve | | intros _; apply IH].
  unfold InitFramebuffers_body. quiet_steps.
Qed.

Lemma Initialize_quiet : keeps (extends not_report) (Initialize env).
Proof.
  unfold Initialize, InitVulkan, InitSwapchain, InitCommands, InitDefaultRenderpass,
    InitFramebuffers, InitSyncStructures, InitPipelines.
  repeat first [ apply InitFramebuffers_loop_quiet
               | apply LoadShaderModule_quiet
               | apply create_extends; [intros; reflexivity]
               | keeps_step ].
Qed.

Lemma Draw_quiet : keeps (extends not_report) (Draw env).
Proof.
  intros s. rewrite Draw_run. destruct (_ !! _); cbn;
    eexists; (split; [reflexivity|]); repeat constructor.
Qed.

Lemma Run_loop_quiet fuel : keeps (extends not_report) (Run_loop env fuel).
Proof.
  induction fuel as [|fuel IH]; cbn; [member_steps|].
  repeat first [apply Draw_quiet | apply IH | keeps_step].
Qed.

Lemma Cleanup_loop_quiet todo : forall i,
  keeps (extends not_report) (Cleanup_loop todo i).
Proof.
  induction todo as [|todo IH]; intros i; cbn; [repeat keeps_step|].
  apply keeps_bind; [tc_solve | | intros _; by apply IH].
  unfold Cleanup_body. repeat keeps_step.
Qed.

Lemma Cleanup_quiet : keeps (extends not_report) Cleanup.
Proof.
  unfold Cleanup. repeat first [apply Cleanup_loop_quiet | keeps_step].
Qed.

End Quiet.

(** ** The claims about teardown, the loop and the framebuffer lookup *)

Section OwnedFacts.
Context `{FloatOps}.

Lemma owned_NoDup (e : Engine) :
  NoDup (Framebuffers e) -> NoDup (SwapchainImageViews e) -> NoDup (owned e).
Proof.
  intros Hfbs Hviews. unfold owned.
  assert (Hinj : forall k : Kind, Inj (=) (=) (pair (B := Handle) k))
    by (intros k x y; congruence).
  repeat first
    [ apply NoDup_nil_2
    | apply NoDup_cons; split
    | apply NoDup_app; split; [|split]
    | by apply NoDup_fmap_2 ];
    cbn; intros;
    repeat match goal with
           | Hin : _ ∈ _ ++ _ |- _ => apply elem_of_app in Hin as [Hin|Hin]
           | Hin : _ ∈ _ :: _ |- _ => apply elem_of_cons in Hin as [Hin|Hin]
           | Hin : _ ∈ [] |- _ => by apply elem_of_nil in Hin
           | Hin : _ ∈ map _ _ |- _ =>
               apply list_elem_of_fmap in Hin as (? & ? & Hin)
           | |- _ ∉ _ => intros ?
           end;
    simplify_eq.
Qed.

Lemma Cleanup_calls_destroyed (e : Engine) :
  length (Framebuffers e) = length (SwapchainImageViews e) ->
  destroyed (Cleanup_calls e) ≡ₚ owned e.
Proof.
  intros Hlen. unfold Cleanup_calls, owned.
  rewrite !destroyed_app, Cleanup_pairs_destroyed
    by (rewrite length_take; lia).
  rewrite take_ge by lia. unfold destroyed. cbn.
  by rewrite <- !app_assoc.
Qed.

(** What a complete initialisation on an engine just constructed has
    created, told by the members of the engine it leaves. *)
Lemma Initialize_created (env : Env) (storage : Engine) (app : string)
    (disk : gmap string File) (s1 : Sys) :
  Initialize env (boot storage app disk) = (Ret tt, s1) ->
  let e := eng s1 in
  exists (surface_made : bool) (vertex fragment : Handle),
    created (log s1) =
      [(KWindow, Window e); (KInstance, Instance e);
       (KDebugMessenger, DebugMessenger e)]
      ++ (if surface_made then [(KSurface, Surface e)] else [])
      ++ [(KDevice, Device e); (KSwapchain, Swapchain e)]
      ++ map (pair KImageView) (SwapchainImageViews e)
      ++ [(KCommandPool, CommandPool e); (KCommandBuffer, MainCommandBuffer e);
          (KRenderPass, RenderPass e)]
      ++ map (pair KFramebuffer) (Framebuffers e)
      ++ [(KFence, RenderFence e); (KSemaphore, PresentSemaphore e);
          (KSemaphore, RenderSemaphore e);
          (KShaderModule, vertex); (KShaderModule, fragment)] /\
    c_SDL_Vulkan_CreateSurface (Window e) (Instance e) surface_made (Surface e)
      ∈ log s1 /\
    IsInitialized e = true /\
    NoDup (Framebuffers e) /\
    NoDup (SwapchainImageViews e) /\
    length (Framebuffers e) = length (SwapchainImageViews e).
Proof.
  intros Hrun e.
  destruct (Initialize_log env storage app disk s1 Hrun)
    as (made & shaders & a & b & c & n & Hlog & (vertex & fragment & Hshaders)
        & Hflag & _ & Hfbs & Hviews & _ & Hwindow & _).
  fold e in Hlog, Hflag, Hfbs, Hviews, Hwindow.
  exists made, vertex, fragment. split_and!.
  - rewrite Hlog. rewrite !created_app, Hshaders.
    assert (Hzip : created
              (zip_with (fun view framebuffer =>
                           c_vkCreateFramebuffer (Device e) (RenderPass e) view
                             (WindowExtents e) VK_SUCCESS framebuffer)
                 (SwapchainImageViews e) (Framebuffers e))
              = map (pair KFramebuffer) (Framebuffers e)).
    { rewrite Hfbs.
      replace n with (length (SwapchainImageViews e)) at 1
        by (by rewrite Hviews, length_seq).
      rewrite <- framebuffer_calls_zip, framebuffer_calls_created.
      by rewrite Hviews, length_seq. }
    rewrite Hzip. unfold created. cbn.
    rewrite (bool_decide_false (Window e = 0%nat)) by done.
    destruct made; cbn; rewrite <- ?app_assoc; cbn; rewrite <- ?app_assoc; reflexivity.
  - rewrite Hlog. do 3 apply list_elem_of_further. apply list_elem_of_here.
  - done.
  - rewrite Hfbs. apply NoDup_seq.
  - rewrite Hviews. apply NoDup_seq.
  - by rewrite Hfbs, Hviews, !length_seq.
Qed.

End OwnedFacts.

(** Finds the disjunct that holds, however the disjunction is nested. *)
Ltac choose :=
  first [ reflexivity | assumption | left; choose | right; choose ].

(** C3 (as amended).  [Cleanup] acts only on an engine whose
    initialisation was completed.  When [Initialize] ends in any other
    way than by returning (a prefix of its steps was carried out),
    [Cleanup] afterwards returns at once and destroys nothing.  When
    [Initialize] returns, on an engine just constructed, [Cleanup] runs
    to its end and makes no destroy call twice; it destroys every object
    that initialisation created of the ten kinds it has a destroy call
    for (command pool, swapchain, render pass, framebuffer, image view,
    device, surface, debug messenger, instance, window); and what it
    destroys was created by initialisation, the surface alone excepted
    when [SDL_Vulkan_CreateSurface] had failed (its result is dropped,
    and [Surface] is destroyed as it is). *)
Theorem teardown_after_initialisation `{FloatOps}
    (env : Env) (storage : Engine) (app : string) (disk : gmap string File) :
  let init := Initialize env (boot storage app disk) in
  match init.1 with
  | Ret _ =>
      exists s2,
        let made := created (log init.2) in
        let gone := destroyed (added init.2 s2) in
        Cleanup init.2 = (Ret tt, s2) /\
        NoDup gone /\
        (forall k h, (k, h) ∈ made -> torn_down k = true -> (k, h) ∈ gone) /\
        (forall k h, (k, h) ∈ gone ->
           (k, h) ∈ made \/
           k = KSurface /\
           exists window instance,
             c_SDL_Vulkan_CreateSurface window instance false h ∈ log init.2)
  | _ => Cleanup init.2 = (Ret tt, init.2)
  end.
Proof.
  intros init.
  assert (Hfalse : (forall a, init.1 <> Ret a) -> Cleanup init.2 = (Ret tt, init.2)).
  { intros Hret. apply Cleanup_not_initialized.
    etransitivity; [exact (Initialize_flag env (boot storage app disk) Hret)
                   | reflexivity]. }
  destruct init as [[[]| | |] s1] eqn:Hinit; cbn [fst snd] in *;
    try (apply Hfalse; intros a; discriminate).
  destruct (Initialize_created env storage app disk s1 Hinit)
    as (made & vertex & fragment & Hmade & Hsurface & Hflag & Hfbs & Hviews & Hlen).
  eexists. cbn zeta. split; [apply Cleanup_run; [done | lia]|].
  erewrite added_app by reflexivity.
  assert (Hperm := Cleanup_calls_destroyed (eng s1) Hlen).
  split; [rewrite Hperm; by apply owned_NoDup|].
  rewrite Hmade. clear Hmade Hfalse Hinit.
  split; intros k h Hin.
  - intros Hkind. rewrite Hperm. unfold owned.
    repeat first [rewrite elem_of_app in Hin | rewrite elem_of_cons in Hin
                 | rewrite elem_of_nil in Hin];
    repeat first [rewrite elem_of_app | rewrite elem_of_cons | rewrite elem_of_nil].
    destruct made; destruct_or?; simplify_eq; try done;
      try (rewrite ?elem_of_cons, ?elem_of_nil in Hin; destruct_or?; simplify_eq);
      try done; try choose;
      try (apply list_elem_of_fmap in Hin as (? & ? & _); simplify_eq; done).
  - rewrite Hperm in Hin. unfold owned in Hin.
    repeat first [rewrite elem_of_app in Hin | rewrite elem_of_cons in Hin
                 | rewrite elem_of_nil in Hin].
    destruct made.
    + left.
      repeat first [rewrite elem_of_app | rewrite elem_of_cons | rewrite elem_of_nil].
      destruct_or?; simplify_eq; try done; choose.
    + destruct_or?; simplify_eq; try done;
        try (left;
             repeat first [rewrite elem_of_app | rewrite elem_of_cons
                          | rewrite elem_of_nil];
             choose).
      right. split; [done|]. eauto.
Qed.

(** C3, refuted as stated.  The render pass cannot be created, so a
    prefix of the steps of initialisation was carried out and ten objects
    were created; teardown invoked afterwards destroys none of them. *)
Lemma partial_initialisation_is_not_torn_down :
  let init := Initialize no_render_pass (boot zeroed "VK2" sources_cached) in
  init.1 = Throw (runtime_error "Failed to create render pass") /\
  created (log init.2)
    = [(KWindow, 1%nat); (KInstance, 2%nat); (KDebugMessenger, 3%nat);
       (KSurface, 4%nat); (KDevice, 6%nat); (KSwapchain, 8%nat);
       (KImageView, 11%nat); (KImageView, 12%nat);
       (KCommandPool, 13%nat); (KCommandBuffer, 14%nat)] /\
  Cleanup init.2 = (Ret tt, init.2).
Proof. vm_compute. repeat split. Qed.

(** The exception of the amended C3 is met.  On storage that was used
    before and with no surface to be had, initialisation still returns,
    and teardown destroys a surface that was never created: the value
    the member [Surface] was found with. *)
Lemma failed_surface_is_destroyed_as_found :
  let init := Initialize headless (boot used "VK2" sources_cached) in
  let s2 := (Cleanup init.2).2 in
  init.1 = Ret tt /\
  Surface (eng init.2) = Surface used /\
  of_kind KSurface (destroyed (added init.2 s2)) = [(KSurface, 99%nat)] /\
  of_kind KSurface (created (log init.2)) = [].
Proof. vm_compute. repeat split. Qed.

(** C6 (as amended).  The quit event clears [stillRunning], and the flag
    is looked at only after the draw cycle of the same round: when the
    loop returns, its last round polled the quit event and then ran
    exactly one more draw cycle.  A round that polls the quit event does
    return after that cycle.  After the loop [Cleanup] runs to its end
    and [Exec] returns 0. *)
Theorem quit_is_seen_after_the_draw `{FloatOps}
    (env : Env) (storage : Engine) (app : string) (disk : gmap string File)
    (fuel : nat) (s1 s2 : Sys) :
  Initialize env (boot storage app disk) = (Ret tt, s1) ->
  Run env fuel s1 = (Ret tt, s2) ->
  (exists last : Sys,
     extends not_destroy s1 last /\
     SDL_QUIT ∈ answer_SDL_PollEvent env (log last) /\
     Draw env (polled env last) = (Ret tt, s2) /\
     draws (added last s2) = 1%nat) /\
  (forall (fuel' : nat) (s : Sys),
     SDL_QUIT ∈ answer_SDL_PollEvent env (log s) ->
     (Draw_index env (polled env s) < length (Framebuffers (eng s)))%nat ->
     Run_loop env (S fuel') s = (Ret tt, (Draw env (polled env s)).2)) /\
  Exec env fuel (boot storage app disk)
    = (Ret 0, with_log (fun l => l ++ Cleanup_calls (eng s2)) s2).
Proof.
  intros Hinit Hrun. unfold Run in Hrun.
  destruct (Run_loop_Ret env fuel s1 s2 Hrun)
    as (last & Hext & Hflag & Hvec & Hquit & Hlast).
  split; [|split].
  - exists last. repeat split; try done.
    rewrite Draw_run in Hlast.
    destruct (_ !! _) as [fb|] eqn:Hfb; [|discriminate]. injection Hlast as <-.
    erewrite added_app by (cbn; rewrite <- app_assoc; reflexivity).
    reflexivity.
  - intros fuel' s Hq Hin. by apply Run_loop_quit.
  - destruct (Initialize_ready env storage app disk s1 Hinit)
      as (Hready & _ & (a & b & c & n & Hfbs & Hviews & Himages)).
    pose proof (Run_loop_same_flag env fuel s1) as Hflag2.
    pose proof (Run_loop_same_vectors env fuel s1) as (Hfbs2 & Hviews2 & _).
    rewrite Hrun in Hflag2, Hfbs2, Hviews2. unfold same_flag in Hflag2.
    cbn [snd] in *.
    unfold Exec, try_catch. unfold bind at 1. unfold bind at 1. rewrite Hinit.
    cbn. unfold bind at 1. unfold Run. rewrite Hrun.
    unfold bind at 1. unfold bind at 1.
    rewrite Cleanup_run; [reflexivity | congruence |].
    rewrite Hfbs2, Hviews2, Hfbs, Hviews, !length_seq. lia.
Qed.

Lemma quit_is_seen_after_the_draw_witness :
  let s1 := (Initialize calm (boot zeroed "VK2" sources_cached)).2 in
  let s2 := (Run calm 1 s1).2 in
  (exists last : Sys,
     extends not_destroy s1 last /\
     SDL_QUIT ∈ answer_SDL_PollEvent calm (log last) /\
     Draw calm (polled calm last) = (Ret tt, s2) /\
     draws (added last s2) = 1%nat) /\
  (forall (fuel' : nat) (s : Sys),
     SDL_QUIT ∈ answer_SDL_PollEvent calm (log s) ->
     (Draw_index calm (polled calm s) < length (Framebuffers (eng s)))%nat ->
     Run_loop calm (S fuel') s = (Ret tt, (Draw calm (polled calm s)).2)) /\
  Exec calm 1 (boot zeroed "VK2" sources_cached)
    = (Ret 0, with_log (fun l => l ++ Cleanup_calls (eng s2)) s2).
Proof.
  intros s1 s2.
  apply (quit_is_seen_after_the_draw calm zeroed "VK2" sources_cached 1 s1 s2).
  - vm_compute. reflexivity.
  - vm_compute. reflexivity.
Defined.

(** C6, refuted as stated.  The quit event is pending at the first
    poll, and the fence wait that opens a draw cycle comes after that
    poll: a draw cycle begins after the quit event was drained. *)
Lemma Draw_begins_after_quit_was_polled :
  let run := Exec calm 1 (boot zeroed "VK2" sources_cached) in
  run.1 = Ret 0 /\
  List.filter (fun c => is_poll c || is_fence_wait c) (log run.2)
    = [c_SDL_PollEvent [SDL_QUIT];
       c_vkWaitForFences 6%nat 18%nat 1000000000 VK_SUCCESS].
Proof. vm_compute. repeat split. Qed.

(** C9 (as amended).  [Exec] writes a diagnostic and returns 1 exactly
    when [Initialize] throws.  Then it writes the message of the
    exception (to [std::cout]), once, returns 1, and that is all it does
    after the failure: from its start to its end no destroy call is
    made.  In every other case (initialisation returned, or a result of
    vk-bootstrap held no value) [Exec] does not return 1 and writes no
    diagnostic, whatever the calls of the event loop, of the draw cycles
    and of teardown answered. *)
Theorem Exec_reports_failed_initialisation `{FloatOps}
    (env : Env) (fuel : nat) (s : Sys) :
  let init := Initialize env s in
  let run := Exec env fuel s in
  match init.1 with
  | Throw e =>
      run = (Ret 1, with_log (fun l => l ++ [c_cout e]) init.2) /\
      reports (added s run.2) = [c_cout e] /\
      destroyed (added s run.2) = []
  | _ =>
      run.1 <> Ret 1 /\
      reports (added s run.2) = []
  end.
Proof.
  intros init run. subst init run. rewrite Exec_run.
  pose proof (Initialize_quiet env s) as (ext & Hlog & Hext).
  pose proof (Initialize_extends env s) as Hkept. apply extends_added in Hkept.
  rewrite (added_app _ _ _ Hlog) in Hkept.
  destruct (Initialize env s) as [[[]|e| |] s1]; cbn [fst snd] in *.
  - (* initialisation returned *)
    pose proof (Run_loop_never_throws env fuel s1) as Hnever.
    pose proof (Run_loop_quiet env fuel s1) as (ext2 & Hlog2 & Hext2).
    destruct (Run_loop env fuel s1) as [[[]|e| |] s2]; cbn [fst snd] in *.
    + pose proof (Cleanup_never_throws s2) as Hnever3.
      pose proof (Cleanup_quiet s2) as (ext3 & Hlog3 & Hext3).
      destruct (Cleanup s2) as [[[]|e| |] s3]; cbn [fst snd] in *;
        try (by destruct (Hnever3 e));
        (split; [done|]);
        erewrite added_app
          by (rewrite Hlog3, Hlog2, Hlog, <- !app_assoc; reflexivity);
        apply reports_none; by rewrite !Forall_app.
    + by destruct (Hnever e).
    + split; [done|].
      erewrite added_app by (rewrite Hlog2, Hlog, <- app_assoc; reflexivity).
      apply reports_none. by rewrite Forall_app.
    + split; [done|].
      erewrite added_app by (rewrite Hlog2, Hlog, <- app_assoc; reflexivity).
      apply reports_none. by rewrite Forall_app.
  - (* initialisation threw *)
    split; [done|].
    erewrite added_app by (cbn; rewrite Hlog, <- app_assoc; reflexivity).
    split.
    + pose proof (reports_none ext Hext) as Hnone. unfold reports in *.
      by rewrite List.filter_app, Hnone.
    + apply destroyed_none, Forall_app. split; [done|]. by repeat constructor.
  - split; [done|]. rewrite (added_app _ _ _ Hlog). by apply reports_none.
  - split; [done|]. rewrite (added_app _ _ _ Hlog). by apply reports_none.
Qed.

(** C9, refuted as stated.  Three failures that end without a
    diagnostic and without exit code 1.  In the first world every
    frame meets a fence that times out and a submission that loses the
    device: the loop goes on, teardown runs, and [Exec] returns 0.  In
    the second the surface cannot be created: initialisation goes on
    all the same and [Exec] returns 0.  In the third the selection of
    the physical device holds an error, whose value the source takes
    unchecked: no defined end at all. *)
Lemma failures_that_Exec_does_not_report :
  let frames := Exec broken_frames 2 (boot zeroed "VK2" sources_cached) in
  let surface := Exec headless 1 (boot zeroed "VK2" sources_cached) in
  let device := Exec no_gpu 1 (boot zeroed "VK2" sources_cached) in
  fence_waits (log frames.2) = [VK_TIMEOUT; VK_TIMEOUT] /\
  submit_results (log frames.2) = [VK_ERROR_DEVICE_LOST; VK_ERROR_DEVICE_LOST] /\
  frames.1 = Ret 0 /\
  reports (log frames.2) = [] /\
  of_kind KSurface (created (log surface.2)) = [] /\
  surface.1 = Ret 0 /\
  reports (log surface.2) = [] /\
  device.1 = Undefined /\
  reports (log device.2) = [].
Proof. vm_compute. repeat split. Qed.

(** C10.  [InitFramebuffers] leaves [Framebuffers] with exactly one
    entry per swapchain image.  [Draw] indexes [Framebuffers] with the
    image index without a test: the index is the one the acquisition
    stored, or whatever the local held when it stored none.  With an
    index below the number of swapchain images the cycle runs to its end;
    with any other index the lookup is out of bounds, which is undefined
    behaviour. *)
Theorem framebuffer_lookup_unchecked `{FloatOps} (env : Env) (s0 s : Sys) :
  InitFramebuffers env s0 = (Ret tt, s) ->
  length (Framebuffers (eng s)) = length (SwapchainImages (eng s)) /\
  forall s' : Sys,
    Framebuffers (eng s') = Framebuffers (eng s) ->
    let h := log s' ++ take 2 (Draw_head env s') in
    let index := default (answer_indeterminate env h) (answer_acquire_index env h) in
    ((index < length (SwapchainImages (eng s)))%nat -> (Draw env s').1 = Ret tt) /\
    ((length (SwapchainImages (eng s)) <= index)%nat -> (Draw env s').1 = Undefined).
Proof.
  intros Hinit. apply InitFramebuffers_Ret in Hinit as [_ ->]. cbn -[Draw].
  rewrite length_seq. split; [done|].
  intros s' Hfbs. split; intros Hindex.
  - destruct (Draw_in_range env s') as (fb & _ & ->); [|done].
    rewrite Hfbs, length_seq. exact Hindex.
  - rewrite Draw_out_of_range; [done|].
    rewrite Hfbs, length_seq. exact Hindex.
Qed.

Lemma framebuffer_lookup_unchecked_witness :
  let env := acquire_times_out in
  let s0 := before_framebuffers env in
  let s := (InitFramebuffers env s0).2 in
  length (Framebuffers (eng s)) = length (SwapchainImages (eng s)) /\
  forall s' : Sys,
    Framebuffers (eng s') = Framebuffers (eng s) ->
    let h := log s' ++ take 2 (Draw_head env s') in
    let index := default (answer_indeterminate env h) (answer_acquire_index env h) in
    ((index < length (SwapchainImages (eng s)))%nat -> (Draw env s').1 = Ret tt) /\
    ((length (SwapchainImages (eng s)) <= index)%nat -> (Draw env s').1 = Undefined).
Proof.
  intros env s0 s.
  apply (framebuffer_lookup_unchecked env s0 s).
  vm_compute. reflexivity.
Defined.

(** The acquisition times out and stores no index: the cycle reads the
    indeterminate value 7 with two framebuffers, and the lookup is out of
    bounds. *)
Lemma acquire_timeout_leaves_the_index_indeterminate :
  let s := ready acquire_times_out in
  length (Framebuffers (eng s)) = 2%nat /\
  Draw_index acquire_times_out s = 7%nat /\
  (Draw acquire_times_out s).1 = Undefined.
Proof. vm_compute. repeat split. Qed.

(** * Further properties of the code *)

(** ** Exceptions: where they can come from *)

(** X1.  [Draw], [Run] and [Cleanup] never throw, so the only
    exceptions [Exec] ever catches are those of [Initialize]: when
    [Exec] returns, it returns 1 exactly when [Initialize] threw, and 0
    exactly when [Initialize] and [Run] returned. *)
Theorem Exec_exit_code `{FloatOps} (env : Env) (fuel : nat) (s s' : Sys) (code : Z) :
  Exec env fuel s = (Ret code, s') ->
  (code = 1 /\ exists e, (Initialize env s).1 = Throw e) \/
  (code = 0 /\ (Initialize env s).1 = Ret tt /\
   (Run env fuel (Initialize env s).2).1 = Ret tt).
Proof.
  unfold Exec, try_catch. unfold bind at 1. unfold bind at 1.
  destruct (Initialize env s) as [[[]|e| |] s1] eqn:Hinit; cbn; try discriminate.
  - unfold bind at 1.
    pose proof (Run_loop_never_throws env fuel s1) as Hrun. unfold Run.
    destruct (Run_loop env fuel s1) as [[[]|e| |] s2]; cbn in *; try discriminate.
    + unfold bind at 1. unfold bind at 1.
      pose proof (Cleanup_never_throws s2) as Hclean.
      destruct (Cleanup s2) as [[[]|e| |] s3]; cbn in *; try discriminate.
      * intros [= <- <-]. right. by repeat split.
      * by destruct (Hclean e).
  - intros [= <- <-]. left. eauto.
Qed.

Lemma Exec_exit_code_witness :
  let run := Exec no_render_pass 1 (boot zeroed "VK2" sources_cached) in
  (1 = 1 /\ exists e, (Initialize no_render_pass (boot zeroed "VK2" sources_cached)).1 = Throw e) \/
  (1 = 0 /\ (Initialize no_render_pass (boot zeroed "VK2" sources_cached)).1 = Ret tt /\
   (Run no_render_pass 1 (Initialize no_render_pass (boot zeroed "VK2" sources_cached)).2).1
     = Ret tt).
Proof.
  intros run.
  apply (Exec_exit_code no_render_pass 1 (boot zeroed "VK2" sources_cached) run.2 1).
  vm_compute. reflexivity.
Defined.

(** ** The draw cycle and the loop, further *)

(** X2.  A draw cycle that runs to its end makes exactly ten calls,
    in this order: wait for the fence, reset it, acquire an image
    (signalling [PresentSemaphore]), reset and begin the command buffer,
    begin the render pass on the framebuffer of the image index, end the
    render pass, end the command buffer, submit (waiting on
    [PresentSemaphore], signalling [RenderSemaphore], with [RenderFence]),
    present (waiting on [RenderSemaphore]) the image of that same index. *)
Theorem Draw_call_sequence `{FloatOps} (env : Env) (s s' : Sys) :
  Draw env s = (Ret tt, s') ->
  let e := eng s in
  exists (framebuffer : Handle) (waited acquired submitted presented : VkResult)
         (written : option nat),
    Framebuffers e !! Draw_index env s = Some framebuffer /\
    added s s' =
      [c_vkWaitForFences (Device e) (RenderFence e) 1000000000 waited;
       c_vkResetFences (Device e) (RenderFence e);
       c_vkAcquireNextImageKHR (Device e) (Swapchain e) 1000000000
         (PresentSemaphore e) acquired written;
       c_vkResetCommandBuffer (MainCommandBuffer e);
       c_vkBeginCommandBuffer (MainCommandBuffer e);
       c_vkCmdBeginRenderPass (MainCommandBuffer e) (RenderPass e) framebuffer
         (WindowExtents e) (clear_color (FrameNumber e));
       c_vkCmdEndRenderPass (MainCommandBuffer e);
       c_vkEndCommandBuffer (MainCommandBuffer e);
       c_vkQueueSubmit (GraphicsQueue e) (PresentSemaphore e) (RenderSemaphore e)
         (MainCommandBuffer e) (RenderFence e) submitted;
       c_vkQueuePresentKHR (GraphicsQueue e) (Swapchain e) (RenderSemaphore e)
         (Draw_index env s) presented].
Proof.
  intros Hdraw e. rewrite Draw_run in Hdraw.
  destruct (_ !! _) as [framebuffer|] eqn:Hfb; [|discriminate].
  injection Hdraw as <-. exists framebuffer. do 5 eexists. split; [done|].
  erewrite added_app by reflexivity. reflexivity.
Qed.

Lemma Draw_call_sequence_witness :
  let s := ready calm in
  let s' := (Draw calm s).2 in
  let e := eng s in
  exists (framebuffer : Handle) (waited acquired submitted presented : VkResult)
         (written : option nat),
    Framebuffers e !! Draw_index calm s = Some framebuffer /\
    added s s' =
      [c_vkWaitForFences (Device e) (RenderFence e) 1000000000 waited;
       c_vkResetFences (Device e) (RenderFence e);
       c_vkAcquireNextImageKHR (Device e) (Swapchain e) 1000000000
         (PresentSemaphore e) acquired written;
       c_vkResetCommandBuffer (MainCommandBuffer e);
       c_vkBeginCommandBuffer (MainCommandBuffer e);
       c_vkCmdBeginRenderPass (MainCommandBuffer e) (RenderPass e) framebuffer
         (WindowExtents e) (clear_color (FrameNumber e));
       c_vkCmdEndRenderPass (MainCommandBuffer e);
       c_vkEndCommandBuffer (MainCommandBuffer e);
       c_vkQueueSubmit (GraphicsQueue e) (PresentSemaphore e) (RenderSemaphore e)
         (MainCommandBuffer e) (RenderFence e) submitted;
       c_vkQueuePresentKHR (GraphicsQueue e) (Swapchain e) (RenderSemaphore e)
         (Draw_index calm s) presented].
Proof.
  intros s s'. apply (Draw_call_sequence calm s s').
  vm_compute. reflexivity.
Defined.

(** X3.  However it ends, a draw cycle creates no object and destroys
    none, writes no file, and changes no member of the engine but
    [FrameNumber], which stays a 64-bit value. *)
Theorem Draw_touches_only_FrameNumber `{FloatOps} (env : Env) (s : Sys) :
  let s' := (Draw env s).2 in
  created (added s s') = [] /\
  destroyed (added s s') = [] /\
  fs s' = fs s /\
  next_handle s' = next_handle s /\
  set_FrameNumber (FrameNumber (eng s)) (eng s') = eng s /\
  (0 <= FrameNumber (eng s) < 2 ^ 64 -> 0 <= FrameNumber (eng s') < 2 ^ 64).
Proof.
  rewrite Draw_run.
  destruct (_ !! _) as [framebuffer|]; cbn;
    (erewrite added_app by reflexivity); repeat split; try done;
    try (by destruct s as [[] ? ? ?]); try lia.
  all: apply Z.mod_pos_bound; lia.
Qed.

Lemma Draw_touches_only_FrameNumber_witness :
  0 <= FrameNumber (eng (Draw calm (ready calm)).2) < 2 ^ 64.
Proof.
  destruct (Draw_touches_only_FrameNumber calm (ready calm))
    as (_ & _ & _ & _ & _ & Hrange).
  apply Hrange. vm_compute. split; [discriminate | reflexivity].
Defined.


(** X4.  The inner event loop clears [stillRunning] exactly when
    [SDL_QUIT] is among the pending events, wherever it stands in the
    queue; events of any other type change nothing. *)
Theorem quit_event_clears_stillRunning (pending : list SDL_EventType) :
  (drain pending true = false <-> SDL_QUIT ∈ pending) /\
  (forall others, SDL_QUIT ∉ others -> forall running, drain others running = running).
Proof.
  split.
  - rewrite drain_spec. destruct (decide _); split; try done.
  - intros others Hout running. rewrite drain_spec. by rewrite decide_False.
Qed.

Lemma quit_event_clears_stillRunning_witness :
  drain [SDL_OTHER 768; SDL_OTHER 1024] true = true.
Proof.
  apply (proj2 (quit_event_clears_stillRunning [SDL_QUIT])).
  intros Hin. apply list_elem_of_In in Hin. cbn in Hin.
  destruct Hin as [Hin | [Hin | []]]; discriminate.
Defined.


Section LoopCounts.
Context `{FloatOps} (env : Env).

Lemma polls_app (h1 h2 : History) : polls (h1 ++ h2) = (polls h1 + polls h2)%nat.
Proof. unfold polls. by rewrite List.filter_app, length_app. Qed.

Lemma draws_app (h1 h2 : History) : draws (h1 ++ h2) = (draws h1 + draws h2)%nat.
Proof. unfold draws. by rewrite List.filter_app, length_app. Qed.

Lemma added_trans (s1 s2 s3 : Sys) ext1 ext2 :
  log s2 = log s1 ++ ext1 -> log s3 = log s2 ++ ext2 ->
  added s1 s3 = added s1 s2 ++ added s2 s3.
Proof.
  intros E1 E2. rewrite (added_app _ _ _ E1), (added_app _ _ _ E2).
  apply added_app. by rewrite E2, E1, app_assoc.
Qed.

(** The loop returned after [k] rounds: [k] polls, [k] draw cycles. *)
Lemma Run_loop_counts (fuel : nat) : forall (s s2 : Sys),
  Run_loop env fuel s = (Ret tt, s2) ->
  0 <= FrameNumber (eng s) < 2 ^ 64 ->
  exists (k : nat) ext,
    log s2 = log s ++ ext /\
    (1 <= k <= fuel)%nat /\
    polls ext = k /\ draws ext = k /\
    FrameNumber (eng s2) = (FrameNumber (eng s) + Z.of_nat k) mod 2 ^ 64.
Proof.
  induction fuel as [|fuel IH]; intros s s2 Hrun Hrange; [discriminate|].
  rewrite Run_loop_round in Hrun.
  apply bind_Ret_inv in Hrun as ([] & s' & Hdraw & Hrest).
  rewrite Draw_run in Hdraw.
  destruct (_ !! _) as [framebuffer|] eqn:Hfb; [|discriminate].
  injection Hdraw as <-.
  set (poll := c_SDL_PollEvent (answer_SDL_PollEvent env (log s))).
  set (cycle := Draw_head env (polled env s) ++ Draw_tail env (polled env s) framebuffer).
  assert (Hcycle : polls cycle = 0%nat /\ draws cycle = 1%nat) by done.
  destruct Hcycle as [Hp Hd].
  destruct (decide _) as [Hquit|Hnone].
  - injection Hrest as <-. exists 1%nat, (poll :: cycle).
    split; [cbn -[Draw_head Draw_tail]; by rewrite <- app_assoc|].
    split; [lia|].
    change (poll :: cycle) with ([poll] ++ cycle).
    rewrite polls_app, draws_app, Hp, Hd. by repeat split.
  - apply IH in Hrest as (k & ext & Hlog & Hk & Hpolls & Hdraws & Hnum).
    2: { cbn. apply Z.mod_pos_bound. lia. }
    cbn -[Draw_head Draw_tail] in Hlog, Hnum. exists (S k), (poll :: cycle ++ ext).
    split. { rewrite Hlog. subst cycle poll. cbn. rewrite <- !app_assoc. reflexivity. }
    split; [lia|].
    change (poll :: cycle ++ ext) with ([poll] ++ cycle ++ ext).
    rewrite !polls_app, !draws_app, Hp, Hd, Hpolls, Hdraws.
    repeat split; try (cbn; lia).
    rewrite Hnum, Zplus_mod_idemp_l. f_equal. lia.
Qed.

End LoopCounts.

(** X5.  When the loop returns it has gone through [k] rounds for some
    [k] between 1 and the fuel: it polled the events [k] times, ran [k]
    draw cycles, one per poll, and advanced [FrameNumber] by [k]
    (modulo 2^64). *)
Theorem Run_draws_once_per_poll `{FloatOps} (env : Env) (fuel : nat) (s s2 : Sys) :
  Run env fuel s = (Ret tt, s2) ->
  0 <= FrameNumber (eng s) < 2 ^ 64 ->
  exists k : nat,
    (1 <= k <= fuel)%nat /\
    polls (added s s2) = k /\
    draws (added s s2) = k /\
    FrameNumber (eng s2) = (FrameNumber (eng s) + Z.of_nat k) mod 2 ^ 64.
Proof.
  intros Hrun Hrange.
  destruct (Run_loop_counts env fuel s s2 Hrun Hrange)
    as (k & ext & Hlog & Hk & Hpolls & Hdraws & Hnum).
  exists k. by rewrite (added_app _ _ _ Hlog).
Qed.

Lemma Run_draws_once_per_poll_witness :
  let s := ready fence_never_signals in
  let s2 := (Run fence_never_signals 5 s).2 in
  exists k : nat,
    (1 <= k <= 5)%nat /\
    polls (added s s2) = k /\
    draws (added s s2) = k /\
    FrameNumber (eng s2) = (FrameNumber (eng s) + Z.of_nat k) mod 2 ^ 64.
Proof.
  intros s s2. apply (Run_draws_once_per_poll fence_never_signals 5 s s2).
  - vm_compute. reflexivity.
  - vm_compute. split; [discriminate | reflexivity].
Defined.

(** X6.  The swapchain invariant: once [Initialize] has returned on a
    fresh engine, the swapchain images, their image views and the
    framebuffers are equal in number, and they still are after the event
    loop, however that ends. *)
Theorem swapchain_vectors_keep_their_length `{FloatOps}
    (env : Env) (storage : Engine) (app : string) (disk : gmap string File)
    (fuel : nat) (s1 : Sys) :
  Initialize env (boot storage app disk) = (Ret tt, s1) ->
  let s2 := (Run env fuel s1).2 in
  length (SwapchainImages (eng s1)) = length (SwapchainImageViews (eng s1)) /\
  length (SwapchainImageViews (eng s1)) = length (Framebuffers (eng s1)) /\
  length (SwapchainImages (eng s2)) = length (SwapchainImageViews (eng s2)) /\
  length (SwapchainImageViews (eng s2)) = length (Framebuffers (eng s2)).
Proof.
  intros Hinit s2.
  destruct (Initialize_ready env storage app disk s1 Hinit)
    as (_ & _ & (a & b & c & n & Hfbs & Hviews & Himages)).
  destruct (Run_loop_same_vectors env fuel s1) as (Hfbs2 & Hviews2 & Himages2).
  subst s2. unfold Run. rewrite Hfbs2, Hviews2, Himages2, Hfbs, Hviews, Himages.
  by rewrite !length_seq.
Qed.

Lemma swapchain_vectors_keep_their_length_witness :
  let s1 := (Initialize calm (boot zeroed "VK2" sources_only)).2 in
  let s2 := (Run calm 3 s1).2 in
  length (SwapchainImages (eng s1)) = length (SwapchainImageViews (eng s1)) /\
  length (SwapchainImageViews (eng s1)) = length (Framebuffers (eng s1)) /\
  length (SwapchainImages (eng s2)) = length (SwapchainImageViews (eng s2)) /\
  length (SwapchainImageViews (eng s2)) = length (Framebuffers (eng s2)).
Proof.
  intros s1.
  apply (swapchain_vectors_keep_their_length calm zeroed "VK2" sources_only 3 s1).
  vm_compute. reflexivity.
Defined.

(** ** Teardown and initialisation, further *)

Section TeardownKinds.
Context `{FloatOps}.

Lemma keeps_extends_weaken {A} (P Q : Call -> Prop) (m : M A) :
  (forall c, P c -> Q c) -> keeps (extends P) m -> keeps (extends Q) m.
Proof. intros HPQ Hm s. eapply extends_weaken; [exact HPQ | apply Hm]. Qed.

Lemma Cleanup_loop_extends (P : Call -> Prop) todo : forall i,
  (forall k h, device_child k = true -> P (c_destroy k h)) ->
  keeps (extends P) (Cleanup_loop todo i).
Proof.
  induction todo as [|todo IH]; intros i HP; cbn; [repeat keeps_step|].
  apply keeps_bind; [tc_solve | | intros _; by apply IH].
  unfold Cleanup_body. repeat keeps_step; by apply HP.
Qed.

Lemma Cleanup_extends : keeps (extends (destroys torn_down)) Cleanup.
Proof.
  unfold Cleanup.
  repeat first [ apply Cleanup_loop_extends; intros [] ?; by cbn
               | keeps_step ].
Qed.

Lemma destroyed_elem_of (h : History) k x :
  (k, x) ∈ destroyed h <-> c_destroy k x ∈ h.
Proof.
  unfold destroyed. induction h as [|c h IH]; cbn.
  - by rewrite !elem_of_nil.
  - rewrite elem_of_app, elem_of_cons, IH.
    destruct c; cbn; rewrite ?elem_of_nil, ?list_elem_of_singleton;
      split; intros [?|?]; simplify_eq; auto; done.
Qed.

End TeardownKinds.

(** X7.  From its start to its end, however it ends, [Exec] makes a
    destroy call only for a command pool, a swapchain, a render pass, a
    framebuffer, an image view, a device, a surface, a debug messenger,
    an instance or a window: never for the fence, for a semaphore, for
    the command buffer or for a shader module. *)
Theorem Exec_destroys_no_sync_object `{FloatOps}
    (env : Env) (fuel : nat) (s : Sys) (k : Kind) (h : Handle) :
  (k, h) ∈ destroyed (added s (Exec env fuel s).2) ->
  torn_down k = true.
Proof.
  intros Hin.
  assert (Hexec : keeps (extends (fun c => not_destroy c \/ destroys torn_down c))
                    (Exec env fuel)).
  { unfold Exec, Run.
    repeat first
      [ apply (keeps_extends_weaken not_destroy); [by left | apply Initialize_extends]
      | apply (keeps_extends_weaken not_destroy); [by left | apply Run_loop_extends]
      | apply (keeps_extends_weaken (destroys torn_down));
          [by right | apply Cleanup_extends]
      | keeps_step ]; by left. }
  specialize (Hexec s). apply extends_added in Hexec.
  apply destroyed_elem_of in Hin.
  rewrite Forall_forall in Hexec. by destruct (Hexec _ Hin).
Qed.

Lemma Exec_destroys_no_sync_object_witness :
  torn_down KFramebuffer = true.
Proof.
  apply (Exec_destroys_no_sync_object calm 1 (boot zeroed "VK2" sources_cached)
           KFramebuffer 16%nat).
  vm_compute. apply list_elem_of_In. vm_compute. tauto.
Defined.

(** X8.  On an initialised engine that has a framebuffer for every
    image view, [Cleanup] returns, and its calls come in this order:
    first the objects made from the device (command pool, swapchain,
    render pass, then each framebuffer followed by its image view), then
    the device, the surface, the debug messenger, the instance, and the
    window last. *)
Theorem Cleanup_destroys_the_device_after_its_objects `{FloatOps} (s : Sys) :
  IsInitialized (eng s) = true ->
  (length (SwapchainImageViews (eng s)) <= length (Framebuffers (eng s)))%nat ->
  let e := eng s in
  exists children : list Call,
    Cleanup s = (Ret tt, with_log (fun l => l ++ children
      ++ [c_destroy KDevice (Device e); c_destroy KSurface (Surface e);
          c_destroy KDebugMessenger (DebugMessenger e);
          c_destroy KInstance (Instance e); c_destroy KWindow (Window e)]) s) /\
    Forall (destroys device_child) children /\
    destroyed children ≡ₚ
      [(KCommandPool, CommandPool e); (KSwapchain, Swapchain e);
       (KRenderPass, RenderPass e)]
      ++ map (pair KFramebuffer)
           (take (length (SwapchainImageViews e)) (Framebuffers e))
      ++ map (pair KImageView) (SwapchainImageViews e).
Proof.
  intros Hflag Hlen e. rewrite Cleanup_run by done. unfold Cleanup_calls. fold e.
  eexists. split; [by rewrite <- app_assoc|]. split.
  - repeat (apply Forall_cons; split; [done|]).
    generalize (take (length (SwapchainImageViews e)) (Framebuffers e)).
    generalize (SwapchainImageViews e).
    intros views fbs. revert views.
    induction fbs as [|fb fbs IH]; intros [|view views]; cbn; try done.
    repeat (apply Forall_cons; split; [done|]). apply IH.
  - rewrite (destroyed_app [_; _; _]). subst e.
    rewrite Cleanup_pairs_destroyed by (rewrite length_take; lia). done.
Qed.

Lemma Cleanup_destroys_the_device_after_its_objects_witness :
  let s := ready calm in
  let e := eng s in
  exists children : list Call,
    Cleanup s = (Ret tt, with_log (fun l => l ++ children
      ++ [c_destroy KDevice (Device e); c_destroy KSurface (Surface e);
          c_destroy KDebugMessenger (DebugMessenger e);
          c_destroy KInstance (Instance e); c_destroy KWindow (Window e)]) s) /\
    Forall (destroys device_child) children /\
    destroyed children ≡ₚ
      [(KCommandPool, CommandPool e); (KSwapchain, Swapchain e);
       (KRenderPass, RenderPass e)]
      ++ map (pair KFramebuffer)
           (take (length (SwapchainImageViews e)) (Framebuffers e))
      ++ map (pair KImageView) (SwapchainImageViews e).
Proof.
  intros s.
  apply (Cleanup_destroys_the_device_after_its_objects s).
  - vm_compute. reflexivity.
  - vm_compute. lia.
Defined.

Section InitFurther.
Context `{FloatOps} (env : Env).

(** Whatever returns at the end of [Initialize] has set the flag. *)
Lemma Initialize_Ret_flag (s s' : Sys) :
  Initialize env s = (Ret tt, s') -> IsInitialized (eng s') = true.
Proof.
  unfold Initialize. intros Hrun.
  repeat (apply bind_Ret_inv in Hrun as (? & ? & _ & Hrun)).
  by injection Hrun as <-.
Qed.

(** The loop of [InitFramebuffers] reads past the end of the image
    views when they are fewer than the rounds. *)
Lemma InitFramebuffers_loop_Undefined (todo : nat) : forall (i : nat) (s : Sys),
  (forall h, answer_vk env h E_vkCreateFramebuffer = VK_SUCCESS) ->
  (i <= length (SwapchainImageViews (eng s)) < i + todo)%nat ->
  (InitFramebuffers_loop env todo i s).1 = Undefined.
Proof.
  induction todo as [|todo IH]; intros i s Hvk Hlen; [lia|].
  cbn. unfold bind. rewrite InitFramebuffers_body_run.
  destruct (SwapchainImageViews (eng s) !! i) as [view|] eqn:Hview; [|done].
  cbn zeta. rewrite Hvk. cbn.
  apply lookup_lt_Some in Hview. apply IH; [done|]. cbn. lia.
Qed.

End InitFurther.

(** X9.  When [SDL_Init] fails, or succeeds and the window cannot be
    created, [Initialize] throws [runtime_error] with the message of the
    source after that call: no Vulkan object has been created and the
    flag is not set. *)
Theorem Initialize_stops_when_SDL_fails `{FloatOps} (env : Env) (s : Sys) :
  let r := answer_SDL_Init env (log s) in
  let made := answer_SDL_CreateWindow env (log s ++ [c_SDL_Init r]) in
  r <> 0 \/ made = false ->
  let s' := (Initialize env s).2 in
  (Initialize env s).1
    = Throw (runtime_error (if bool_decide (r <> 0)
                            then "Could not initialize SDL."
                            else "Failed to create SDL Window")) /\
  created (added s s') = [] /\
  IsInitialized (eng s') = IsInitialized (eng s).
Proof.
  intros r made Hfail. subst r made. destruct s as [e n f l]. cbn [log] in *.
  set (r := answer_SDL_Init env l) in *.
  case_bool_decide as Hr.
  - assert (Hrun : Initialize env {| eng := e; next_handle := n; fs := f; log := l |}
                   = (Throw (runtime_error "Could not initialize SDL."),
                      {| eng := e; next_handle := n; fs := f;
                         log := l ++ [c_SDL_Init r] |})).
    { unfold Initialize, bind, ask, emit, throw, with_log. cbn -[InitVulkan].
      fold r. by rewrite bool_decide_true. }
    rewrite Hrun. cbn [fst snd]. erewrite added_app by reflexivity. done.
  - destruct Hfail as [?|Hmade]; [done|].
    assert (Hrun : Initialize env {| eng := e; next_handle := n; fs := f; log := l |}
                   = (Throw (runtime_error "Failed to create SDL Window"),
                      {| eng := set_Window 0%nat e; next_handle := n; fs := f;
                         log := l ++ [c_SDL_Init r;
                                      c_SDL_CreateWindow (AppName e) (WindowExtents e)
                                        0%nat] |})).
    { unfold Initialize, bind, ask, emit, this, throw, ret, set, with_log, with_eng.
      cbn -[InitVulkan]. fold r. rewrite bool_decide_false by naive_solver.
      cbn -[InitVulkan]. rewrite Hmade. cbn. by rewrite <- app_assoc. }
    rewrite Hrun. cbn [fst snd]. erewrite added_app by reflexivity. done.
Qed.

Lemma Initialize_stops_when_SDL_fails_witness :
  let env := world all_succeed (quit_at 0) first_image compiles in
  let broken :=
    {| answer_SDL_Init := fun _ => -1;
       answer_SDL_CreateWindow := answer_SDL_CreateWindow env;
       answer_SDL_Vulkan_CreateSurface := answer_SDL_Vulkan_CreateSurface env;
       answer_SDL_PollEvent := answer_SDL_PollEvent env;
       answer_queue_family := answer_queue_family env;
       answer_image_format := answer_image_format env;
       answer_image_count := answer_image_count env;
       answer_vk := answer_vk env;
       answer_vkb_has_value := answer_vkb_has_value env;
       answer_acquire_index := answer_acquire_index env;
       answer_indeterminate := answer_indeterminate env;
       answer_shaderc := answer_shaderc env;
       answer_open_read := answer_open_read env;
       answer_open_write := answer_open_write env;
       answer_clock := answer_clock env |} in
  let s := boot zeroed "VK2" sources_cached in
  let r := answer_SDL_Init broken (log s) in
  let s' := (Initialize broken s).2 in
  (Initialize broken s).1
    = Throw (runtime_error (if bool_decide (r <> 0)
                            then "Could not initialize SDL."
                            else "Failed to create SDL Window")) /\
  created (added s s') = [] /\
  IsInitialized (eng s') = IsInitialized (eng s).
Proof.
  intros env broken s.
  apply (Initialize_stops_when_SDL_fails broken s).
  left. vm_compute. discriminate.
Defined.

(** X10.  [IsInitialized] is set by the last statement of [Initialize]
    and by nothing before it: on an engine not yet initialised, the flag
    is true after [Initialize] exactly when [Initialize] returned. *)
Theorem IsInitialized_tells_a_complete_initialisation `{FloatOps}
    (env : Env) (s : Sys) :
  IsInitialized (eng s) = false ->
  (IsInitialized (eng (Initialize env s).2) = true <-> (Initialize env s).1 = Ret tt).
Proof.
  intros Hflag. split.
  - intros Hset. destruct (Initialize env s) as [[[]|e| |] s'] eqn:Hinit; [done|..];
      (assert (Hsame : same_flag s (Initialize env s).2)
         by (apply Initialize_flag; rewrite Hinit; intros a; discriminate));
      unfold same_flag in Hsame; rewrite Hinit in Hsame; cbn in *; congruence.
  - intros Hret. destruct (Initialize env s) as [r s'] eqn:Hinit. cbn in *.
    subst r. by apply (Initialize_Ret_flag env s s').
Qed.

Lemma IsInitialized_tells_a_complete_initialisation_witness :
  IsInitialized (eng (Initialize calm (boot zeroed "VK2" sources_cached)).2) = true
  <-> (Initialize calm (boot zeroed "VK2" sources_cached)).1 = Ret tt.
Proof.
  apply (IsInitialized_tells_a_complete_initialisation calm (boot zeroed "VK2" sources_cached)).
  vm_compute. reflexivity.
Defined.

(** X11.  When the command pool is created and the command buffer
    cannot be allocated, [InitCommands] throws
    [runtime_error("Failed to allocate a command buffer.")]; the pool
    stays in [CommandPool], it is the only object created, and it is not
    destroyed. *)
Theorem InitCommands_keeps_the_pool_when_allocation_fails `{FloatOps}
    (env : Env) (s : Sys) :
  let e := eng s in
  let pool := c_vkCreateCommandPool (Device e) (GraphicsQueueFamily e)
                VK_SUCCESS (next_handle s) in
  answer_vk env (log s) E_vkCreateCommandPool = VK_SUCCESS ->
  vk_nonzero (answer_vk env (log s ++ [pool]) E_vkAllocateCommandBuffers) = true ->
  let s' := (InitCommands env s).2 in
  (InitCommands env s).1 = Throw (runtime_error "Failed to allocate a command buffer.") /\
  CommandPool (eng s') = next_handle s /\
  created (added s s') = [(KCommandPool, next_handle s)] /\
  destroyed (added s s') = [].
Proof.
  intros e pool Hpool Halloc. subst e pool. destruct s as [e n f l].
  cbn [eng log next_handle] in *.
  unfold InitCommands, bind, this, set, throw, ret. cbn -[create added].
  rewrite create_run. cbn -[create added]. rewrite Hpool. cbn -[create added].
  rewrite create_run. cbn -[added]. repeat (rewrite Halloc; cbn -[added]).
  erewrite added_app
    by (unfold with_log, with_eng, with_next; cbn; rewrite <- app_assoc; reflexivity).
  unfold created, destroyed. cbn. rewrite Halloc. done.
Qed.

Lemma InitCommands_keeps_the_pool_when_allocation_fails_witness :
  let env := world (only E_vkAllocateCommandBuffers VK_ERROR_OUT_OF_HOST_MEMORY)
               (quit_at 0) first_image compiles in
  let s := boot zeroed "VK2" sources_cached in
  let s' := (InitCommands env s).2 in
  (InitCommands env s).1 = Throw (runtime_error "Failed to allocate a command buffer.") /\
  CommandPool (eng s') = next_handle s /\
  created (added s s') = [(KCommandPool, next_handle s)] /\
  destroyed (added s s') = [].
Proof.
  intros env s.
  apply (InitCommands_keeps_the_pool_when_allocation_fails env s).
  - reflexivity.
  - reflexivity.
Defined.

(** X12.  When [InitFramebuffers] returns, framebuffer [i] was created
    for image view [i], with the render pass and the extent of the
    window: the [i]-th call is the creation, with success, of the handle
    now at [Framebuffers[i]] on [SwapchainImageViews[i]]. *)
Theorem InitFramebuffers_binds_each_view `{FloatOps}
    (env : Env) (s s' : Sys) (i : nat) :
  InitFramebuffers env s = (Ret tt, s') ->
  (i < length (SwapchainImages (eng s)))%nat ->
  exists view framebuffer,
    SwapchainImageViews (eng s) !! i = Some view /\
    Framebuffers (eng s') !! i = Some framebuffer /\
    added s s' !! i =
      Some (c_vkCreateFramebuffer (Device (eng s)) (RenderPass (eng s)) view
              (WindowExtents (eng s)) VK_SUCCESS framebuffer) /\
    length (added s s') = length (SwapchainImages (eng s)).
Proof.
  intros Hrun Hi. apply InitFramebuffers_Ret in Hrun as [Hlen ->].
  erewrite added_app by reflexivity. cbn.
  set (n := length (SwapchainImages (eng s))) in *.
  set (views := take n (SwapchainImageViews (eng s))) in *.
  assert (Hcalls : forall vs first j view,
            vs !! j = Some view ->
            framebuffer_calls (eng s) vs first !! j
            = Some (c_vkCreateFramebuffer (Device (eng s)) (RenderPass (eng s)) view
                      (WindowExtents (eng s)) VK_SUCCESS (first + j)%nat)).
  { induction vs as [|v vs IH]; intros first [|j] view Hv; try done.
    - cbn in *. injection Hv as ->. by rewrite Nat.add_0_r.
    - refine (eq_trans (IH (S first) j view Hv) _). do 2 f_equal. lia. }
  assert (Hcount : forall vs first, length (framebuffer_calls (eng s) vs first) = length vs).
  { induction vs as [|v vs IH]; intros first; cbn; [done|]. by rewrite IH. }
  destruct (lookup_lt_is_Some_2 views i) as [view Hview]; [lia|].
  exists view, (next_handle s + i)%nat. repeat split.
  - subst views. by rewrite lookup_take_lt in Hview by lia.
  - rewrite lookup_seq. split; [done | lia].
  - by apply Hcalls.
  - by rewrite Hcount.
Qed.

Lemma InitFramebuffers_binds_each_view_witness :
  let s := before_framebuffers calm in
  let s' := (InitFramebuffers calm s).2 in
  exists view framebuffer,
    SwapchainImageViews (eng s) !! 1%nat = Some view /\
    Framebuffers (eng s') !! 1%nat = Some framebuffer /\
    added s s' !! 1%nat =
      Some (c_vkCreateFramebuffer (Device (eng s)) (RenderPass (eng s)) view
              (WindowExtents (eng s)) VK_SUCCESS framebuffer) /\
    length (added s s') = length (SwapchainImages (eng s)).
Proof.
  intros s s'. apply (InitFramebuffers_binds_each_view calm s s' 1).
  - vm_compute. reflexivity.
  - vm_compute. lia.
Defined.

(** X13.  The loop of [InitFramebuffers] counts the swapchain images
    and indexes the image views: with fewer image views than images (and
    a driver that creates every framebuffer) it reads
    [SwapchainImageViews] out of bounds, which is undefined behaviour. *)
Theorem InitFramebuffers_needs_a_view_per_image `{FloatOps} (env : Env) (s : Sys) :
  (forall h, answer_vk env h E_vkCreateFramebuffer = VK_SUCCESS) ->
  (length (SwapchainImageViews (eng s)) < length (SwapchainImages (eng s)))%nat ->
  (InitFramebuffers env s).1 = Undefined.
Proof.
  intros Hvk Hlen. unfold InitFramebuffers, bind, this, set. cbn.
  apply InitFramebuffers_loop_Undefined; [done|]. cbn. lia.
Qed.

Lemma InitFramebuffers_needs_a_view_per_image_witness :
  let s := with_eng (set_SwapchainImageViews [11%nat]) (before_framebuffers calm) in
  (InitFramebuffers calm s).1 = Undefined.
Proof.
  intros s. apply (InitFramebuffers_needs_a_view_per_image calm s).
  - intros h. reflexivity.
  - vm_compute. lia.
Defined.

(** X14.  When [LoadShaderModule] returns, the module it returns was
    made from exactly the bytes of the artifact [glslPath + ".spv"] as
    it is on disk after the call; the module is the one object created,
    the compiler ran at most once, the source file is as it was, and no
    member of the engine changed (the device is only read). *)
Theorem LoadShaderModule_loads_the_artifact `{FloatOps}
    (env : Env) (glslPath : string) (s s' : Sys) (h : Handle) :
  LoadShaderModule env glslPath s = (Ret h, s') ->
  exists artifact,
    fs s' !! (glslPath +:+ ".spv") = Some artifact /\
    last (log s') = Some (c_vkCreateShaderModule (Device (eng s)) (bytes artifact)
                            VK_SUCCESS h) /\
    created (added s s') = [(KShaderModule, h)] /\
    (compilations (added s s') <= 1)%nat /\
    fs s' !! glslPath = fs s !! glslPath /\
    eng s' = eng s.
Proof.
  intros Hrun.
  destruct (LoadShaderModule_Ret env glslPath s s' h Hrun)
    as (src & artifact & Hsrc & Hartifact & -> & Heng &
        [(Hfs & _ & Hlog) | (Hfs & _ & Hlog)]);
    exists artifact; (split; [done|]);
    rewrite (added_app _ _ _ Hlog), Hlog, Hfs, last_app;
    (split_and!; [done|done|cbn; lia| |done]).
  - done.
  - apply lookup_insert_ne, spv_path_differs.
Qed.

Lemma LoadShaderModule_loads_the_artifact_witness :
  let s := boot zeroed "VK2" sources_only in
  let s' := (LoadShaderModule calm vert s).2 in
  exists artifact,
    fs s' !! (vert +:+ ".spv") = Some artifact /\
    last (log s') = Some (c_vkCreateShaderModule (Device (eng s)) (bytes artifact)
                            VK_SUCCESS 1%nat) /\
    created (added s s') = [(KShaderModule, 1%nat)] /\
    (compilations (added s s') <= 1)%nat /\
    fs s' !! vert = fs s !! vert /\
    eng s' = eng s.
Proof.
  intros s s'. apply (LoadShaderModule_loads_the_artifact calm vert s s' 1%nat).
  vm_compute. reflexivity.
Defined.

(** X15.  The cache works: after a load that returned, with a clock
    that is not behind the source's modification time, a second load of
    the same source (files that open, a driver that accepts the module)
    invokes the compiler zero times, changes no file, and makes its
    module from the bytes of the artifact the first load left. *)
Theorem second_load_reuses_the_artifact `{FloatOps}
    (env : Env) (glslPath : string) (s s' : Sys) (h : Handle) :
  LoadShaderModule env glslPath s = (Ret h, s') ->
  (forall hist src, fs s !! glslPath = Some src -> mtime src <= answer_clock env hist) ->
  (forall hist p, answer_open_read env hist p = true) ->
  (forall hist, answer_vk env hist E_vkCreateShaderModule = VK_SUCCESS) ->
  exists artifact,
    fs s' !! (glslPath +:+ ".spv") = Some artifact /\
    cache_reused env s' glslPath artifact.
Proof.
  intros Hrun Hclock Hread Hvk.
  destruct (LoadShaderModule_Ret env glslPath s s' h Hrun)
    as (src & artifact & Hsrc & Hartifact & -> & Heng & Hcase).
  exists artifact. split; [done|].
  assert (Hsrc' : fs s' !! glslPath = Some src).
  { destruct Hcase as [(-> & _) | (-> & _)]; [done|].
    by rewrite lookup_insert_ne by apply spv_path_differs. }
  assert (Hle : mtime src <= mtime artifact).
  { destruct Hcase as [(_ & Hle & _) | (_ & -> & _)]; [done|]. cbn. by apply Hclock. }
  unfold cache_reused.
  rewrite (LoadShaderModule_fresh env s' glslPath src artifact) by done.
  cbn. erewrite added_app by reflexivity. by repeat split.
Qed.

Lemma second_load_reuses_the_artifact_witness :
  let s := boot zeroed "VK2" sources_only in
  let s' := (LoadShaderModule calm vert s).2 in
  exists artifact,
    fs s' !! (vert +:+ ".spv") = Some artifact /\
    cache_reused calm s' vert artifact.
Proof.
  intros s s'. apply (second_load_reuses_the_artifact calm vert s s' 1%nat).
  - vm_compute. reflexivity.
  - intros hist src Hsrc. vm_compute in Hsrc. injection Hsrc as <-.
    vm_compute. discriminate.
  - intros hist p. reflexivity.
  - intros hist. reflexivity.
Defined.

(** X16.  [CompileGlslToSpv] always returns a boolean (it never
    throws), invokes the compiler at most once and changes no member of
    the engine.  It returns [true] exactly when it wrote the output file,
    which then holds the bytes the compiler produced without error; when
    it returns [false] no file has changed. *)
Theorem CompileGlslToSpv_tells_whether_it_wrote `{FloatOps}
    (env : Env) (glslPath : string) (out : option string) (s : Sys) :
  let run := CompileGlslToSpv env glslPath out s in
  exists b : bool,
    run.1 = Ret b /\
    eng run.2 = eng s /\
    (compilations (added s run.2) <= 1)%nat /\
    if b
    then exists src,
           fs s !! glslPath = Some src /\
           GetNumErrors (compile_result env s glslPath src) = O /\
           fs run.2 =
             <[default (glslPath +:+ ".spv") out :=
                 {| mtime := answer_clock env (log s ++ [compile_call env s glslPath src]);
                    bytes := spirv (compile_result env s glslPath src) |}]> (fs s)
    else fs run.2 = fs s.
Proof.
  intros run. subst run. rewrite CompileGlslToSpv_run.
  assert (Hnone : added s s = []) by (unfold added; by rewrite drop_all).
  destruct (fs s !! glslPath) as [src|] eqn:Hsrc.
  2: { exists false. cbn [fst snd]. rewrite Hnone. by split_and!; [..|cbn; lia|]. }
  destruct (answer_open_read env (log s) glslPath).
  2: { exists false. cbn [fst snd]. rewrite Hnone. by split_and!; [..|cbn; lia|]. }
  cbn zeta. case_bool_decide as Herr.
  { exists false. cbn [fst snd]. erewrite added_app by (destruct s; reflexivity).
    destruct s. by split_and!; [..|cbn; lia|]. }
  destruct (answer_open_write env _ _).
  - exists true. cbn [fst snd]. erewrite added_app by (destruct s; reflexivity).
    split_and!; [done|by destruct s|cbn; lia|].
    exists src. split_and!; [done|lia|by destruct s].
  - exists false. cbn [fst snd]. erewrite added_app by (destruct s; reflexivity).
    destruct s. by split_and!; [..|cbn; lia|].
Qed.

(** The C string in a buffer that was given its terminating NUL. *)
Lemma c_str_cut (before after : list Byte.byte) :
  Forall (fun b => b <> Byte.x00) before ->
  c_str (before ++ [Byte.x00]) = before /\
  c_str ((before ++ Byte.x00 :: after) ++ [Byte.x00]) = before.
Proof.
  intros Hbefore.
  assert (Hgen : forall rest, c_str (before ++ Byte.x00 :: rest) = before).
  { intros rest. induction Hbefore as [|b before Hb _ IH]; [done|].
    cbn. destruct (Byte.eqb b Byte.x00) eqn:Heq; [|by rewrite IH].
    by apply Stdlib.Strings.Byte.byte_dec_bl in Heq. }
  split; [apply Hgen|]. rewrite <- app_assoc. apply Hgen.
Qed.

(** X17.  [CompileGlslToSpv] hands the compiler the content of the
    source file as a C string ([buffer.data()] after [push_back(0)]).
    For a source file that is there and opens, the first call it makes
    is the compilation, and the text compiled is the whole content of
    the file when that holds no NUL byte, and otherwise only the bytes
    before its first NUL. *)
Theorem compiler_reads_up_to_the_first_NUL `{FloatOps}
    (env : Env) (glslPath : string) (out : option string) (s : Sys)
    (src : File) (before after : list Byte.byte) :
  fs s !! glslPath = Some src ->
  answer_open_read env (log s) glslPath = true ->
  Forall (fun b => b <> Byte.x00) before ->
  bytes src = before \/ bytes src = before ++ Byte.x00 :: after ->
  head (added s (CompileGlslToSpv env glslPath out s).2)
    = Some (c_shaderc_CompileGlslToSpv before glslPath
              (answer_shaderc env (log s) before glslPath)).
Proof.
  intros Hsrc Hread Hbefore Hbytes.
  rewrite CompileGlslToSpv_run, Hsrc, Hread. cbn zeta.
  assert (Hcall : compile_call env s glslPath src
                  = c_shaderc_CompileGlslToSpv before glslPath
                      (answer_shaderc env (log s) before glslPath)).
  { unfold compile_call. cbn zeta.
    destruct (c_str_cut before after Hbefore) as [Hwhole Hcut].
    by destruct Hbytes as [-> | ->]; rewrite ?Hwhole, ?Hcut. }
  rewrite Hcall. case_bool_decide.
  - cbn [snd]. erewrite added_app by (destruct s; reflexivity). done.
  - destruct (answer_open_write env _ _); cbn [snd];
      erewrite added_app by (destruct s; reflexivity); done.
Qed.

Lemma compiler_reads_up_to_the_first_NUL_witness :
  let src := {| mtime := 10;
                bytes := [Byte.x76; Byte.x6f; Byte.x00; Byte.x69; Byte.x64] |} in
  let s := boot zeroed "VK2" {[ vert := src ]} in
  head (added s (CompileGlslToSpv calm vert None s).2)
    = Some (c_shaderc_CompileGlslToSpv [Byte.x76; Byte.x6f] vert
              (answer_shaderc calm (log s) [Byte.x76; Byte.x6f] vert)).
Proof.
  intros src s.
  apply (compiler_reads_up_to_the_first_NUL calm vert None s src
           [Byte.x76; Byte.x6f] [Byte.x69; Byte.x64]).
  - vm_compute. reflexivity.
  - reflexivity.
  - repeat constructor; discriminate.
  - right. reflexivity.
Defined.



(** ** The stages of [Initialize] *)

(** X19.  Neither [InitVulkan] nor [InitSwapchain] ever throws.  The
    result of [SDL_Vulkan_CreateSurface] is dropped and the value of
    every result of vk-bootstrap is taken without a test, so that no
    failure in these two steps is an exception: none of them can reach
    the handler of [Exec]. *)
Theorem InitVulkan_and_InitSwapchain_never_throw `{FloatOps}
    (env : Env) (s : Sys) (e : Exn) :
  (InitVulkan env s).1 <> Throw e /\ (InitSwapchain env s).1 <> Throw e.
Proof.
  split.
  - revert s e. change (never_throws (InitVulkan env)).
    unfold InitVulkan. repeat never_throws_step.
  - revert s e. change (never_throws (InitSwapchain env)).
    unfold InitSwapchain. repeat never_throws_step.
Qed.



(** X22.  Nothing is destroyed before [Cleanup]: however they end,
    neither [Initialize] nor the event loop makes a destroy call, so
    what a failed initialisation has created stays alive. *)
Theorem nothing_is_destroyed_before_Cleanup `{FloatOps}
    (env : Env) (fuel : nat) (s : Sys) :
  destroyed (added s (Initialize env s).2) = [] /\
  destroyed (added s (Run env fuel s).2) = [].
Proof.
  split.
  - destruct (Initialize_extends env s) as (ext & Hlog & Hext).
    rewrite (added_app _ _ _ Hlog). by apply destroyed_none.
  - destruct (Run_loop_extends env fuel s) as (ext & Hlog & Hext).
    unfold Run. rewrite (added_app _ _ _ Hlog). by apply destroyed_none.
Qed.

(** ** The whole of [Initialize] *)


(** X21.  The data flow of a complete initialisation on a fresh engine:
    every call is made on what the calls before it delivered, and every
    member of the engine holds what its call delivered.  The swapchain is
    built on the device, for the surface and the extent of the window;
    the command pool is made for the queue family of the graphics queue;
    the render pass for the format of the swapchain; one framebuffer per
    image view; then the fence and the two semaphores; the calls of
    [InitPipelines] come last. *)
Theorem Initialize_call_sequence `{FloatOps}
    (env : Env) (storage : Engine) (app : string) (disk : gmap string File)
    (s1 : Sys) :
  Initialize env (boot storage app disk) = (Ret tt, s1) ->
  let e := eng s1 in
  exists (surface_made : bool) (shaders : list Call),
    log s1 =
      [c_SDL_Init 0;
       c_SDL_CreateWindow app (WindowExtents e) (Window e);
       c_vkb_InstanceBuilder_build app (Instance e) (DebugMessenger e);
       c_SDL_Vulkan_CreateSurface (Window e) (Instance e) surface_made (Surface e);
       c_vkb_PhysicalDeviceSelector_select (Surface e) (ChosenGPU e);
       c_vkb_DeviceBuilder_build (ChosenGPU e) (Device e);
       c_vkb_get_queue (Device e) (GraphicsQueue e) (GraphicsQueueFamily e);
       c_vkb_SwapchainBuilder_build (Device e) (Surface e) (WindowExtents e)
         (Swapchain e) (SwapchainFormat e) (SwapchainImages e)
         (SwapchainImageViews e);
       c_vkCreateCommandPool (Device e) (GraphicsQueueFamily e) VK_SUCCESS
         (CommandPool e);
       c_vkAllocateCommandBuffers (Device e) (CommandPool e) VK_SUCCESS
         (MainCommandBuffer e);
       c_vkCreateRenderPass (Device e) (SwapchainFormat e) VK_SUCCESS (RenderPass e)]
      ++ zip_with (fun view framebuffer =>
                     c_vkCreateFramebuffer (Device e) (RenderPass e) view
                       (WindowExtents e) VK_SUCCESS framebuffer)
           (SwapchainImageViews e) (Framebuffers e)
      ++ [c_vkCreateFence (Device e) VK_SUCCESS (RenderFence e);
          c_vkCreateSemaphore (Device e) VK_SUCCESS (PresentSemaphore e);
          c_vkCreateSemaphore (Device e) VK_SUCCESS (RenderSemaphore e)]
      ++ shaders /\
    map fst (created shaders) = [KShaderModule; KShaderModule].
Proof.
  intros Hrun e.
  destruct (Initialize_log env storage app disk s1 Hrun)
    as (made & shaders & _ & _ & _ & _ & Hlog & (vertex & fragment & Hshaders) & _).
  exists made, shaders. split; [exact Hlog|]. by rewrite Hshaders.
Qed.

Lemma Initialize_call_sequence_witness :
  let app := "VK2" in
  let s1 := ready calm in
  let e := eng s1 in
  exists (surface_made : bool) (shaders : list Call),
    log s1 =
      [c_SDL_Init 0;
       c_SDL_CreateWindow app (WindowExtents e) (Window e);
       c_vkb_InstanceBuilder_build app (Instance e) (DebugMessenger e);
       c_SDL_Vulkan_CreateSurface (Window e) (Instance e) surface_made (Surface e);
       c_vkb_PhysicalDeviceSelector_select (Surface e) (ChosenGPU e);
       c_vkb_DeviceBuilder_build (ChosenGPU e) (Device e);
       c_vkb_get_queue (Device e) (GraphicsQueue e) (GraphicsQueueFamily e);
       c_vkb_SwapchainBuilder_build (Device e) (Surface e) (WindowExtents e)
         (Swapchain e) (SwapchainFormat e) (SwapchainImages e)
         (SwapchainImageViews e);
       c_vkCreateCommandPool (Device e) (GraphicsQueueFamily e) VK_SUCCESS
         (CommandPool e);
       c_vkAllocateCommandBuffers (Device e) (CommandPool e) VK_SUCCESS
         (MainCommandBuffer e);
       c_vkCreateRenderPass (Device e) (SwapchainFormat e) VK_SUCCESS (RenderPass e)]
      ++ zip_with (fun view framebuffer =>
                     c_vkCreateFramebuffer (Device e) (RenderPass e) view
                       (WindowExtents e) VK_SUCCESS framebuffer)
           (SwapchainImageViews e) (Framebuffers e)
      ++ [c_vkCreateFence (Device e) VK_SUCCESS (RenderFence e);
          c_vkCreateSemaphore (Device e) VK_SUCCESS (PresentSemaphore e);
          c_vkCreateSemaphore (Device e) VK_SUCCESS (RenderSemaphore e)]
      ++ shaders /\
    map fst (created shaders) = [KShaderModule; KShaderModule].
Proof.
  intros app s1. apply (Initialize_call_sequence calm zeroed app sources_cached s1).
  vm_compute. reflexivity.
Defined.
